(** * The Python bridge runtime ([plugins/python/bridge_runtime.py])

    A shallow embedding of [PythonBridge]: the command dispatcher
    [handle_command], the framing of [send_response] and [send_event], the
    built-in [ready] and [shutdown] handlers and the receive loop of [run],
    together with the parts of Python they rest on ([json.loads],
    [json.dumps], [str.strip], [str.encode], keyword-argument binding).

    Conventions.
    - A Python [str] is the list of its code points ([pystr]); [bytes] are
      [list byte].
    - Python objects that travel through the bridge are [pyval]s.  A [float]
      is the decimal text [float.__repr__] prints for it; the float of a
      number literal (binary64 rounding) is the interpreter's, a field of
      [pyenv].
    - The process is a [world]: the fields of the bridge object, what a
      subclass adds to it, and the two standard streams. *)

From Stdlib Require Import List NArith ZArith String Ascii Bool Lia Decimal.
From Stdlib.Strings Require Import Byte.
Import ListNotations.
Local Open Scope N_scope.
Local Open Scope list_scope.

(** ** Text *)

(** A Python [str]: its code points. *)
Definition pystr := list N.

(** An ASCII literal as a [pystr]. *)
Definition lit (s : string) : pystr := map N_of_ascii (list_ascii_of_string s).
Arguments lit s%_string.

(** The same, with every apostrophe of the literal standing for a double
    quote (code point 34), so that JSON text stays readable. *)
Definition qlit (s : string) : pystr :=
  map (fun c => if c =? 39 then 34 else c) (lit s).
Arguments qlit s%_string.

Fixpoint str_eqb (a b : pystr) : bool :=
  match a, b with
  | [], [] => true
  | x :: a', y :: b' => (x =? y) && str_eqb a' b'
  | _, _ => false
  end.

(** [sep.join(parts)] *)
Fixpoint join (sep : pystr) (parts : list pystr) : pystr :=
  match parts with
  | [] => []
  | [p] => p
  | p :: rest => p ++ sep ++ join sep rest
  end.

Definition digit_char (d : N) : N := 48 + d.

Fixpoint uint_text (u : uint) : pystr :=
  match u with
  | Nil => []
  | D0 u => digit_char 0 :: uint_text u
  | D1 u => digit_char 1 :: uint_text u
  | D2 u => digit_char 2 :: uint_text u
  | D3 u => digit_char 3 :: uint_text u
  | D4 u => digit_char 4 :: uint_text u
  | D5 u => digit_char 5 :: uint_text u
  | D6 u => digit_char 6 :: uint_text u
  | D7 u => digit_char 7 :: uint_text u
  | D8 u => digit_char 8 :: uint_text u
  | D9 u => digit_char 9 :: uint_text u
  end.

Definition int_text (i : Decimal.int) : pystr :=
  match i with
  | Pos u => uint_text u
  | Neg u => 45 :: uint_text u
  end.

(** [str(n)] for a natural number and [int.__repr__]. *)
Definition N_repr (n : N) : pystr := uint_text (N.to_uint n).
Definition int_repr (z : Z) : pystr := int_text (Z.to_int z).

(** One lower-case hexadecimal digit, and [format(n, "04x")]. *)
Definition hex_char (d : N) : N := if d <? 10 then 48 + d else 87 + d.

Definition hex4 (n : N) : pystr :=
  [ hex_char ((n / 4096) mod 16); hex_char ((n / 256) mod 16);
    hex_char ((n / 16) mod 16);   hex_char (n mod 16) ].

(** ** Values *)

(** A float, as the text [float.__repr__] prints for it. *)
Inductive pyfloat :=
| FNaN
| FInf (negative : bool)
| FDec (d : decimal).

(** The Python objects of the model.  [PObj t] is an object of class [t]
    for which [json] has no encoding (a [set], [bytes], an instance of a
    user class); tuples are [PList]s, which is how [json.dumps] writes
    them; dictionaries have [str] keys, kept in insertion order. *)
#[warnings="-register-all"]
Inductive pyval :=
| PNone
| PBool (b : bool)
| PInt (z : Z)
| PFloat (f : pyfloat)
| PStr (s : pystr)
| PList (l : list pyval)
| PDict (kv : list (pystr * pyval))
| PObj (tyname : pystr).

(** [type(v).__name__] *)
Definition type_name (v : pyval) : pystr :=
  match v with
  | PNone => lit "NoneType"
  | PBool _ => lit "bool"
  | PInt _ => lit "int"
  | PFloat _ => lit "float"
  | PStr _ => lit "str"
  | PList _ => lit "list"
  | PDict _ => lit "dict"
  | PObj t => t
  end.

Definition uint_is_zero (u : uint) : bool :=
  forallb (fun c => c =? 48) (uint_text u).

Definition float_is_zero (f : pyfloat) : bool :=
  match f with
  | FNaN | FInf _ => false
  | FDec (Decimal (Pos i | Neg i) fr) => uint_is_zero i && uint_is_zero fr
  | FDec (DecimalExp (Pos i | Neg i) fr _) => uint_is_zero i && uint_is_zero fr
  end.

(** [bool(v)]; an opaque object is taken to be true. *)
Definition truthy (v : pyval) : bool :=
  match v with
  | PNone => false
  | PBool b => b
  | PInt z => negb (z =? 0)%Z
  | PFloat f => negb (float_is_zero f)
  | PStr [] => false
  | PList [] => false
  | PDict [] => false
  | _ => true
  end.

(** [d.get(key)] and [d[key] = v] on the items of a dictionary. *)
Fixpoint dict_get (kv : list (pystr * pyval)) (key : pystr) : option pyval :=
  match kv with
  | [] => None
  | (k, v) :: rest => if str_eqb k key then Some v else dict_get rest key
  end.

Fixpoint dict_set (kv : list (pystr * pyval)) (key : pystr) (v : pyval)
  : list (pystr * pyval) :=
  match kv with
  | [] => [(key, v)]
  | (k, x) :: rest =>
      if str_eqb k key then (k, v) :: rest else (k, x) :: dict_set rest key v
  end.

(** ** Exceptions and results *)

(** An exception object: its class and [str(e)].  Every exception of the
    model has a [str]: one whose [__str__] raises is outside the model. *)
Record exn := { exn_class : pystr; exn_msg : pystr }.

Definition TypeError (msg : pystr) : exn := {| exn_class := lit "TypeError"; exn_msg := msg |}.
Definition AttributeError (msg : pystr) : exn :=
  {| exn_class := lit "AttributeError"; exn_msg := msg |}.
Definition RecursionError (msg : pystr) : exn :=
  {| exn_class := lit "RecursionError"; exn_msg := msg |}.
Definition UnicodeEncodeError (msg : pystr) : exn :=
  {| exn_class := lit "UnicodeEncodeError"; exn_msg := msg |}.

(** A computation that returns or raises an [Exception]. *)
Inductive res (A : Type) :=
| Ok (a : A)
| Err (e : exn).
Arguments Ok {A} a.
Arguments Err {A} e.

Definition bind {A B : Type} (r : res A) (k : A -> res B) : res B :=
  match r with
  | Ok a => k a
  | Err e => Err e
  end.

Notation "'do' x <- r ; k" := (bind r (fun x => k))
  (at level 10, x name, r at level 100, k at level 200).

(** ** [json.dumps] *)

(** [encode_basestring_ascii]: every character outside [' '..'~'], the
    double quote and the backslash are escaped; code points above the basic
    plane are written as a surrogate pair. *)
Definition escape_char (c : N) : pystr :=
  if c =? 34 then lit "\" ++ [34]
  else if c =? 92 then lit "\\"
  else if c =? 10 then lit "\n"
  else if c =? 13 then lit "\r"
  else if c =? 9 then lit "\t"
  else if c =? 12 then lit "\f"
  else if c =? 8 then lit "\b"
  else if (32 <=? c) && (c <=? 126) then [c]
  else if c <? 65536 then lit "\u" ++ hex4 c
  else
    let n := c - 65536 in
    lit "\u" ++ hex4 (N.lor 55296 (N.land (N.shiftr n 10) 1023))
    ++ lit "\u" ++ hex4 (N.lor 56320 (N.land n 1023)).

Definition encode_basestring_ascii (s : pystr) : pystr :=
  [34] ++ flat_map escape_char s ++ [34].

(** The exponent of a float, which [float.__repr__] writes with its
    sign. *)
Definition exponent_text (e : Decimal.int) : pystr :=
  match e with
  | Pos u => 43 :: uint_text u
  | Neg u => 45 :: uint_text u
  end.

(** [float.__repr__], as [json.dumps] writes it ([NaN] and the infinities
    by their JavaScript names). *)
Definition float_repr (f : pyfloat) : pystr :=
  match f with
  | FNaN => lit "NaN"
  | FInf false => lit "Infinity"
  | FInf true => lit "-Infinity"
  | FDec (Decimal i Nil) => int_text i
  | FDec (Decimal i fr) => int_text i ++ lit "." ++ uint_text fr
  | FDec (DecimalExp i Nil e) => int_text i ++ lit "e" ++ exponent_text e
  | FDec (DecimalExp i fr e) =>
      int_text i ++ lit "." ++ uint_text fr ++ lit "e" ++ exponent_text e
  end.

(** [json.dumps(v)] with the default options ([ensure_ascii], separators
    [", "] and [": "], [allow_nan]).  An object without an encoding makes
    the default hook raise [TypeError]. *)
Fixpoint json_dumps (v : pyval) : res pystr :=
  match v with
  | PNone => Ok (lit "null")
  | PBool true => Ok (lit "true")
  | PBool false => Ok (lit "false")
  | PInt z => Ok (int_repr z)
  | PFloat f => Ok (float_repr f)
  | PStr s => Ok (encode_basestring_ascii s)
  | PList l =>
      do parts <-
        (fix items (l : list pyval) : res (list pystr) :=
           match l with
           | [] => Ok []
           | x :: rest =>
               do t <- json_dumps x; do ts <- items rest; Ok (t :: ts)
           end) l;
      Ok (lit "[" ++ join (lit ", ") parts ++ lit "]")
  | PDict kv =>
      do parts <-
        (fix items (kv : list (pystr * pyval)) : res (list pystr) :=
           match kv with
           | [] => Ok []
           | (k, x) :: rest =>
               do t <- json_dumps x; do ts <- items rest;
               Ok ((encode_basestring_ascii k ++ lit ": " ++ t) :: ts)
           end) kv;
      Ok (lit "{" ++ join (lit ", ") parts ++ lit "}")
  | PObj t =>
      Err (TypeError (lit "Object of type " ++ t ++ lit " is not JSON serializable"))
  end.

(** ** The interpreter *)

(** What the runtime takes from the interpreter: [sys.version], the text
    [traceback.format_exc()] gives while an exception is handled, the
    name of the module that defines [PythonBridge] ([__main__] when the
    file is run as a script), and [float] of a number literal with a
    fraction or an exponent: the binary64 number nearest to it (an
    infinity, when it is too large), as [float.__repr__] prints it. *)
Record pyenv := {
  sys_version : pystr;
  format_exc : exn -> pystr;
  module_name : pystr;
  float_of_literal : decimal -> pyfloat;
}.

(** ** [json.loads]

    The decoder of CPython's [json] package ([json.decoder], [json.scanner]
    and their C accelerator), with its default options.  Two limits of the
    interpreter are not part of the model: the recursion limit on nested
    documents and the limit on the number of digits of an [int] literal. *)

(** The outcome of a scanning step: a value, with what is left of the
    document and the index reached; [JSONDecodeError(msg, doc, pos)]; or
    [Deep], when the budget of steps is used up. *)
Inductive scanned (A : Type) :=
| Found (a : A) (rest : pystr) (pos : N)
| Bad (msg : pystr) (pos : N)
| Deep.
Arguments Found {A} a rest pos.
Arguments Bad {A} msg pos.
Arguments Deep {A}.

Definition is_ws (c : N) : bool := (c =? 32) || (c =? 9) || (c =? 10) || (c =? 13).

Fixpoint skip_ws (s : pystr) (pos : N) : pystr * N :=
  match s with
  | c :: r => if is_ws c then skip_ws r (pos + 1) else (s, pos)
  | [] => ([], pos)
  end.

Definition is_digit (c : N) : bool := (48 <=? c) && (c <=? 57).

Fixpoint span_digits (s : pystr) : pystr * pystr :=
  match s with
  | c :: r => if is_digit c then let (ds, r') := span_digits r in (c :: ds, r') else ([], s)
  | [] => ([], [])
  end.

Fixpoint strip_prefix (p s : pystr) : option pystr :=
  match p, s with
  | [], _ => Some s
  | x :: p', y :: s' => if x =? y then strip_prefix p' s' else None
  | _ :: _, [] => None
  end.

Definition digit_cons (c : N) (u : uint) : uint :=
  match c - 48 with
  | 0 => D0 u | 1 => D1 u | 2 => D2 u | 3 => D3 u | 4 => D4 u
  | 5 => D5 u | 6 => D6 u | 7 => D7 u | 8 => D8 u | _ => D9 u
  end.

Definition uint_of_digits (ds : pystr) : uint := fold_right digit_cons Nil ds.

(** The parts of a number literal: an optional minus sign; a zero, or a
    digit from 1 to 9 and any digits; an optional fraction (a dot and at
    least one digit); an optional exponent ([e] or [E], an optional sign,
    at least one digit).  Each function gives what it read and what is
    left. *)
Definition number_sign (s : pystr) : bool * pystr :=
  match s with
  | c :: r => if c =? 45 then (true, r) else (false, s)
  | [] => (false, s)
  end.

Definition number_integer (s : pystr) : option (pystr * pystr) :=
  match s with
  | c :: r =>
      if (49 <=? c) && (c <=? 57)
      then let (ds, r') := span_digits r in Some (c :: ds, r')
      else if c =? 48 then Some ([c], r) else None
  | [] => None
  end.

Definition number_fraction (s : pystr) : option pystr * pystr :=
  match s with
  | dot :: d :: r =>
      if (dot =? 46) && is_digit d
      then let (ds, r') := span_digits r in (Some (d :: ds), r')
      else (None, s)
  | _ => (None, s)
  end.

Definition number_sign_or_plus (s : pystr) : bool * pystr :=
  match s with
  | sg :: r => if sg =? 45 then (true, r) else if sg =? 43 then (false, r) else (false, s)
  | [] => (false, s)
  end.

Definition number_exponent (s : pystr) : option (bool * pystr) * pystr :=
  match s with
  | e :: r =>
      if (e =? 101) || (e =? 69) then
        let (eneg, r1) := number_sign_or_plus r in
        match span_digits r1 with
        | ([], _) => (None, s)
        | (ds, r2) => (Some (eneg, ds), r2)
        end
      else (None, s)
  | [] => (None, s)
  end.

(** Without fraction and exponent the literal is an [int], otherwise the
    [float] of the literal. *)
Definition number_value (env : pyenv) (neg : bool) (ip : pystr) (frac : option pystr)
  (exp : option (bool * pystr)) : pyval :=
  let sign (n : bool) (u : uint) : Decimal.int := if n then Neg u else Pos u in
  let i := sign neg (uint_of_digits ip) in
  match frac, exp with
  | None, None => PInt (Z.of_int i)
  | Some f, None => PFloat (float_of_literal env (Decimal i (uint_of_digits f)))
  | None, Some (en, e) =>
      PFloat (float_of_literal env (DecimalExp i Nil (sign en (uint_of_digits e))))
  | Some f, Some (en, e) =>
      PFloat (float_of_literal env
                (DecimalExp i (uint_of_digits f) (sign en (uint_of_digits e))))
  end.

(** The number literal at the head of [s], if there is one. *)
Definition match_number (env : pyenv) (s : pystr) (pos : N)
  : option (pyval * pystr * N) :=
  let (neg, s1) := number_sign s in
  match number_integer s1 with
  | None => None
  | Some (ip, s2) =>
      let (frac, s3) := number_fraction s2 in
      let (exp, s4) := number_exponent s3 in
      Some (number_value env neg ip frac exp, s4,
            pos + N.of_nat (List.length s - List.length s4))
  end.

Definition hex_val (c : N) : option N :=
  if is_digit c then Some (c - 48)
  else if (97 <=? c) && (c <=? 102) then Some (c - 87)
  else if (65 <=? c) && (c <=? 70) then Some (c - 55)
  else None.

Definition hex4_val (a b c d : N) : option N :=
  match hex_val a, hex_val b, hex_val c, hex_val d with
  | Some x, Some y, Some z, Some w => Some (4096 * x + 256 * y + 16 * z + w)
  | _, _, _, _ => None
  end.

(** The backslash escapes of one character. *)
Definition unescape (c : N) : option N :=
  if (c =? 34) || (c =? 92) || (c =? 47) then Some c
  else if c =? 98 then Some 8
  else if c =? 102 then Some 12
  else if c =? 110 then Some 10
  else if c =? 114 then Some 13
  else if c =? 116 then Some 9
  else None.

Definition is_high_surrogate (u : N) : bool := (55296 <=? u) && (u <=? 56319).
Definition is_low_surrogate (u : N) : bool := (56320 <=? u) && (u <=? 57343).
Definition join_surrogates (hi lo : N) : N :=
  65536 + N.lor (N.shiftl (hi - 55296) 10) (lo - 56320).

(** [scanstring], in strict mode: [s] starts after the opening quote, which
    is at index [begin]; [acc] holds the characters read so far, last
    first.  As in the C scanner, the four digits of an escape must be
    followed by a character of the document, and so must those of the
    second half of a surrogate pair for the two to be joined. *)
Fixpoint scanstring (s : pystr) (pos begin : N) (acc : pystr) {struct s} : scanned pystr :=
  match s with
  | [] => Bad (lit "Unterminated string starting at") begin
  | c :: r =>
      if c =? 34 then Found (List.rev acc) r (pos + 1)
      else if c =? 92 then
        match r with
        | [] => Bad (lit "Unterminated string starting at") begin
        | e :: r1 =>
            if e =? 117 then
              match r1 with
              | h1 :: h2 :: h3 :: h4 :: ((_ :: _) as r2) =>
                  match hex4_val h1 h2 h3 h4 with
                  | None => Bad (lit "Invalid \uXXXX escape") (pos + 1)
                  | Some u =>
                      match r2 with
                      | b :: u' :: k1 :: k2 :: k3 :: k4 :: ((_ :: _) as r3) =>
                          if is_high_surrogate u && (b =? 92) && (u' =? 117) then
                            match hex4_val k1 k2 k3 k4 with
                            | None => Bad (lit "Invalid \uXXXX escape") (pos + 7)
                            | Some u2 =>
                                if is_low_surrogate u2
                                then scanstring r3 (pos + 12) begin (join_surrogates u u2 :: acc)
                                else scanstring r2 (pos + 6) begin (u :: acc)
                            end
                          else scanstring r2 (pos + 6) begin (u :: acc)
                      | _ => scanstring r2 (pos + 6) begin (u :: acc)
                      end
                  end
              | _ => Bad (lit "Invalid \uXXXX escape") (pos + 1)
              end
            else
              match unescape e with
              | Some ch => scanstring r1 (pos + 2) begin (ch :: acc)
              | None => Bad (lit "Invalid \escape") pos
              end
        end
      else if c <=? 31 then Bad (lit "Invalid control character at") pos
      else scanstring r (pos + 1) begin (c :: acc)
  end.

(** [scan_once], with the loops over the members of an object and the
    elements of an array.  Every call spends one unit of [fuel]; twice the
    length of the document, and two, is more than a document can use
    (lemma [decode_total]). *)
Fixpoint scan_once (env : pyenv) (fuel : nat) (s : pystr) (pos : N) {struct fuel}
  : scanned pyval :=
  match fuel with
  | O => Deep
  | S fuel =>
      match s with
      | [] => Bad (lit "Expecting value") pos
      | c :: r =>
          if c =? 34 then
            match scanstring r (pos + 1) pos [] with
            | Found t rest p => Found (PStr t) rest p
            | Bad m p => Bad m p
            | Deep => Deep
            end
          else if c =? 123 then
            let (s1, p1) := skip_ws r (pos + 1) in
            match s1 with
            | c1 :: r1 => if c1 =? 125 then Found (PDict []) r1 (p1 + 1)
                          else object_items env fuel s1 p1 []
            | [] => object_items env fuel s1 p1 []
            end
          else if c =? 91 then
            let (s1, p1) := skip_ws r (pos + 1) in
            match s1 with
            | c1 :: r1 => if c1 =? 93 then Found (PList []) r1 (p1 + 1)
                          else array_items env fuel s1 p1 []
            | [] => array_items env fuel s1 p1 []
            end
          else
            let constant (name : pystr) (v : pyval) (otherwise : scanned pyval) :=
              match strip_prefix name s with
              | Some rest => Found v rest (pos + N.of_nat (List.length name))
              | None => otherwise
              end in
            let number :=
              match match_number env s pos with
              | Some (v, rest, p) => Found v rest p
              | None => Bad (lit "Expecting value") pos
              end in
            if c =? 110 then constant (lit "null") PNone number
            else if c =? 116 then constant (lit "true") (PBool true) number
            else if c =? 102 then constant (lit "false") (PBool false) number
            else if c =? 78 then constant (lit "NaN") (PFloat FNaN) number
            else if c =? 73 then constant (lit "Infinity") (PFloat (FInf false)) number
            else if c =? 45 then constant (lit "-Infinity") (PFloat (FInf true)) number
            else number
      end
  end

with object_items (env : pyenv) (fuel : nat) (s : pystr) (pos : N)
  (acc : list (pystr * pyval))
  {struct fuel} : scanned pyval :=
  match fuel with
  | O => Deep
  | S fuel =>
      match s with
      | q :: r =>
          if q =? 34 then
            match scanstring r (pos + 1) pos [] with
            | Found key s1 p1 =>
                let (s2, p2) := skip_ws s1 p1 in
                match s2 with
                | colon :: r2 =>
                    if colon =? 58 then
                      let (s3, p3) := skip_ws r2 (p2 + 1) in
                      match scan_once env fuel s3 p3 with
                      | Found v s4 p4 =>
                          let acc' := dict_set acc key v in
                          let (s5, p5) := skip_ws s4 p4 in
                          match s5 with
                          | d :: r5 =>
                              if d =? 125 then Found (PDict acc') r5 (p5 + 1)
                              else if d =? 44 then
                                let (s6, p6) := skip_ws r5 (p5 + 1) in
                                object_items env fuel s6 p6 acc'
                              else Bad (lit "Expecting ',' delimiter") p5
                          | [] => Bad (lit "Expecting ',' delimiter") p5
                          end
                      | Bad m p => Bad m p
                      | Deep => Deep
                      end
                    else Bad (lit "Expecting ':' delimiter") p2
                | [] => Bad (lit "Expecting ':' delimiter") p2
                end
            | Bad m p => Bad m p
            | Deep => Deep
            end
          else Bad (lit "Expecting property name enclosed in double quotes") pos
      | [] => Bad (lit "Expecting property name enclosed in double quotes") pos
      end
  end

with array_items (env : pyenv) (fuel : nat) (s : pystr) (pos : N) (acc : list pyval)
  {struct fuel} : scanned pyval :=
  match fuel with
  | O => Deep
  | S fuel =>
      match scan_once env fuel s pos with
      | Found v s1 p1 =>
          let (s2, p2) := skip_ws s1 p1 in
          match s2 with
          | d :: r2 =>
              if d =? 93 then Found (PList (List.rev (v :: acc))) r2 (p2 + 1)
              else if d =? 44 then
                let (s3, p3) := skip_ws r2 (p2 + 1) in
                array_items env fuel s3 p3 (v :: acc)
              else Bad (lit "Expecting ',' delimiter") p2
          | [] => Bad (lit "Expecting ',' delimiter") p2
          end
      | Bad m p => Bad m p
      | Deep => Deep
      end
  end.

(** [str(e)] of a [JSONDecodeError]: the message with the line, the column
    and the index of the error in the document. *)
Definition errmsg (doc : pystr) (msg : pystr) (pos : N) : pystr :=
  let before := firstn (N.to_nat pos) doc in
  let lineno := N.of_nat (count_occ N.eq_dec before 10) + 1 in
  let fix since_newline (l : pystr) (n : N) : N :=
    match l with
    | [] => n
    | c :: r => if c =? 10 then since_newline r 0 else since_newline r (n + 1)
    end in
  let colno := since_newline before 0 + 1 in
  msg ++ lit ": line " ++ N_repr lineno ++ lit " column " ++ N_repr colno
      ++ lit " (char " ++ N_repr pos ++ lit ")".

(** What [json.loads] does with its argument: a value, a
    [JSONDecodeError] (given by its [str]), or another exception. *)
Inductive loaded :=
| Decoded (v : pyval)
| DecodeError (msg : pystr)
| LoadRaised (e : exn).

Definition starts_with_bom (doc : pystr) : bool :=
  match doc with
  | c :: _ => c =? 65279
  | [] => false
  end.

Definition decode (env : pyenv) (doc : pystr) : loaded :=
  if starts_with_bom doc then
    DecodeError (errmsg doc (lit "Unexpected UTF-8 BOM (decode using utf-8-sig)") 0)
  else
    let (s0, p0) := skip_ws doc 0 in
    match scan_once env (S (S (2 * List.length doc))) s0 p0 with
    | Found v s1 p1 =>
        let (s2, p2) := skip_ws s1 p1 in
        match s2 with
        | [] => Decoded v
        | _ :: _ => DecodeError (errmsg doc (lit "Extra data") p2)
        end
    | Bad m p => DecodeError (errmsg doc m p)
    | Deep => LoadRaised (RecursionError (lit "maximum recursion depth exceeded"))
    end.

Definition json_loads (env : pyenv) (arg : pyval) : loaded :=
  match arg with
  | PStr doc => decode env doc
  | _ =>
      LoadRaised (TypeError (lit "the JSON object must be str, bytes or bytearray, not "
                             ++ type_name arg))
  end.

(** ** [str.strip] and [str.encode] *)

(** [str.isspace] on one character. *)
Definition is_space (c : N) : bool :=
  ((9 <=? c) && (c <=? 13)) || ((28 <=? c) && (c <=? 32))
  || (c =? 133) || (c =? 160) || (c =? 5760)
  || ((8192 <=? c) && (c <=? 8202))
  || (c =? 8232) || (c =? 8233) || (c =? 8239) || (c =? 8287) || (c =? 12288).

Fixpoint lstrip (s : pystr) : pystr :=
  match s with
  | c :: r => if is_space c then lstrip r else s
  | [] => []
  end.

Definition strip (s : pystr) : pystr := List.rev (lstrip (List.rev (lstrip s))).

Definition byte_of (n : N) : byte :=
  match Byte.of_N n with
  | Some b => b
  | None => x00
  end.

Definition is_surrogate (c : N) : bool := (55296 <=? c) && (c <=? 57343).

(** The UTF-8 encoding of one code point that is not a surrogate. *)
Definition utf8_char (c : N) : list byte :=
  if c <? 128 then [byte_of c]
  else if c <? 2048 then [byte_of (192 + c / 64); byte_of (128 + c mod 64)]
  else if c <? 65536 then
    [byte_of (224 + c / 4096); byte_of (128 + (c / 64) mod 64); byte_of (128 + c mod 64)]
  else
    [byte_of (240 + c / 262144); byte_of (128 + (c / 4096) mod 64);
     byte_of (128 + (c / 64) mod 64); byte_of (128 + c mod 64)].

Fixpoint span_surrogates (s : pystr) : nat :=
  match s with
  | c :: r => if is_surrogate c then S (span_surrogates r) else O
  | [] => O
  end.

(** [s.encode()]: UTF-8, strict.  A run of surrogates cannot be encoded. *)
Fixpoint str_encode_from (s : pystr) (pos : N) : res (list byte) :=
  match s with
  | [] => Ok []
  | c :: r =>
      if is_surrogate c then
        let run := span_surrogates r in
        Err (UnicodeEncodeError
               (match run with
                | O => lit "'utf-8' codec can't encode character '\u" ++ hex4 c
                         ++ lit "' in position " ++ N_repr pos
                | S _ => lit "'utf-8' codec can't encode characters in position "
                         ++ N_repr pos ++ lit "-" ++ N_repr (pos + N.of_nat run)
                end ++ lit ": surrogates not allowed"))
      else do bs <- str_encode_from r (pos + 1); Ok (utf8_char c ++ bs)
  end.

Definition str_encode (s : pystr) : res (list byte) := str_encode_from s 0.

(** ** Keyword arguments *)

(** How a call ends: with a value, with an exception derived from
    [Exception], or with one that is not ([SystemExit],
    [KeyboardInterrupt]), which [except Exception] lets through. *)
Inductive outcome (A : Type) :=
| Returns (a : A)
| Raises (e : exn)
| Exits (e : exn).
Arguments Returns {A} a.
Arguments Raises {A} e.
Arguments Exits {A} e.

Definition quoted (s : pystr) : pystr := lit "'" ++ s ++ lit "'".

Definition mem_str (x : pystr) (l : list pystr) : bool := existsb (str_eqb x) l.

(** The keywords of a call are matched in order against the names of the
    parameters; [self] is already bound by the method. *)
Fixpoint check_keywords (qualname : pystr) (names : list pystr)
  (kw : list (pystr * pyval)) : res unit :=
  match kw with
  | [] => Ok tt
  | (k, _) :: rest =>
      if str_eqb k (lit "self") then
        Err (TypeError (qualname ++ lit "() got multiple values for argument 'self'"))
      else if mem_str k names then check_keywords qualname names rest
      else Err (TypeError (qualname ++ lit "() got an unexpected keyword argument "
                           ++ quoted k))
  end.

Definition missing_message (qualname : pystr) (missing : list pystr) : pystr :=
  let n := List.length missing in
  qualname ++ lit "() missing " ++ N_repr (N.of_nat n) ++ lit " required positional argument"
  ++ (match missing with [_] => lit ": " | _ => lit "s: " end)
  ++ (match List.rev (map quoted missing) with
      | [] => []
      | [a] => a
      | [b; a] => a ++ lit " and " ++ b
      | z :: before => join (lit ", ") (List.rev before) ++ lit ", and " ++ z
      end).

(** Binding the keywords [kw] of a call to a method with the required
    parameters [names] (after [self]): the value of each parameter, or the
    [TypeError] of the call. *)
Definition bind_kwargs (qualname : pystr) (names : list pystr)
  (kw : list (pystr * pyval)) : res (pystr -> pyval) :=
  do _ <- check_keywords qualname names kw;
  match filter (fun n => negb (mem_str n (map fst kw))) names with
  | [] => Ok (fun n => match dict_get kw n with Some v => v | None => PNone end)
  | missing => Err (TypeError (missing_message qualname missing))
  end.

(** ** The bridge *)

Section Runtime.

(** What a subclass adds to the instance. *)
Context {U : Type}.

(** The process: the attributes [state] and [_running] of the bridge
    object, the attributes of the subclass, the bytes written to
    [sys.stdout.buffer] so far and the lines [sys.stdin] has yet to
    yield. *)
Record world := {
  state : pyval;
  _running : bool;
  user : U;
  stdout : list byte;
  stdin : list pystr;
}.

Definition set_running (b : bool) (w : world) : world :=
  {| state := state w; _running := b; user := user w;
     stdout := stdout w; stdin := stdin w |}.

Definition set_state (v : pyval) (w : world) : world :=
  {| state := v; _running := _running w; user := user w;
     stdout := stdout w; stdin := stdin w |}.

Definition write_stdout (bs : list byte) (w : world) : world :=
  {| state := state w; _running := _running w; user := user w;
     stdout := stdout w ++ bs; stdin := stdin w |}.

Definition set_stdin (lines : list pystr) (w : world) : world :=
  {| state := state w; _running := _running w; user := user w;
     stdout := stdout w; stdin := lines |}.

(** What calling a method gives: an outcome, or an awaitable, which the
    event loop runs to an outcome. *)
Inductive called :=
| Now (o : outcome pyval)
| Awaitable (k : world -> world * outcome pyval).

(** A method bound to the bridge, applied to keyword arguments. *)
Definition handler := list (pystr * pyval) -> world -> world * called.

(** What [getattr(self, name)] finds: a value that cannot be called, or a
    callable, with the name the interpreter prints for it in the errors of
    a call. *)
Inductive attribute :=
| Data (v : pyval)
| Callable (funcstr : pystr) (h : handler).

Variable env : pyenv.

(** The attributes of the instance that [PythonBridge] does not define, or
    that the subclass redefines: found on the instance, on the subclass, or
    inherited from [object].  The subclass is taken to leave
    [handle_command], [send_response] and [run] themselves as they are. *)
Variable subclass : world -> pystr -> option attribute.

(** [PythonBridge.__init__], on a fresh object. *)
Definition new_bridge (u : U) (input : list pystr) : world :=
  {| state := PDict []; _running := false; user := u; stdout := []; stdin := input |}.

(** [PythonBridge.__init__], called again on the object. *)
Definition __init__ (w : world) : world := set_running false (set_state (PDict []) w).

(** [PythonBridge.ready] *)
Definition ready (w : world) : world * outcome pyval :=
  (w, Returns (PDict [(lit "status", PStr (lit "ready"));
                      (lit "python_version", PStr (sys_version env))])).

(** [PythonBridge.shutdown] *)
Definition shutdown (w : world) : world * outcome pyval :=
  (set_running false w, Returns (PDict [(lit "status", PStr (lit "shutdown"))])).

(** [PythonBridge.send_response]: the encoded text and the null byte are
    appended to the output. *)
Definition send_response (w : world) (response_json : pyval) : world * outcome pyval :=
  match response_json with
  | PStr text =>
      match str_encode text with
      | Ok bs => (write_stdout (bs ++ [x00]) w, Returns PNone)
      | Err e => (w, Raises e)
      end
  | _ =>
      (w, Raises (AttributeError (quoted (type_name response_json)
                                  ++ lit " object has no attribute 'encode'")))
  end.

(** [PythonBridge.send_event] *)
Definition send_event (w : world) (event_type data : pyval) : world * outcome pyval :=
  let response := PDict [(lit "cmd", event_type);
                         (lit "status", PStr (lit "event"));
                         (lit "result", data)] in
  match json_dumps response with
  | Ok text => send_response w (PStr text)
  | Err e => (w, Raises e)
  end.

(** The call of the method: with [params] expanded as keyword arguments
    when [params] is true, without arguments otherwise; then the resolution
    of an awaitable result by the event loop. *)
Definition invoke (funcstr : pystr) (h : handler) (params : pyval) (w : world)
  : world * outcome pyval :=
  let (w1, c) :=
    if truthy params then
      match params with
      | PDict kv => h kv w
      | _ => (w, Now (Raises (TypeError (funcstr ++ lit "() argument after ** must be a mapping, not "
                                         ++ type_name params))))
      end
    else h [] w in
  match c with
  | Now o => (w1, o)
  | Awaitable k => k w1
  end.

(** The two [except] clauses at the end of [handle_command]. *)
Definition invalid_json (msg : pystr) : pyval :=
  PDict [(lit "id", PInt 0);
         (lit "status", PStr (lit "error"));
         (lit "error", PStr (lit "Invalid JSON: " ++ msg))].

Definition handler_error (e : exn) : pyval :=
  PDict [(lit "id", PInt 0);
         (lit "status", PStr (lit "error"));
         (lit "error", PStr (lit "Handler error: " ++ exn_msg e));
         (lit "traceback", PStr (format_exc env e))].

(** The three responses built inside the [try]. *)
Definition error_response (request_id : pyval) (msg : pystr) : pyval :=
  PDict [(lit "id", request_id);
         (lit "status", PStr (lit "error"));
         (lit "error", PStr msg)].

Definition success_response (request_id result : pyval) : pyval :=
  PDict [(lit "id", request_id);
         (lit "status", PStr (lit "success"));
         (lit "result", result)].

Definition failure_response (request_id : pyval) (e : exn) : pyval :=
  PDict [(lit "id", request_id);
         (lit "status", PStr (lit "error"));
         (lit "error", PStr (exn_msg e));
         (lit "traceback", PStr (format_exc env e))].

(** [json.dumps] in an [except] clause: what it raises leaves
    [handle_command]. *)
Definition dumps_or_raise (v : pyval) : outcome pystr :=
  match json_dumps v with
  | Ok text => Returns text
  | Err e => Raises e
  end.

(** An [Exception] that reaches the second [except] clause. *)
Definition on_exception (w : world) (e : exn) : world * outcome pystr :=
  (w, dumps_or_raise (handler_error e)).

(** [return json.dumps(response)], inside the [try]. *)
Definition respond (w : world) (response : pyval) : world * outcome pystr :=
  match json_dumps response with
  | Ok text => (w, Returns text)
  | Err e => on_exception w e
  end.

Definition get_default (kv : list (pystr * pyval)) (key : pystr) (default : pyval) : pyval :=
  match dict_get kv key with
  | Some v => v
  | None => default
  end.

(** [handle_command], given how [getattr(self, name, None)] resolves a
    name ([None] when there is no such attribute). *)
Definition handle_command_with (getattr_ : world -> pystr -> option attribute)
  (w : world) (cmd_json : pyval) : world * outcome pystr :=
  match json_loads env cmd_json with
  | DecodeError msg => (w, dumps_or_raise (invalid_json msg))
  | LoadRaised e => on_exception w e
  | Decoded (PDict cmd) =>
      let cmd_name := get_default cmd (lit "cmd") (PStr []) in
      let params := get_default cmd (lit "params") (PDict []) in
      let request_id := get_default cmd (lit "id") (PInt 0) in
      match cmd_name with
      | PStr name =>
          match getattr_ w name with
          | None | Some (Data PNone) =>
              respond w (error_response request_id (lit "Unknown command: " ++ name))
          | Some (Data _) =>
              respond w (error_response request_id (lit "Command is not callable: " ++ name))
          | Some (Callable funcstr h) =>
              match invoke funcstr h params w with
              | (w1, Returns result) => respond w1 (success_response request_id result)
              | (w1, Raises e) => respond w1 (failure_response request_id e)
              | (w1, Exits e) => (w1, Exits e)
              end
          end
      | _ =>
          on_exception w (TypeError (lit "attribute name must be string, not "
                                     ++ quoted (type_name cmd_name)))
      end
  | Decoded cmd =>
      on_exception w (AttributeError (quoted (type_name cmd)
                                      ++ lit " object has no attribute 'get'"))
  end.

(** [if response: self.send_response(response)] *)
Definition emit (w : world) (response : pystr) : world * outcome pyval :=
  match response with
  | [] => (w, Returns PNone)
  | _ :: _ => send_response w (PStr response)
  end.

(** The loop [for line in sys.stdin] of [run], given [handle_command].
    [n] bounds the number of lines the loop can still read. *)
Fixpoint receive_loop (hc : world -> pyval -> world * outcome pystr) (n : nat)
  (w : world) : world * outcome pyval :=
  match n with
  | O => (w, Returns PNone)
  | S n =>
      match stdin w with
      | [] => (w, Returns PNone)
      | line :: rest =>
          let w := set_stdin rest w in
          if negb (_running w) then (w, Returns PNone)
          else
            match strip line with
            | [] => receive_loop hc n w
            | line =>
                match hc w (PStr line) with
                | (w1, Returns response) =>
                    match emit w1 response with
                    | (w2, Returns _) => receive_loop hc n w2
                    | (w2, Raises e) => (w2, Raises e)
                    | (w2, Exits e) => (w2, Exits e)
                    end
                | (w1, Raises e) => (w1, Raises e)
                | (w1, Exits e) => (w1, Exits e)
                end
            end
      end
  end.

(** The command [run] sends to itself. *)
Definition ready_command : pyval :=
  PDict [(lit "cmd", PStr (lit "ready")); (lit "id", PInt 0)].

(** [run], given [handle_command]. *)
Definition run_with (hc : world -> pyval -> world * outcome pystr) (w : world)
  : world * outcome pyval :=
  let w := set_running true w in
  match json_dumps ready_command with
  | Err e => (w, Raises e)
  | Ok text =>
      match hc w (PStr text) with
      | (w1, Returns ready_response) =>
          match emit w1 ready_response with
          | (w2, Returns _) => receive_loop hc (List.length (stdin w2)) w2
          | (w2, Raises e) => (w2, Raises e)
          | (w2, Exits e) => (w2, Exits e)
          end
      | (w1, Raises e) => (w1, Raises e)
      | (w1, Exits e) => (w1, Exits e)
      end
  end.

(** The methods of [PythonBridge] as handlers: the keywords are bound to
    the parameters, then the body runs. *)
Definition method0 (name : pystr) (body : world -> world * outcome pyval) : attribute :=
  Callable (module_name env ++ lit ".PythonBridge." ++ name)
    (fun kw w =>
       match bind_kwargs (lit "PythonBridge." ++ name) [] kw with
       | Ok _ => let (w1, o) := body w in (w1, Now o)
       | Err e => (w, Now (Raises e))
       end).

Definition method1 (name param : pystr) (body : world -> pyval -> world * outcome pyval)
  : attribute :=
  Callable (module_name env ++ lit ".PythonBridge." ++ name)
    (fun kw w =>
       match bind_kwargs (lit "PythonBridge." ++ name) [param] kw with
       | Ok arg => let (w1, o) := body w (arg param) in (w1, Now o)
       | Err e => (w, Now (Raises e))
       end).

Definition method2 (name param1 param2 : pystr)
  (body : world -> pyval -> pyval -> world * outcome pyval) : attribute :=
  Callable (module_name env ++ lit ".PythonBridge." ++ name)
    (fun kw w =>
       match bind_kwargs (lit "PythonBridge." ++ name) [param1; param2] kw with
       | Ok arg => let (w1, o) := body w (arg param1) (arg param2) in (w1, Now o)
       | Err e => (w, Now (Raises e))
       end).

Definition as_value (r : world * outcome pystr) : world * outcome pyval :=
  match r with
  | (w, Returns text) => (w, Returns (PStr text))
  | (w, Raises e) => (w, Raises e)
  | (w, Exits e) => (w, Exits e)
  end.

Definition recursion_error : exn :=
  RecursionError (lit "maximum recursion depth exceeded").

(** [getattr(self, name, None)].  The instance attributes come first, then
    what the subclass defines, then the methods of [PythonBridge].
    [handle_command] and [run] are attributes too: a command that names
    one of them re-enters the runtime, as long as the interpreter's stack
    allows ([depth] further re-entries). *)
Fixpoint getattr_ (depth : nat) (w : world) (name : pystr) : option attribute :=
  if str_eqb name (lit "state") then Some (Data (state w))
  else if str_eqb name (lit "_running") then Some (Data (PBool (_running w)))
  else
    match subclass w name with
    | Some a => Some a
    | None =>
        if str_eqb name (lit "__init__") then
          Some (method0 name (fun w => (__init__ w, Returns PNone)))
        else if str_eqb name (lit "ready") then Some (method0 name ready)
        else if str_eqb name (lit "shutdown") then Some (method0 name shutdown)
        else if str_eqb name (lit "send_response") then
          Some (method1 name (lit "response_json") send_response)
        else if str_eqb name (lit "send_event") then
          Some (method2 name (lit "event_type") (lit "data") send_event)
        else if str_eqb name (lit "handle_command") then
          Some (method1 name (lit "cmd_json")
                  (fun w cmd_json =>
                     match depth with
                     | O => (w, Raises recursion_error)
                     | S d => as_value (handle_command_with (getattr_ d) w cmd_json)
                     end))
        else if str_eqb name (lit "run") then
          Some (method0 name
                  (fun w =>
                     match depth with
                     | O => (w, Raises recursion_error)
                     | S d => run_with (handle_command_with (getattr_ d)) w
                     end))
        else None
    end.

(** [PythonBridge.handle_command] *)
Definition handle_command (depth : nat) : world -> pyval -> world * outcome pystr :=
  handle_command_with (getattr_ depth).

(** [PythonBridge.run] *)
Definition run (depth : nat) : world -> world * outcome pyval :=
  run_with (handle_command depth).

End Runtime.

Arguments world U : clear implicits.
Arguments attribute U : clear implicits.
Arguments handler U : clear implicits.

(** ** Notions used in the statements *)

(** The characters from the space to the tilde. *)
Definition printable (c : N) : Prop := 32 <= c <= 126.

Definition printableb (c : N) : bool := (32 <=? c) && (c <=? 126).

(** The number of null bytes in a frame. *)
Definition sentinels (frame : list byte) : nat := count_occ Byte.byte_eq_dec frame x00.

(** The response carries [request_id]: it is the encoding of a record whose
    first field is [id], with that value. *)
Definition carries_id (text : pystr) (request_id : pyval) : Prop :=
  exists fields, json_dumps (PDict ((lit "id", request_id) :: fields)) = Ok text.

(** What a scanning step has to say about its budget: it is not used up,
    and a value that is found has taken at least one character. *)
Definition consumes (s : pystr) (r : scanned pyval) : Prop :=
  r <> Deep
  /\ forall v rest p, r = Found v rest p -> (List.length rest < List.length s)%nat.

(** A decoded command, as [handle_command] reads it. *)
Definition command_name (cmd : list (pystr * pyval)) : pyval :=
  get_default cmd (lit "cmd") (PStr []).
Definition command_params (cmd : list (pystr * pyval)) : pyval :=
  get_default cmd (lit "params") (PDict []).
Definition command_id (cmd : list (pystr * pyval)) : pyval :=
  get_default cmd (lit "id") (PInt 0).

(** What a call must give for the response to be built inside the [try]:
    a value that [json.dumps] encodes, or an [Exception]. *)
Definition answerable (o : outcome pyval) : Prop :=
  match o with
  | Returns result => exists t, json_dumps result = Ok t
  | Raises _ => True
  | Exits _ => False
  end.


(** ** Sample processes *)

(** The interpreter of the examples.  Its floats print with the digits
    of their literals; the examples hold no float but [0.0]. *)
Definition sample_env : pyenv :=
  {| sys_version := lit "3.11.4 (main)";
     format_exc := fun e =>
       lit "Traceback (most recent call last):\n" ++ exn_class e ++ lit ": " ++ exn_msg e;
     module_name := lit "__main__";
     float_of_literal := FDec |}.

(** [PythonBridge] itself, without a subclass.  What the instance inherits
    from [object] ([__class__], [__dict__], [__repr__] and the like) is
    left out of the sample tables; the examples name none of it. *)
Definition no_subclass : world unit -> pystr -> option (attribute unit) := fun _ _ => None.

(** A backend with two handlers of its own:
    [def members(self): return {1, 2}] and
    [def fail(self): raise ValueError("boom")]. *)
Definition SetBackend : world unit -> pystr -> option (attribute unit) :=
  fun _ name =>
    if str_eqb name (lit "members") then
      Some (Callable (lit "__main__.SetBackend.members")
              (fun kw w =>
                 match bind_kwargs (lit "SetBackend.members") [] kw with
                 | Ok _ => (w, Now (Returns (PObj (lit "set"))))
                 | Err e => (w, Now (Raises e))
                 end))
    else if str_eqb name (lit "fail") then
      Some (Callable (lit "__main__.SetBackend.fail")
              (fun kw w =>
                 match bind_kwargs (lit "SetBackend.fail") [] kw with
                 | Ok _ => (w, Now (Raises {| exn_class := lit "ValueError";
                                              exn_msg := lit "boom" |}))
                 | Err e => (w, Now (Raises e))
                 end))
    else None.


(** A running process whose input holds [shutdown], then [ready]. *)
Definition shutdown_then_ready : world unit :=
  set_running true
    (new_bridge tt [qlit "{'cmd': 'shutdown', 'id': 2}" ++ [10];
                    qlit "{'cmd': 'ready', 'id': 3}" ++ [10]]).

(** ** Further notions *)

(** A value that [json.dumps] encodes: it holds no opaque object. *)
Fixpoint jsonable (v : pyval) : bool :=
  match v with
  | PObj _ => false
  | PList l => forallb jsonable l
  | PDict kv => forallb (fun item => jsonable (snd item)) kv
  | _ => true
  end.

(** What the scanner finds is a value [json.dumps] encodes. *)
Definition finds_jsonable (r : scanned pyval) : Prop :=
  forall v rest p, r = Found v rest p -> jsonable v = true.

(** The code points of a [str]: up to [0x10FFFF]. *)
Definition code_point (c : N) : Prop := c <= 1114111.

(** A handler that does not put lines back on the input: after it, and
    after the awaitable it returns, no more lines are left than before. *)
Definition reads_only {U : Type} (h : handler U) : Prop :=
  forall kw w,
    (List.length (stdin (fst (let (w1, c) := h kw w in
                              match c with
                              | Now o => (w1, o)
                              | Awaitable k => k w1
                              end))) <= List.length (stdin w))%nat.

(** ** The backends of the repository *)

Definition ValueError (msg : pystr) : exn :=
  {| exn_class := lit "ValueError"; exn_msg := msg |}.
Definition RuntimeError (msg : pystr) : exn :=
  {| exn_class := lit "RuntimeError"; exn_msg := msg |}.

Definition set_user {U : Type} (u : U) (w : world U) : world U :=
  {| state := state w; _running := _running w; user := u;
     stdout := stdout w; stdin := stdin w |}.

(** A method of the class [cls] of the module [modname], bound to the
    instance: the keywords are bound to the required parameters, then the
    body runs with the arguments. *)
Definition bound_method {U : Type} (modname cls name : pystr) (params : list pystr)
  (body : world U -> (pystr -> pyval) -> world U * outcome pyval) : attribute U :=
  Callable (modname ++ lit "." ++ cls ++ lit "." ++ name)
    (fun kw w =>
       match bind_kwargs (cls ++ lit "." ++ name) params kw with
       | Ok arg => let (w1, o) := body w arg in (w1, Now o)
       | Err e => (w, Now (Raises e))
       end).

(** The keywords of a call to a method that takes any keyword (it has a
    parameter with two stars): only [self] is refused. *)
Fixpoint check_self (qualname : pystr) (kw : list (pystr * pyval)) : res unit :=
  match kw with
  | [] => Ok tt
  | (k, _) :: rest =>
      if str_eqb k (lit "self") then
        Err (TypeError (qualname ++ lit "() got multiple values for argument 'self'"))
      else check_self qualname rest
  end.

(** Binding the keywords [kw] to a method with the parameters [required],
    then the parameters [defaults] with their default values, and, when
    [var_kw] is set, a last parameter that takes the other keywords. *)
Definition bind_call (qualname : pystr) (required : list pystr)
  (defaults : list (pystr * pyval)) (var_kw : bool) (kw : list (pystr * pyval))
  : res (pystr -> pyval) :=
  do _ <- (if var_kw then check_self qualname kw
           else check_keywords qualname (required ++ map fst defaults) kw);
  match filter (fun n => negb (mem_str n (map fst kw))) required with
  | [] => Ok (fun n => match dict_get kw n with
                       | Some v => v
                       | None => match dict_get defaults n with
                                 | Some d => d
                                 | None => PNone
                                 end
                       end)
  | missing => Err (TypeError (missing_message qualname missing))
  end.

(** A bound method with default values; the body is given the arguments
    and the keywords of the call. *)
Definition bound_method_with {U : Type} (modname cls name : pystr) (required : list pystr)
  (defaults : list (pystr * pyval)) (var_kw : bool)
  (body : world U -> (pystr -> pyval) -> list (pystr * pyval) -> world U * outcome pyval)
  : attribute U :=
  Callable (modname ++ lit "." ++ cls ++ lit "." ++ name)
    (fun kw w =>
       match bind_call (cls ++ lit "." ++ name) required defaults var_kw kw with
       | Ok arg => let (w1, o) := body w arg kw in (w1, Now o)
       | Err e => (w, Now (Raises e))
       end).

(** [v == s] for a [str] literal [s], and [v == 0], on the values JSON has;
    an opaque object is taken to differ from both. *)
Definition eq_str (v : pyval) (s : pystr) : bool :=
  match v with
  | PStr t => str_eqb t s
  | _ => false
  end.

Definition eq_zero (v : pyval) : bool :=
  match v with
  | PBool b => negb b
  | PInt z => (z =? 0)%Z
  | PFloat f => float_is_zero f
  | _ => false
  end.

(** What an instance inherits from [object] ([__class__], [__dict__],
    [__repr__] and the like) is the interpreter's: a table [inherited],
    which is looked up after the attributes of the class and after those
    of [PythonBridge]. *)
Definition bridge_defines (name : pystr) : bool :=
  mem_str name [lit "__init__"; lit "ready"; lit "shutdown"; lit "send_response";
                lit "send_event"; lit "handle_command"; lit "run"].

Definition from_object {U : Type} (inherited : world U -> pystr -> option (attribute U))
  (w : world U) (name : pystr) : option (attribute U) :=
  if bridge_defines name then None else inherited w name.

(** *** [ExampleBackend], in [bridge_runtime.py] *)

Module ExampleBackend.

(** What [__init__] adds to the instance. *)
Record fields := {
  counter : Z;
  messages : list pyval;
}.

Definition set_fields (c : Z) (m : list pyval) (w : world fields) : world fields :=
  set_user {| counter := c; messages := m |} w.

Section Methods.

Variable env : pyenv.

(** [eval(expression)], which is the interpreter's. *)
Variable py_eval : pyval -> world fields -> world fields * outcome pyval.

(** The attributes inherited from [object]. *)
Variable inherited : world fields -> pystr -> option (attribute fields).

(** [__init__]: the constructor of the base class, then the two fields. *)
Definition __init__ (w : world fields) : world fields :=
  set_fields 0 [] (__init__ w).

(** [increment] *)
Definition increment (w : world fields) : world fields * outcome pyval :=
  let c := (counter (user w) + 1)%Z in
  (set_fields c (messages (user w)) w, Returns (PDict [(lit "count", PInt c)])).

(** [get_count] *)
Definition get_count (w : world fields) : world fields * outcome pyval :=
  (w, Returns (PDict [(lit "count", PInt (counter (user w)))])).

(** [add_message] *)
Definition add_message (w : world fields) (message : pyval)
  : world fields * outcome pyval :=
  let m := messages (user w) ++ [message] in
  (set_fields (counter (user w)) m w,
   Returns (PDict [(lit "count", PInt (Z.of_nat (List.length m)))])).

(** [get_messages] *)
Definition get_messages (w : world fields) : world fields * outcome pyval :=
  (w, Returns (PDict [(lit "messages", PList (messages (user w)))])).

(** [echo] *)
Definition echo (w : world fields) (data : pyval) : world fields * outcome pyval :=
  (w, Returns (PDict [(lit "echo", data)])).

(** [calculate]: an [Exception] of the evaluation becomes a
    [ValueError]. *)
Definition calculate (w : world fields) (expression : pyval)
  : world fields * outcome pyval :=
  match py_eval expression w with
  | (w1, Returns result) => (w1, Returns (PDict [(lit "result", result)]))
  | (w1, Raises e) => (w1, Raises (ValueError (lit "Calculation error: " ++ exn_msg e)))
  | (w1, Exits e) => (w1, Exits e)
  end.

(** The attributes of an [ExampleBackend]: those of the class and of its
    instances, then the inherited ones. *)
Definition attributes (w : world fields) (name : pystr) : option (attribute fields) :=
  let method := bound_method (module_name env) (lit "ExampleBackend") name in
  if str_eqb name (lit "counter") then Some (Data (PInt (counter (user w))))
  else if str_eqb name (lit "messages") then Some (Data (PList (messages (user w))))
  else if str_eqb name (lit "__init__") then
    Some (method [] (fun w _ => (__init__ w, Returns PNone)))
  else if str_eqb name (lit "increment") then Some (method [] (fun w _ => increment w))
  else if str_eqb name (lit "get_count") then Some (method [] (fun w _ => get_count w))
  else if str_eqb name (lit "add_message") then
    Some (method [lit "message"] (fun w arg => add_message w (arg (lit "message"))))
  else if str_eqb name (lit "get_messages") then
    Some (method [] (fun w _ => get_messages w))
  else if str_eqb name (lit "echo") then
    Some (method [lit "data"] (fun w arg => echo w (arg (lit "data"))))
  else if str_eqb name (lit "calculate") then
    Some (method [lit "expression"] (fun w arg => calculate w (arg (lit "expression"))))
  else from_object inherited w name.

End Methods.

End ExampleBackend.

(** *** [EchoBackend], in [examples/echo_backend.py] *)

Module EchoBackend.

(** What [__init__] adds to the instance, and the clock of the machine:
    the times [time.time()] is going to give, and how many of them have
    been read. *)
Record fields := {
  counter : Z;
  messages : list pyval;
  clock : nat -> pyfloat;
  reads : nat;
}.

Definition set_fields (c : Z) (m : list pyval) (w : world fields) : world fields :=
  set_user {| counter := c; messages := m;
              clock := clock (user w); reads := reads (user w) |} w.

Section Methods.

(** The name under which the file is loaded ([__main__] when it is run as
    a script). *)
Variable module : pystr.

(** The operators [+], [-], [*] and [/] of the interpreter, and [str()]
    of a value that is not a [str]. *)
Variables py_add py_sub py_mul py_truediv : pyval -> pyval -> res pyval.
Variable py_str : pyval -> pystr.

(** The attributes inherited from [object]. *)
Variable inherited : world fields -> pystr -> option (attribute fields).

(** A value as a field of an f-string. *)
Definition formatted (v : pyval) : pystr :=
  match v with
  | PStr s => s
  | _ => py_str v
  end.

(** [__init__] *)
Definition __init__ (w : world fields) : world fields :=
  set_fields 0 [] (__init__ w).

(** [_time] *)
Definition _time (w : world fields) : world fields * outcome pyval :=
  (set_user {| counter := counter (user w); messages := messages (user w);
               clock := clock (user w); reads := S (reads (user w)) |} w,
   Returns (PFloat (clock (user w) (reads (user w))))).

(** [echo] *)
Definition echo (w : world fields) (data : pyval) : world fields * outcome pyval :=
  match _time w with
  | (w1, Returns t) => (w1, Returns (PDict [(lit "echo", data); (lit "timestamp", t)]))
  | r => r
  end.

(** [increment] *)
Definition increment (w : world fields) : world fields * outcome pyval :=
  let c := (counter (user w) + 1)%Z in
  (set_fields c (messages (user w)) w, Returns (PDict [(lit "count", PInt c)])).

(** [get_count] *)
Definition get_count (w : world fields) : world fields * outcome pyval :=
  (w, Returns (PDict [(lit "count", PInt (counter (user w)))])).

(** [add_message] *)
Definition add_message (w : world fields) (message : pyval)
  : world fields * outcome pyval :=
  let m := messages (user w) ++ [message] in
  (set_fields (counter (user w)) m w,
   Returns (PDict [(lit "count", PInt (Z.of_nat (List.length m)))])).

(** [get_messages] *)
Definition get_messages (w : world fields) : world fields * outcome pyval :=
  (w, Returns (PDict [(lit "messages", PList (messages (user w)))])).

(** [calculate] *)
Definition calculate (w : world fields) (operation a b : pyval)
  : world fields * outcome pyval :=
  let answer (r : res pyval) : world fields * outcome pyval :=
    match r with
    | Ok result =>
        (w, Returns (PDict [(lit "operation", operation); (lit "a", a); (lit "b", b);
                            (lit "result", result)]))
    | Err e => (w, Raises e)
    end in
  if eq_str operation (lit "add") then answer (py_add a b)
  else if eq_str operation (lit "subtract") then answer (py_sub a b)
  else if eq_str operation (lit "multiply") then answer (py_mul a b)
  else if eq_str operation (lit "divide") then
    if eq_zero b then (w, Raises (ValueError (lit "Division by zero")))
    else answer (py_truediv a b)
  else
    (w, Raises (ValueError (lit "Unknown operation: " ++ formatted operation))).

(** [ping] *)
Definition ping (w : world fields) : world fields * outcome pyval :=
  match _time w with
  | (w1, Returns t) => (w1, Returns (PDict [(lit "pong", PBool true); (lit "timestamp", t)]))
  | r => r
  end.

(** The attributes of an [EchoBackend]: those of the class and of its
    instances, then the inherited ones. *)
Definition attributes (w : world fields) (name : pystr) : option (attribute fields) :=
  let method := bound_method module (lit "EchoBackend") name in
  if str_eqb name (lit "counter") then Some (Data (PInt (counter (user w))))
  else if str_eqb name (lit "messages") then Some (Data (PList (messages (user w))))
  else if str_eqb name (lit "__init__") then
    Some (method [] (fun w _ => (__init__ w, Returns PNone)))
  else if str_eqb name (lit "echo") then
    Some (method [lit "data"] (fun w arg => echo w (arg (lit "data"))))
  else if str_eqb name (lit "increment") then Some (method [] (fun w _ => increment w))
  else if str_eqb name (lit "get_count") then Some (method [] (fun w _ => get_count w))
  else if str_eqb name (lit "add_message") then
    Some (method [lit "message"] (fun w arg => add_message w (arg (lit "message"))))
  else if str_eqb name (lit "get_messages") then
    Some (method [] (fun w _ => get_messages w))
  else if str_eqb name (lit "calculate") then
    Some (method [lit "operation"; lit "a"; lit "b"]
            (fun w arg => calculate w (arg (lit "operation")) (arg (lit "a"))
                            (arg (lit "b"))))
  else if str_eqb name (lit "ping") then Some (method [] (fun w _ => ping w))
  else if str_eqb name (lit "_time") then Some (method [] (fun w _ => _time w))
  else from_object inherited w name.

End Methods.

End EchoBackend.

(** *** [ReticulumBackend], in [examples/reticulum_backend.py] *)

Module ReticulumBackend.

Section Methods.

(** The objects of the libraries [RNS] and [LXMF]. *)
Variable Obj : Type.

(** What [__init__] adds to the instance.  [imported] tells whether the
    attributes [RNS] and [LXMF] have been set. *)
Record fields := {
  identity : option Obj;
  destination : option Obj;
  network : option Obj;
  lxmf_router : option Obj;
  available : bool;
  imported : bool;
}.

(** The name under which the file is loaded. *)
Variable module : pystr.

(** Whether [import RNS] and [import LXMF] succeed. *)
Variable installed : bool.

(** [bool(o)] of an object of the libraries, and what it is as an
    attribute of the instance. *)
Variable truth : Obj -> bool.
Variable as_attribute : Obj -> attribute fields.

(** What a method does with the libraries once its checks have passed,
    given its name, its arguments and the keywords of the call; and
    [network.teardown()]. *)
Variable library :
  pystr -> (pystr -> pyval) -> list (pystr * pyval) -> world fields
  -> world fields * outcome pyval.
Variable teardown : Obj -> world fields -> world fields * outcome pyval.

(** The attributes inherited from [object]. *)
Variable inherited : world fields -> pystr -> option (attribute fields).

(** [not o], for a field. *)
Definition unset (o : option Obj) : bool :=
  match o with
  | None => true
  | Some x => negb (truth x)
  end.

(** [__init__].  The warning goes to [sys.stderr], which is not part of
    the world. *)
Definition __init__ (w : world fields) : world fields :=
  set_user {| identity := None; destination := None; network := None;
              lxmf_router := None; available := installed;
              imported := imported (user w) || installed |}
    (__init__ w).

Definition not_installed : exn := RuntimeError (lit "Reticulum not installed").

(** [init] *)
Definition init (w : world fields) (arg : pystr -> pyval) (kw : list (pystr * pyval))
  : world fields * outcome pyval :=
  if negb (available (user w)) then
    (w, Raises (RuntimeError
                  (lit "Reticulum not installed. Install with: pip install reticulum lxmf")))
  else library (lit "init") arg kw w.

(** [create_identity], [load_identity] and [send_packet] *)
Definition guarded (name : pystr) (w : world fields) (arg : pystr -> pyval)
  (kw : list (pystr * pyval)) : world fields * outcome pyval :=
  if negb (available (user w)) then (w, Raises not_installed)
  else library name arg kw w.

(** [get_identity] *)
Definition get_identity (w : world fields) (arg : pystr -> pyval)
  (kw : list (pystr * pyval)) : world fields * outcome pyval :=
  if unset (identity (user w)) then (w, Returns (PDict [(lit "hash", PNone)]))
  else library (lit "get_identity") arg kw w.

(** [create_destination] *)
Definition create_destination (w : world fields) (arg : pystr -> pyval)
  (kw : list (pystr * pyval)) : world fields * outcome pyval :=
  if negb (available (user w)) then (w, Raises not_installed)
  else if unset (identity (user w)) then
    (w, Raises (RuntimeError (lit "Identity not initialized. Call init() first.")))
  else library (lit "create_destination") arg kw w.

(** [announce] *)
Definition announce (w : world fields) (arg : pystr -> pyval)
  (kw : list (pystr * pyval)) : world fields * outcome pyval :=
  if negb (available (user w)) then (w, Raises not_installed)
  else if unset (destination (user w)) then
    (w, Raises (RuntimeError
                  (lit "Destination not created. Call create_destination() first.")))
  else library (lit "announce") arg kw w.

(** [send_lxmf_message] *)
Definition send_lxmf_message (w : world fields) (arg : pystr -> pyval)
  (kw : list (pystr * pyval)) : world fields * outcome pyval :=
  if negb (available (user w)) then (w, Raises not_installed)
  else if unset (lxmf_router (user w)) then
    (w, Raises (RuntimeError (lit "LXMF router not initialized. Call init() first.")))
  else library (lit "send_lxmf_message") arg kw w.

(** [receive_lxmf_message] *)
Definition receive_lxmf_message (w : world fields) (arg : pystr -> pyval)
  (kw : list (pystr * pyval)) : world fields * outcome pyval :=
  if negb (available (user w)) then (w, Raises not_installed)
  else if unset (lxmf_router (user w)) then
    (w, Raises (RuntimeError (lit "LXMF router not initialized")))
  else library (lit "receive_lxmf_message") arg kw w.

(** [get_status] *)
Definition get_status (w : world fields) (arg : pystr -> pyval)
  (kw : list (pystr * pyval)) : world fields * outcome pyval :=
  if negb (available (user w)) then
    (w, Returns (PDict [(lit "available", PBool false);
                        (lit "error", PStr (lit "Reticulum not installed"))]))
  else library (lit "get_status") arg kw w.

(** [get_peers] *)
Definition get_peers (w : world fields) : world fields * outcome pyval :=
  (w, Returns (PList [])).

(** [shutdown], which replaces the one of [PythonBridge]. *)
Definition shutdown (w : world fields) : world fields * outcome pyval :=
  let w := set_running false w in
  let done := PDict [(lit "status", PStr (lit "shutdown"))] in
  match network (user w) with
  | Some n =>
      if truth n then
        match teardown n w with
        | (w1, Returns _) => (w1, Returns done)
        | r => r
        end
      else (w, Returns done)
  | None => (w, Returns done)
  end.

(** A field of the instance as an attribute. *)
Definition field (o : option Obj) : attribute fields :=
  match o with
  | None => Data PNone
  | Some x => as_attribute x
  end.


(** The attributes of a [ReticulumBackend]: those of the class and of its
    instances, then the inherited ones. *)
Definition attributes (w : world fields) (name : pystr) : option (attribute fields) :=
  let method := bound_method_with module (lit "ReticulumBackend") name in
  if str_eqb name (lit "identity") then Some (field (identity (user w)))
  else if str_eqb name (lit "destination") then Some (field (destination (user w)))
  else if str_eqb name (lit "network") then Some (field (network (user w)))
  else if str_eqb name (lit "lxmf_router") then Some (field (lxmf_router (user w)))
  else if str_eqb name (lit "available") then Some (Data (PBool (available (user w))))
  else if str_eqb name (lit "RNS") || str_eqb name (lit "LXMF") then
    if imported (user w) then Some (Data (PObj (lit "module"))) else None
  else if str_eqb name (lit "__init__") then
    Some (method [] [] false (fun w _ _ => (__init__ w, Returns PNone)))
  else if str_eqb name (lit "init") then
    Some (method [] [(lit "config_path", PNone)] true init)
  else if str_eqb name (lit "create_identity") then
    Some (method [] [] false (guarded name))
  else if str_eqb name (lit "load_identity") then
    Some (method [lit "path"] [] false (guarded name))
  else if str_eqb name (lit "get_identity") then Some (method [] [] false get_identity)
  else if str_eqb name (lit "create_destination") then
    Some (method [lit "aspects"] [(lit "app_name", PStr (lit "ronin"))] false
            create_destination)
  else if str_eqb name (lit "announce") then
    Some (method [] [(lit "app_data", PNone)] false announce)
  else if str_eqb name (lit "send_packet") then
    Some (method [lit "destination"; lit "data"] [] false (guarded name))
  else if str_eqb name (lit "send_lxmf_message") then
    Some (method [lit "destination"; lit "content"]
            [(lit "title", PNone); (lit "fields", PNone)] false send_lxmf_message)
  else if str_eqb name (lit "receive_lxmf_message") then
    Some (method [] [(lit "timeout", PInt 5000)] false receive_lxmf_message)
  else if str_eqb name (lit "get_status") then Some (method [] [] false get_status)
  else if str_eqb name (lit "get_peers") then
    Some (method [] [] false (fun w _ _ => get_peers w))
  else if str_eqb name (lit "shutdown") then
    Some (method [] [] false (fun w _ _ => shutdown w))
  else from_object inherited w name.

End Methods.

Arguments identity {Obj} f.
Arguments destination {Obj} f.
Arguments network {Obj} f.
Arguments lxmf_router {Obj} f.
Arguments available {Obj} f.
Arguments imported {Obj} f.
Arguments unset {Obj} truth o.

End ReticulumBackend.

(** A line that asks for [increment], without arguments. *)
Definition increment_line (env : pyenv) (line : pystr) : Prop :=
  strip line <> []
  /\ exists cmd,
      json_loads env (PStr (strip line)) = Decoded (PDict cmd)
      /\ command_name cmd = PStr (lit "increment")
      /\ truthy (command_params cmd) = false.

(** ** Sample backends *)

(** What the samples inherit from [object]: [__weakref__], which is
    [None]; the examples name no other inherited attribute. *)
Definition sample_inherited {U : Type} : world U -> pystr -> option (attribute U) :=
  fun _ name => if str_eqb name (lit "__weakref__") then Some (Data PNone) else None.

(** An interpreter that evaluates three expressions. *)
Definition sample_eval (expression : pyval) (w : world ExampleBackend.fields)
  : world ExampleBackend.fields * outcome pyval :=
  match expression with
  | PStr s =>
      if str_eqb s (lit "1+1") then (w, Returns (PInt 2))
      else if str_eqb s (lit "1/0") then
        (w, Raises {| exn_class := lit "ZeroDivisionError";
                      exn_msg := lit "division by zero" |})
      else if str_eqb s (lit "exit()") then
        (w, Exits {| exn_class := lit "SystemExit"; exn_msg := lit "None" |})
      else (w, Raises {| exn_class := lit "SyntaxError"; exn_msg := lit "invalid syntax" |})
  | _ =>
      (w, Raises (TypeError (lit "eval() arg 1 must be a string, bytes or code object")))
  end.

(** A running [ExampleBackend] with the lines [input] to read. *)
Definition example_process (input : list pystr) : world ExampleBackend.fields :=
  set_running true
    (new_bridge {| ExampleBackend.counter := 0; ExampleBackend.messages := [] |} input).

(** Arithmetic on integers, without division. *)
Definition sample_operator (op : Z -> Z -> Z) (a b : pyval) : res pyval :=
  match a, b with
  | PInt x, PInt y => Ok (PInt (op x y))
  | _, _ => Err (TypeError (lit "unsupported operand type(s)"))
  end.

Definition sample_truediv (a b : pyval) : res pyval :=
  Err (TypeError (lit "unsupported operand type(s)")).

(** An [EchoBackend] run as a script, and a process of it whose clock
    gives the seconds 0.0, 1.0, 2.0 and so on. *)
Definition sample_echo
  : world EchoBackend.fields -> pystr -> option (attribute EchoBackend.fields) :=
  EchoBackend.attributes (lit "__main__") (sample_operator Z.add) (sample_operator Z.sub)
    (sample_operator Z.mul) sample_truediv (fun v => type_name v) sample_inherited.

Definition echo_process (input : list pystr) : world EchoBackend.fields :=
  set_running true
    (new_bridge {| EchoBackend.counter := 0; EchoBackend.messages := [];
                   EchoBackend.clock := fun n =>
                     FDec (Decimal (Pos (Nat.to_uint n)) (D0 Nil));
                   EchoBackend.reads := 0 |} input).

(** A [ReticulumBackend] whose libraries, where they are installed, do
    nothing, and a process of it before [init]. *)
Definition sample_reticulum (installed : bool)
  : world (ReticulumBackend.fields unit) -> pystr
    -> option (attribute (ReticulumBackend.fields unit)) :=
  ReticulumBackend.attributes unit (lit "__main__") installed
    (fun _ => true) (fun _ => Data (PObj (lit "object")))
    (fun _ _ _ w => (w, Returns PNone)) (fun _ w => (w, Returns PNone)) sample_inherited.

Definition reticulum_process (installed : bool) (input : list pystr)
  : world (ReticulumBackend.fields unit) :=
  set_running true
    (new_bridge {| ReticulumBackend.identity := None;
                   ReticulumBackend.destination := None;
                   ReticulumBackend.network := None;
                   ReticulumBackend.lxmf_router := None;
                   ReticulumBackend.available := installed;
                   ReticulumBackend.imported := installed |} input).

(** Lines of the examples. *)
Definition exit_line : pystr :=
  qlit "{'cmd': 'calculate', 'id': 8, 'params': {'expression': 'exit()'}}" ++ [10].

Definition event_line : pystr :=
  qlit "{'cmd': 'send_event', 'id': 11, 'params': {'event_type': 'tick', 'data': 1}}"
  ++ [10].

Definition init_line : pystr := qlit "{'cmd': '__init__', 'id': 12}" ++ [10].

(** A process that has something in [state]. *)
Definition stateful_process (input : list pystr) : world unit :=
  set_state (PDict [(lit "k", PInt 1)]) (set_running true (new_bridge tt input)).

(** A process whose input asks for [shutdown] and has two more lines. *)
Definition shutdown_then_two : world unit :=
  new_bridge tt [qlit "{'cmd': 'shutdown', 'id': 2}" ++ [10];
                 qlit "{'cmd': 'ready', 'id': 3}" ++ [10];
                 qlit "{'cmd': 'ready', 'id': 4}" ++ [10]].

(** * Properties *)

(** ** The decoder has steps to spare *)

Lemma skip_ws_shorter (s : pystr) (pos : N) :
  (List.length (fst (skip_ws s pos)) <= List.length s)%nat.
Proof.
  revert pos. induction s as [| c r IH]; intros pos; simpl; [lia |].
  destruct (is_ws c); simpl; [| lia].
  specialize (IH (pos + 1)). lia.
Qed.

Lemma span_digits_shorter (s : pystr) :
  (List.length (snd (span_digits s)) <= List.length s)%nat.
Proof.
  induction s as [| c r IH]; simpl; [lia |].
  destruct (is_digit c); simpl; [| lia].
  destruct (span_digits r); simpl in *. lia.
Qed.

Lemma strip_prefix_shorter (p s rest : pystr) :
  strip_prefix p s = Some rest -> List.length s = (List.length p + List.length rest)%nat.
Proof.
  revert s. induction p as [| x p IH]; intros [| y s] H; simpl in *;
    try discriminate; try (injection H as <-; reflexivity).
  destruct (x =? y); [| discriminate]. rewrite (IH _ H). reflexivity.
Qed.

Lemma number_sign_shorter (s : pystr) :
  (List.length (snd (number_sign s)) <= List.length s)%nat.
Proof. destruct s as [| c r]; simpl; [lia |]. destruct (c =? 45); simpl; lia. Qed.

Lemma number_sign_or_plus_shorter (s : pystr) :
  (List.length (snd (number_sign_or_plus s)) <= List.length s)%nat.
Proof.
  destruct s as [| c r]; simpl; [lia |].
  destruct (c =? 45); [simpl; lia |]. destruct (c =? 43); simpl; lia.
Qed.

Lemma number_integer_shorter (s ip rest : pystr) :
  number_integer s = Some (ip, rest) -> (List.length rest < List.length s)%nat.
Proof.
  destruct s as [| c r]; simpl; [discriminate |].
  destruct ((49 <=? c) && (c <=? 57)).
  - pose proof (span_digits_shorter r) as L. destruct (span_digits r) as [ds r'].
    intros H. injection H as _ <-. simpl in L. lia.
  - destruct (c =? 48); [| discriminate]. intros H. injection H as _ <-. lia.
Qed.

Lemma number_fraction_shorter (s : pystr) :
  (List.length (snd (number_fraction s)) <= List.length s)%nat.
Proof.
  destruct s as [| dot [| d r]]; simpl; try lia.
  destruct ((dot =? 46) && is_digit d); [| simpl; lia].
  pose proof (span_digits_shorter r) as L. destruct (span_digits r) as [ds r'].
  simpl in *. lia.
Qed.

Lemma number_exponent_shorter (s : pystr) :
  (List.length (snd (number_exponent s)) <= List.length s)%nat.
Proof.
  destruct s as [| e r]; simpl; [lia |].
  destruct ((e =? 101) || (e =? 69)); [| simpl; lia].
  pose proof (number_sign_or_plus_shorter r) as L1.
  destruct (number_sign_or_plus r) as [eneg r1].
  pose proof (span_digits_shorter r1) as L2.
  destruct (span_digits r1) as [[| d ds] r2]; simpl in *; lia.
Qed.

Lemma match_number_shorter (env : pyenv) (s rest : pystr) (pos p : N) (v : pyval) :
  match_number env s pos = Some (v, rest, p) -> (List.length rest < List.length s)%nat.
Proof.
  unfold match_number. intros H.
  pose proof (number_sign_shorter s) as L1.
  destruct (number_sign s) as [neg s1].
  destruct (number_integer s1) as [[ip s2] |] eqn:E2; [| discriminate].
  apply number_integer_shorter in E2.
  pose proof (number_fraction_shorter s2) as L3.
  destruct (number_fraction s2) as [frac s3].
  pose proof (number_exponent_shorter s3) as L4.
  destruct (number_exponent s3) as [exp s4].
  injection H as _ <- _. simpl in *. lia.
Qed.

(** A string that is read ends with its closing quote. *)
Lemma scanstring_shorter (n : nat) :
  forall (s : pystr) (pos begin : N) (acc t rest : pystr) (p : N),
    (List.length s <= n)%nat ->
    scanstring s pos begin acc = Found t rest p ->
    (List.length rest < List.length s)%nat.
Proof.
  induction n as [| n IH]; intros s pos begin acc t rest p Hn H.
  - destruct s; [discriminate | simpl in Hn; lia].
  - destruct s as [| c r]; [discriminate |]. simpl in Hn. cbn [scanstring] in H.
    destruct (c =? 34); [injection H as _ <- _; simpl; lia |].
    destruct (c =? 92).
    + destruct r as [| e r1]; [discriminate |].
      destruct (e =? 117).
      * destruct r1 as [| h1 [| h2 [| h3 [| h4 [| b r2]]]]]; try discriminate.
        destruct (hex4_val h1 h2 h3 h4) as [u |]; [| discriminate].
        assert (Hplain : forall a, scanstring (b :: r2) (pos + 6) begin a = Found t rest p ->
                                   (List.length rest
                                    < List.length (c :: e :: h1 :: h2 :: h3 :: h4 :: b :: r2))%nat).
        { intros a Ha. apply IH in Ha; simpl in *; lia. }
        destruct r2 as [| u' [| k1 [| k2 [| k3 [| k4 [| x r3]]]]]];
          try (eapply Hplain, H).
        destruct (is_high_surrogate u && (b =? 92) && (u' =? 117));
          [| eapply Hplain, H].
        destruct (hex4_val k1 k2 k3 k4) as [u2 |]; [| discriminate].
        destruct (is_low_surrogate u2); [| eapply Hplain, H].
        apply IH in H; simpl in *; lia.
      * destruct (unescape e); [| discriminate].
        apply IH in H; simpl in *; lia.
    + destruct (c <=? 31); [discriminate |].
      apply IH in H; simpl in *; lia.
Qed.

Lemma scanstring_not_deep (n : nat) :
  forall (s : pystr) (pos begin : N) (acc : pystr),
    (List.length s <= n)%nat -> scanstring s pos begin acc <> Deep.
Proof.
  induction n as [| n IH]; intros s pos begin acc Hn.
  - destruct s; [discriminate | simpl in Hn; lia].
  - destruct s as [| c r]; [discriminate |]. simpl in Hn. cbn [scanstring].
    destruct (c =? 34); [discriminate |].
    destruct (c =? 92).
    + destruct r as [| e r1]; [discriminate |].
      destruct (e =? 117).
      * destruct r1 as [| h1 [| h2 [| h3 [| h4 [| b r2]]]]]; try discriminate.
        destruct (hex4_val h1 h2 h3 h4) as [u |]; [| discriminate].
        assert (Hplain : forall a, scanstring (b :: r2) (pos + 6) begin a <> Deep)
          by (intros a; apply IH; simpl in *; lia).
        destruct r2 as [| u' [| k1 [| k2 [| k3 [| k4 [| x r3]]]]]]; try apply Hplain.
        destruct (is_high_surrogate u && (b =? 92) && (u' =? 117)); [| apply Hplain].
        destruct (hex4_val k1 k2 k3 k4) as [u2 |]; [| discriminate].
        destruct (is_low_surrogate u2); [| apply Hplain].
        apply IH; simpl in *; lia.
      * destruct (unescape e); [| discriminate]. apply IH; simpl in *; lia.
    + destruct (c <=? 31); [discriminate |]. apply IH; simpl in *; lia.
Qed.

Lemma consumes_bad (s msg : pystr) (pos : N) : consumes s (Bad msg pos).
Proof. split; [discriminate | intros v rest p H; discriminate H]. Qed.

Lemma consumes_found (s rest : pystr) (v : pyval) (p : N) :
  (List.length rest < List.length s)%nat -> consumes s (Found v rest p).
Proof.
  intros L. split; [discriminate |].
  intros v' rest' p' H. injection H as _ <- _. exact L.
Qed.

Lemma consumes_longer (s s' : pystr) (r : scanned pyval) :
  consumes s' r -> (List.length s' <= List.length s)%nat -> consumes s r.
Proof.
  intros [Hd Hf] L. split; [exact Hd |].
  intros v rest p H. specialize (Hf v rest p H). lia.
Qed.

Lemma consumes_constant (s name : pystr) (v : pyval) (pos : N) (otherwise : scanned pyval) :
  name <> [] ->
  consumes s otherwise ->
  consumes s match strip_prefix name s with
             | Some rest => Found v rest (pos + N.of_nat (List.length name))
             | None => otherwise
             end.
Proof.
  intros Hname Ho. destruct (strip_prefix name s) as [rest |] eqn:E; [| exact Ho].
  apply strip_prefix_shorter in E. apply consumes_found.
  destruct name; [congruence | simpl in E; lia].
Qed.

Lemma consumes_number (env : pyenv) (s : pystr) (pos : N) :
  consumes s match match_number env s pos with
             | Some (v, rest, p) => Found v rest p
             | None => Bad (lit "Expecting value") pos
             end.
Proof.
  destruct (match_number env s pos) as [[[v rest] p] |] eqn:E; [| apply consumes_bad].
  apply consumes_found. eapply match_number_shorter, E.
Qed.

Lemma consumes_string (r : pystr) (c : N) (pos begin : N) :
  consumes (c :: r) match scanstring r pos begin [] with
                    | Found t rest p => Found (PStr t) rest p
                    | Bad m p => Bad m p
                    | Deep => Deep
                    end.
Proof.
  destruct (scanstring r pos begin []) as [t rest p | m p |] eqn:E.
  - apply consumes_found.
    apply scanstring_shorter with (n := List.length r) in E; simpl; lia.
  - apply consumes_bad.
  - now apply scanstring_not_deep with (n := List.length r) in E.
Qed.

Ltac scan_step :=
  match goal with
  | |- consumes _ (Bad _ _) => apply consumes_bad
  | |- consumes _ (Found _ _ _) => apply consumes_found; simpl in *; lia
  | |- consumes _ (let (_, _) := skip_ws ?a ?b in _) =>
      let L := fresh "L" in
      pose proof (skip_ws_shorter a b) as L;
      destruct (skip_ws a b) as [? ?]; simpl in L
  | |- consumes _ (match ?x with [] => _ | _ :: _ => _ end) => destruct x
  | |- consumes _ (if ?b then _ else _) => destruct b
  end.

Lemma scan_budget (env : pyenv) (fuel : nat) :
  (forall s pos, (2 * List.length s < fuel)%nat -> consumes s (scan_once env fuel s pos))
  /\ (forall s pos acc,
         (2 * List.length s < fuel)%nat -> consumes s (object_items env fuel s pos acc))
  /\ (forall s pos acc,
         (2 * List.length s + 1 < fuel)%nat ->
         consumes s (array_items env fuel s pos acc)).
Proof.
  induction fuel as [| fuel (IHscan & IHobject & IHarray)].
  - repeat split; intros; lia.
  - split; [| split].
    + intros s pos Hf. cbn [scan_once].
      destruct s as [| c r]; [apply consumes_bad |]. simpl in Hf.
      destruct (c =? 34); [apply consumes_string |].
      destruct (c =? 123).
      { repeat scan_step;
          (eapply consumes_longer; [apply IHobject |]; simpl in *; lia). }
      destruct (c =? 91).
      { repeat scan_step;
          (eapply consumes_longer; [apply IHarray |]; simpl in *; lia). }
      cbv zeta.
      repeat match goal with
             | |- consumes _ (if ?b then _ else _) => destruct b
             end;
        try (apply consumes_constant; [discriminate |]); apply consumes_number.
    + intros s pos acc Hf. cbn [object_items].
      destruct s as [| q r]; [apply consumes_bad |]. simpl in Hf.
      destruct (q =? 34); [| apply consumes_bad].
      destruct (scanstring r (pos + 1) pos []) as [key s1 p1 | m p |] eqn:E;
        [| apply consumes_bad
         | now apply scanstring_not_deep with (n := List.length r) in E].
      apply scanstring_shorter with (n := List.length r) in E; [| lia].
      do 4 scan_step; try apply consumes_bad.
      match goal with
      | |- consumes _ (match scan_once env ?f ?s ?p with _ => _ end) =>
          assert (Hvalue : consumes s (scan_once env f s p))
            by (apply IHscan; simpl in *; lia);
          destruct (scan_once env f s p) as [v s4 p4 | m p' |];
          [| apply consumes_bad | now destruct Hvalue]
      end.
      destruct Hvalue as [_ Hvalue]. specialize (Hvalue v s4 p4 eq_refl).
      repeat scan_step.
      eapply consumes_longer; [apply IHobject |]; simpl in *; lia.
    + intros s pos acc Hf. cbn [array_items].
      assert (Hvalue : consumes s (scan_once env fuel s pos)) by (apply IHscan; lia).
      destruct (scan_once env fuel s pos) as [v s1 p1 | m p' |];
        [| apply consumes_bad | now destruct Hvalue].
      destruct Hvalue as [_ Hvalue]. specialize (Hvalue v s1 p1 eq_refl).
      repeat scan_step.
      eapply consumes_longer; [apply IHarray |]; simpl in *; lia.
Qed.

(** [json.loads] of a [str] gives a value or a [JSONDecodeError]: the
    budget of [decode] is never used up. *)
Lemma decode_total (env : pyenv) (doc : pystr) :
  (exists v, decode env doc = Decoded v) \/ (exists msg, decode env doc = DecodeError msg).
Proof.
  unfold decode.
  destruct (starts_with_bom doc); [right; eexists; reflexivity |].
  pose proof (skip_ws_shorter doc 0) as L.
  destruct (skip_ws doc 0) as [s p]; simpl in L.
  destruct (proj1 (scan_budget env (S (S (2 * List.length doc)))) s p) as [Hd _]; [lia |].
  destruct (scan_once env (S (S (2 * List.length doc))) s p) as [v s1 p1 | m p' |];
    [| right; eexists; reflexivity | congruence].
  destruct (skip_ws s1 p1) as [[| x s2] p2]; [left | right]; eexists; reflexivity.
Qed.

(** ** The encoder writes printable ASCII *)

Lemma printableb_spec (c : N) : printableb c = true <-> printable c.
Proof.
  unfold printableb, printable.
  rewrite andb_true_iff, !N.leb_le. tauto.
Qed.

Lemma printable_text (t : pystr) : forallb printableb t = true -> Forall printable t.
Proof.
  rewrite forallb_forall, Forall_forall.
  intros H c Hc. apply printableb_spec, H, Hc.
Qed.

Ltac literal := apply printable_text; reflexivity.

Ltac split_text :=
  repeat first [ apply Forall_app; split
               | apply Forall_cons; [unfold printable; lia |] ].

Lemma uint_text_printable (u : uint) : Forall printable (uint_text u).
Proof.
  induction u; simpl; constructor; trivial; unfold printable, digit_char; lia.
Qed.

Lemma int_text_printable (i : Decimal.int) : Forall printable (int_text i).
Proof.
  destruct i; simpl; [| constructor; [unfold printable; lia |]];
    apply uint_text_printable.
Qed.

Lemma hex_char_printable (d : N) : d < 16 -> printable (hex_char d).
Proof.
  unfold hex_char, printable. intros Hd.
  destruct (d <? 10) eqn:E; [apply N.ltb_lt in E | apply N.ltb_ge in E]; lia.
Qed.

Lemma hex4_printable (n : N) : Forall printable (hex4 n).
Proof.
  unfold hex4.
  repeat constructor; apply hex_char_printable; apply N.mod_lt; discriminate.
Qed.

Lemma escape_char_printable (c : N) : Forall printable (escape_char c).
Proof.
  unfold escape_char.
  repeat match goal with
         | |- context [if ?b then _ else _] => destruct b eqn:?
         end;
    try literal;
    repeat (apply Forall_app; split); try literal; try apply hex4_printable.
  constructor; [| constructor]. now apply printableb_spec.
Qed.

Lemma escaped_printable (s : pystr) : Forall printable (flat_map escape_char s).
Proof.
  induction s as [| c s IH]; simpl; [constructor |].
  apply Forall_app; split; [apply escape_char_printable | exact IH].
Qed.

Lemma encode_basestring_ascii_printable (s : pystr) :
  Forall printable (encode_basestring_ascii s).
Proof.
  unfold encode_basestring_ascii.
  repeat (apply Forall_app; split); try literal.
  apply escaped_printable.
Qed.

Lemma exponent_text_printable (e : Decimal.int) : Forall printable (exponent_text e).
Proof.
  destruct e; simpl; (constructor; [unfold printable; lia |]);
    apply uint_text_printable.
Qed.

Lemma float_repr_printable (f : pyfloat) : Forall printable (float_repr f).
Proof.
  destruct f as [| [|] | [i fr | i fr e]]; simpl; try literal;
    destruct fr; split_text; try literal; try apply int_text_printable;
    try apply uint_text_printable; try apply exponent_text_printable.
Qed.

Lemma join_printable (sep : pystr) (parts : list pystr) :
  Forall printable sep -> Forall (Forall printable) parts ->
  Forall printable (join sep parts).
Proof.
  intros Hsep. induction 1 as [| p rest Hp _ IH]; simpl; [constructor |].
  destruct rest; [exact Hp |].
  repeat (apply Forall_app; split); assumption.
Qed.

(** Induction on a value, with the property known of the members of a list
    and of a dictionary. *)
Lemma pyval_nested_ind (P : pyval -> Prop) :
  P PNone -> (forall b, P (PBool b)) -> (forall z, P (PInt z)) ->
  (forall f, P (PFloat f)) -> (forall s, P (PStr s)) ->
  (forall l, Forall P l -> P (PList l)) ->
  (forall kv, Forall (fun item => P (snd item)) kv -> P (PDict kv)) ->
  (forall t, P (PObj t)) ->
  forall v, P v.
Proof.
  intros HN HB HI HF HS HL HD HO.
  fix IH 1.
  intros [| b | z | f | s | l | kv | t].
  - exact HN.
  - apply HB.
  - apply HI.
  - apply HF.
  - apply HS.
  - apply HL. induction l as [| x l IHl]; constructor; [apply IH | exact IHl].
  - apply HD. induction kv as [| [k x] kv IHkv]; constructor; [apply IH | exact IHkv].
  - apply HO.
Qed.

Lemma json_dumps_printable (v : pyval) :
  forall text, json_dumps v = Ok text -> Forall printable text.
Proof.
  induction v as [| [|] | z | f | s | l IH | kv IH | t] using pyval_nested_ind;
    simpl; intros text H; try (injection H as <-); try discriminate; try literal.
  - apply int_text_printable.
  - apply float_repr_printable.
  - apply encode_basestring_ascii_printable.
  - match type of H with
    | bind ?items _ = _ => destruct items as [parts |] eqn:E; [| discriminate]
    end.
    simpl in H. injection H as <-.
    split_text; try literal.
    apply join_printable; [literal |].
    clear - IH E. revert parts E.
    induction IH as [| x rest Hx _ IHrest]; intros parts E.
    + injection E as <-. constructor.
    + destruct (json_dumps x) as [t |]; [| discriminate]. simpl in E.
      match type of E with
      | bind ?items _ = _ => destruct items as [ts |] eqn:E'; [| discriminate]
      end.
      simpl in E. injection E as <-.
      constructor; [apply Hx; reflexivity | apply IHrest; reflexivity].
  - match type of H with
    | bind ?items _ = _ => destruct items as [parts |] eqn:E; [| discriminate]
    end.
    simpl in H. injection H as <-.
    split_text; try literal.
    apply join_printable; [literal |].
    clear - IH E. revert parts E.
    induction IH as [| [k x] rest Hx _ IHrest]; intros parts E.
    + injection E as <-. constructor.
    + simpl in Hx. destruct (json_dumps x) as [t |]; [| discriminate]. simpl in E.
      match type of E with
      | bind ?items _ = _ => destruct items as [ts |] eqn:E'; [| discriminate]
      end.
      simpl in E. injection E as <-.
      constructor; [| apply IHrest; reflexivity].
      split_text; try literal.
      * apply escaped_printable.
      * apply Hx; reflexivity.
Qed.

(** ** Frames *)

Lemma byte_of_printable (c : N) : printable c -> byte_of c <> x00.
Proof.
  unfold printable, byte_of. intros Hc.
  destruct (Byte.of_N c) as [b |] eqn:E.
  - intros ->. apply Byte.to_of_N in E. simpl in E. lia.
  - pose proof (Byte.to_of_N_option_map c) as M. rewrite E in M. simpl in M.
    destruct (c <=? 255) eqn:L; [discriminate |].
    apply N.leb_gt in L. lia.
Qed.

Lemma str_encode_printable (t : pystr) :
  Forall printable t -> forall pos, str_encode_from t pos = Ok (map byte_of t).
Proof.
  induction 1 as [| c t Hc _ IH]; intros pos; simpl; [reflexivity |].
  unfold printable in Hc.
  replace (is_surrogate c) with false
    by (unfold is_surrogate; symmetry; apply andb_false_intro1, N.leb_gt; lia).
  rewrite IH. simpl. unfold utf8_char.
  replace (c <? 128) with true by (symmetry; apply N.ltb_lt; lia).
  reflexivity.
Qed.

Lemma printable_payload (t : pystr) : Forall printable t -> ~ In x00 (map byte_of t).
Proof.
  intros H Hin. apply in_map_iff in Hin as (c & Hc & Hin).
  rewrite Forall_forall in H. exact (byte_of_printable c (H c Hin) Hc).
Qed.

Lemma one_sentinel (payload : list byte) :
  ~ In x00 payload -> sentinels (payload ++ [x00]) = 1%nat.
Proof.
  intros H. unfold sentinels. rewrite count_occ_app.
  apply (count_occ_not_In Byte.byte_eq_dec) in H. rewrite H. reflexivity.
Qed.

Lemma encoded_payload (v : pyval) (text : pystr) :
  json_dumps v = Ok text ->
  exists payload, str_encode text = Ok payload /\ ~ In x00 payload.
Proof.
  intros H. apply json_dumps_printable in H.
  exists (map byte_of text). split.
  - apply str_encode_printable, H.
  - apply printable_payload, H.
Qed.

(** The encoding of a dictionary starts with a brace. *)
Lemma dict_text_nonempty (kv : list (pystr * pyval)) (text : pystr) :
  json_dumps (PDict kv) = Ok text -> exists rest, text = 123 :: rest.
Proof.
  simpl. intros H.
  match type of H with
  | bind ?items _ = _ => destruct items as [parts |]; [| discriminate]
  end.
  simpl in H. injection H as <-. eexists. reflexivity.
Qed.

(** ** Encodings of the responses *)

(** A response that carries an id starts with the field [id] and the
    encoding of the id. *)
Lemma carries_id_prefix (text : pystr) (request_id : pyval) :
  carries_id text request_id ->
  exists t rest,
    json_dumps request_id = Ok t /\ text = qlit "{'id': " ++ t ++ rest.
Proof.
  intros [fields H]. cbn [json_dumps bind] in H.
  destruct (json_dumps request_id) as [t |]; [| discriminate H].
  cbn [bind] in H.
  match type of H with
  | bind (bind ?items _) _ = _ => destruct items as [ts |]; [| discriminate H]
  end.
  cbn [bind] in H. injection H as <-.
  exists t. destruct ts as [| p ts].
  - exists (lit "}"). split; reflexivity.
  - generalize (join (lit ", ") (p :: ts)). intros more.
    exists (lit ", " ++ more ++ lit "}"). split; [reflexivity |].
    cbn. rewrite <- app_assoc. reflexivity.
Qed.

Section Responses.

Context {U : Type} (env : pyenv).

Lemma invalid_json_encodes (msg : pystr) : exists text, json_dumps (invalid_json msg) = Ok text.
Proof. eexists. reflexivity. Qed.

Lemma handler_error_encodes (e : exn) :
  exists text, json_dumps (handler_error env e) = Ok text.
Proof. eexists. reflexivity. Qed.

Lemma error_response_encodes (i : Z) (msg : pystr) :
  exists text, json_dumps (error_response (PInt i) msg) = Ok text.
Proof. eexists. reflexivity. Qed.

Lemma failure_response_encodes (i : Z) (e : exn) :
  exists text, json_dumps (failure_response env (PInt i) e) = Ok text.
Proof. eexists. reflexivity. Qed.

Lemma success_response_encodes (i : Z) (result : pyval) (t : pystr) :
  json_dumps result = Ok t ->
  exists text, json_dumps (success_response (PInt i) result) = Ok text.
Proof.
  intros H. unfold success_response. cbn [json_dumps bind]. rewrite H.
  eexists. reflexivity.
Qed.

Lemma success_response_fails (i : Z) (result : pyval) (e : exn) :
  json_dumps result = Err e ->
  json_dumps (success_response (PInt i) result) = Err e.
Proof.
  intros H. unfold success_response. cbn [json_dumps bind]. rewrite H. reflexivity.
Qed.

Lemma respond_ok (w : world U) (response : pyval) (text : pystr) :
  json_dumps response = Ok text -> respond env w response = (w, Returns text).
Proof. intros H. unfold respond. rewrite H. reflexivity. Qed.

Lemma on_exception_returns (w : world U) (e : exn) :
  exists text, json_dumps (handler_error env e) = Ok text
               /\ on_exception env w e = (w, Returns text).
Proof.
  destruct (handler_error_encodes e) as [text H]. exists text. split; [exact H |].
  unfold on_exception, dumps_or_raise. rewrite H. reflexivity.
Qed.

End Responses.

(** ** The dispatcher *)

Section Dispatch.

Context {U : Type} (env : pyenv) (subclass : world U -> pystr -> option (attribute U)).

Lemma handle_command_decoded (tbl : world U -> pystr -> option (attribute U))
  (w : world U) (doc : pystr) (cmd : list (pystr * pyval)) (name : pystr) :
  json_loads env (PStr doc) = Decoded (PDict cmd) ->
  command_name cmd = PStr name ->
  handle_command_with env tbl w (PStr doc) =
  match tbl w name with
  | None | Some (Data PNone) =>
      respond env w (error_response (command_id cmd) (lit "Unknown command: " ++ name))
  | Some (Data _) =>
      respond env w (error_response (command_id cmd)
                       (lit "Command is not callable: " ++ name))
  | Some (Callable funcstr h) =>
      match invoke funcstr h (command_params cmd) w with
      | (w1, Returns result) => respond env w1 (success_response (command_id cmd) result)
      | (w1, Raises e) => respond env w1 (failure_response env (command_id cmd) e)
      | (w1, Exits e) => (w1, Exits e)
      end
  end.
Proof.
  intros Hdoc Hname. unfold handle_command_with, command_name in *.
  rewrite Hdoc, Hname. reflexivity.
Qed.

(** Whatever [handle_command] returns is the encoding of a dictionary. *)
Lemma handle_command_returns_record (tbl : world U -> pystr -> option (attribute U))
  (w w' : world U) (cmd_json : pyval) (text : pystr) :
  handle_command_with env tbl w cmd_json = (w', Returns text) ->
  exists fields, json_dumps (PDict fields) = Ok text.
Proof.
  assert (Hexc : forall w0 e, on_exception env w0 e = (w', Returns text) ->
                              exists fields, json_dumps (PDict fields) = Ok text).
  { intros w0 e H. destruct (on_exception_returns env w0 e) as (t & Ht & Hw).
    rewrite Hw in H. injection H as _ <-. eexists. exact Ht. }
  assert (Hresp : forall w0 fields, respond env w0 (PDict fields) = (w', Returns text) ->
                                    exists fields', json_dumps (PDict fields') = Ok text).
  { intros w0 fields H. unfold respond in H.
    destruct (json_dumps (PDict fields)) as [t |] eqn:E.
    - injection H as _ <-. eexists. exact E.
    - eapply Hexc, H. }
  unfold handle_command_with.
  destruct (json_loads env cmd_json) as [cmd | msg | e]; [| | apply Hexc].
  - destruct cmd as [| | | | | | cmd |]; try apply Hexc.
    destruct (get_default cmd (lit "cmd") (PStr [])) as [| | | | name | | |];
      try apply Hexc.
    destruct (tbl w name) as [[v | funcstr h] |].
    + destruct v; apply Hresp.
    + destruct (invoke funcstr h _ w) as [w1 [result | e | e]];
        [apply Hresp | apply Hresp | discriminate].
    + apply Hresp.
  - destruct (invalid_json_encodes msg) as [t Ht].
    unfold dumps_or_raise. rewrite Ht. intros H. injection H as _ <-.
    eexists. exact Ht.
Qed.

(** It never lets an [Exception] through. *)
Lemma handle_command_never_raises (tbl : world U -> pystr -> option (attribute U))
  (w w' : world U) (cmd_json : pyval) (e : exn) :
  handle_command_with env tbl w cmd_json <> (w', Raises e).
Proof.
  assert (Hexc : forall w0 e0, on_exception env w0 e0 <> (w', Raises e)).
  { intros w0 e0 H. destruct (on_exception_returns env w0 e0) as (t & _ & Hw).
    rewrite Hw in H. discriminate. }
  assert (Hresp : forall w0 v, respond env w0 v <> (w', Raises e)).
  { intros w0 v H. unfold respond in H.
    destruct (json_dumps v); [discriminate | eapply Hexc, H]. }
  unfold handle_command_with.
  destruct (json_loads env cmd_json) as [cmd | msg | e0]; [| | apply Hexc].
  - destruct cmd as [| | | | | | cmd |]; try apply Hexc.
    destruct (get_default cmd (lit "cmd") (PStr [])) as [| | | | name | | |];
      try apply Hexc.
    destruct (tbl w name) as [[v | funcstr h] |].
    + destruct v; apply Hresp.
    + destruct (invoke funcstr h _ w) as [w1 [result | e1 | e1]];
        [apply Hresp | apply Hresp | discriminate].
    + apply Hresp.
  - destruct (invalid_json_encodes msg) as [t Ht].
    unfold dumps_or_raise. rewrite Ht. discriminate.
Qed.

(** C2.  An input that is not valid JSON gets the error response with id 0:
    [handle_command] returns, leaves the process as it is, and what it
    returns is the encoding of the record with [id] 0, [status] ["error"]
    and the decoder's message after ["Invalid JSON: "]. *)
Theorem undecodable_input_gets_id_zero (depth : nat) (w : world U) (doc msg : pystr) :
  json_loads env (PStr doc) = DecodeError msg ->
  exists text,
    json_dumps (PDict [(lit "id", PInt 0);
                       (lit "status", PStr (lit "error"));
                       (lit "error", PStr (lit "Invalid JSON: " ++ msg))]) = Ok text
    /\ handle_command env subclass depth w (PStr doc) = (w, Returns text)
    /\ carries_id text (PInt 0).
Proof.
  intros Hdoc. destruct (invalid_json_encodes msg) as [text Ht].
  exists text. split; [exact Ht | split].
  - unfold handle_command, handle_command_with. rewrite Hdoc.
    unfold dumps_or_raise. rewrite Ht. reflexivity.
  - eexists. exact Ht.
Qed.

(** C3.  A command whose name is not an attribute of the backend gets an
    error response with its own id, whose message is ["Unknown command: "]
    followed by the name. *)
Theorem unknown_command_is_reported (depth : nat) (w : world U) (doc : pystr)
  (cmd : list (pystr * pyval)) (name : pystr) (i : Z) :
  json_loads env (PStr doc) = Decoded (PDict cmd) ->
  command_name cmd = PStr name ->
  command_id cmd = PInt i ->
  getattr_ env subclass depth w name = None ->
  exists text,
    json_dumps (PDict [(lit "id", PInt i);
                       (lit "status", PStr (lit "error"));
                       (lit "error", PStr (lit "Unknown command: " ++ name))]) = Ok text
    /\ handle_command env subclass depth w (PStr doc) = (w, Returns text)
    /\ carries_id text (PInt i).
Proof.
  intros Hdoc Hname Hid Hattr.
  destruct (error_response_encodes i (lit "Unknown command: " ++ name)) as [text Ht].
  exists text. split; [exact Ht | split].
  - unfold handle_command.
    rewrite (handle_command_decoded _ _ _ _ _ Hdoc Hname), Hattr, Hid.
    apply respond_ok, Ht.
  - eexists. exact Ht.
Qed.

(** C10.  Valid JSON that is not an object is not reported as a decoding
    error: the lookup of a field raises [AttributeError], the generic
    clause answers with id 0 and a message that starts with
    ["Handler error: "]. *)
Theorem non_object_is_a_handler_error (depth : nat) (w : world U) (doc : pystr) (v : pyval) :
  json_loads env (PStr doc) = Decoded v ->
  (forall fields, v <> PDict fields) ->
  let e := AttributeError (quoted (type_name v) ++ lit " object has no attribute 'get'") in
  exists text,
    json_dumps (PDict [(lit "id", PInt 0);
                       (lit "status", PStr (lit "error"));
                       (lit "error", PStr (lit "Handler error: " ++ exn_msg e));
                       (lit "traceback", PStr (format_exc env e))]) = Ok text
    /\ handle_command env subclass depth w (PStr doc) = (w, Returns text)
    /\ carries_id text (PInt 0).
Proof.
  intros Hdoc Hv e.
  destruct (on_exception_returns env w e) as (text & Ht & Hw).
  exists text. split; [exact Ht | split].
  - unfold handle_command, handle_command_with. rewrite Hdoc.
    destruct v; try exact Hw. now elim (Hv kv).
  - eexists. exact Ht.
Qed.

(** C9.  When the value a handler returns has no JSON encoding, the
    [TypeError] of [json.dumps] reaches the generic clause: the response
    carries id 0, not the id of the command, and its message is
    ["Handler error: "] followed by the message of the [TypeError]. *)
Theorem unencodable_result_loses_the_id (depth : nat) (w w1 : world U) (doc : pystr)
  (cmd : list (pystr * pyval)) (name funcstr : pystr) (h : handler U) (i : Z)
  (result : pyval) (e : exn) :
  json_loads env (PStr doc) = Decoded (PDict cmd) ->
  command_name cmd = PStr name ->
  command_id cmd = PInt i ->
  getattr_ env subclass depth w name = Some (Callable funcstr h) ->
  invoke funcstr h (command_params cmd) w = (w1, Returns result) ->
  json_dumps result = Err e ->
  exists text,
    json_dumps (PDict [(lit "id", PInt 0);
                       (lit "status", PStr (lit "error"));
                       (lit "error", PStr (lit "Handler error: " ++ exn_msg e));
                       (lit "traceback", PStr (format_exc env e))]) = Ok text
    /\ handle_command env subclass depth w (PStr doc) = (w1, Returns text)
    /\ carries_id text (PInt 0).
Proof.
  intros Hdoc Hname Hid Hattr Hcall Hres.
  destruct (on_exception_returns env w1 e) as (text & Ht & Hw).
  exists text. split; [exact Ht | split].
  - unfold handle_command.
    rewrite (handle_command_decoded _ _ _ _ _ Hdoc Hname), Hattr, Hcall, Hid.
    unfold respond. rewrite (success_response_fails i result e Hres). exact Hw.
  - eexists. exact Ht.
Qed.

(** C1, amended.  A command whose name resolves to a callable, and whose
    call returns an encodable value or raises an [Exception], gets a
    response that carries the id of the command. *)
Theorem response_carries_request_id (depth : nat) (w w1 : world U) (doc : pystr)
  (cmd : list (pystr * pyval)) (name funcstr : pystr) (h : handler U) (i : Z)
  (o : outcome pyval) :
  json_loads env (PStr doc) = Decoded (PDict cmd) ->
  command_name cmd = PStr name ->
  command_id cmd = PInt i ->
  getattr_ env subclass depth w name = Some (Callable funcstr h) ->
  invoke funcstr h (command_params cmd) w = (w1, o) ->
  answerable o ->
  exists text,
    handle_command env subclass depth w (PStr doc) = (w1, Returns text)
    /\ carries_id text (PInt i).
Proof.
  intros Hdoc Hname Hid Hattr Hcall Ho.
  unfold handle_command.
  rewrite (handle_command_decoded _ _ _ _ _ Hdoc Hname), Hattr, Hcall, Hid.
  destruct o as [result | e | e]; simpl in Ho.
  - destruct Ho as [t Ht].
    destruct (success_response_encodes i result t Ht) as [text Htext].
    exists text. split; [apply respond_ok, Htext | eexists; exact Htext].
  - destruct (failure_response_encodes env i e) as [text Htext].
    exists text. split; [apply respond_ok, Htext | eexists; exact Htext].
  - contradiction.
Qed.

End Dispatch.

(** ** The receive loop *)

Section Loop.

Context {U : Type} (env : pyenv) (subclass : world U -> pystr -> option (attribute U)).

Lemma getattr_ready (depth : nat) (w : world U) :
  subclass w (lit "ready") = None ->
  getattr_ env subclass depth w (lit "ready")
  = Some (method0 env (lit "ready") (ready env)).
Proof.
  intros H. destruct depth; cbn [getattr_];
    change (str_eqb (lit "ready") (lit "state")) with false;
    change (str_eqb (lit "ready") (lit "_running")) with false;
    cbv iota; rewrite H; reflexivity.
Qed.

Lemma getattr_shutdown (depth : nat) (w : world U) :
  subclass w (lit "shutdown") = None ->
  getattr_ env subclass depth w (lit "shutdown")
  = Some (method0 env (lit "shutdown") shutdown).
Proof.
  intros H. destruct depth; cbn [getattr_];
    change (str_eqb (lit "shutdown") (lit "state")) with false;
    change (str_eqb (lit "shutdown") (lit "_running")) with false;
    cbv iota; rewrite H; reflexivity.
Qed.

(** A method without parameters, called without arguments, runs its body. *)
Lemma invoke_method0 (name : pystr) (body : world U -> world U * outcome pyval)
  (params : pyval) (w : world U) :
  truthy params = false ->
  match method0 env name body with
  | Callable funcstr h => invoke funcstr h params w = body w
  | Data _ => False
  end.
Proof.
  intros Hp. unfold method0, invoke. rewrite Hp.
  cbn [bind_kwargs check_keywords bind filter].
  destruct (body w) as [w1 o]. reflexivity.
Qed.

(** One turn of the loop on a line that is not blank, while the flag is
    set: the response of [handle_command] is framed and written, and the
    loop goes on. *)
Lemma receive_loop_dispatch (tbl : world U -> pystr -> option (attribute U))
  (n : nat) (w0 w1 : world U) (line : pystr) (rest : list pystr) (text : pystr) :
  stdin w0 = line :: rest ->
  _running w0 = true ->
  strip line <> [] ->
  handle_command_with env tbl (set_stdin rest w0) (PStr (strip line)) = (w1, Returns text) ->
  exists payload,
    str_encode text = Ok payload /\ ~ In x00 payload
    /\ receive_loop (handle_command_with env tbl) (S n) w0
       = receive_loop (handle_command_with env tbl) n (write_stdout (payload ++ [x00]) w1).
Proof.
  intros Hin Hrun Hline Hhc.
  destruct (handle_command_returns_record env tbl _ _ _ _ Hhc) as [fields Hfields].
  destruct (encoded_payload _ _ Hfields) as (payload & Henc & Hnul).
  destruct (dict_text_nonempty _ _ Hfields) as [more ->].
  exists payload. split; [exact Henc | split; [exact Hnul |]].
  cbn [receive_loop]. rewrite Hin.
  change (_running (set_stdin rest w0)) with (_running w0). rewrite Hrun.
  cbn [negb]. destruct (strip line) as [| c s] eqn:Hs; [congruence |].
  rewrite Hhc. cbn [emit send_response]. rewrite Henc. reflexivity.
Qed.

(** Once the flag is cleared, the loop reads at most one more line and
    ends; it does not call [handle_command], whatever that is. *)
Lemma receive_loop_stopped (hc : world U -> pyval -> world U * outcome pystr)
  (n : nat) (w : world U) :
  _running w = false ->
  (List.length (stdin w) <= n)%nat ->
  receive_loop hc n w = (set_stdin (tl (stdin w)) w, Returns PNone).
Proof.
  intros Hrun Hn. destruct n as [| n]; cbn [receive_loop].
  - destruct w as [st r u out [| l ls]]; simpl in *; [reflexivity | lia].
  - destruct (stdin w) as [| l ls] eqn:Hin.
    + destruct w; simpl in *; subst; reflexivity.
    + change (_running (set_stdin ls w)) with (_running w). rewrite Hrun. reflexivity.
Qed.


(** C5.  [run] first sets the flag, then sends itself the command
    [{"cmd": "ready", "id": 0}]; with the built-in [ready], the response
    to it is framed and written before the loop reads its first line. *)
Theorem run_announces_readiness (depth : nat) (w : world U) :
  subclass (set_running true w) (lit "ready") = None ->
  json_dumps ready_command = Ok (qlit "{'cmd': 'ready', 'id': 0}")
  /\ exists text payload,
      json_dumps (PDict [(lit "id", PInt 0);
                         (lit "status", PStr (lit "success"));
                         (lit "result",
                          PDict [(lit "status", PStr (lit "ready"));
                                 (lit "python_version", PStr (sys_version env))])])
      = Ok text
      /\ handle_command env subclass depth (set_running true w)
           (PStr (qlit "{'cmd': 'ready', 'id': 0}"))
         = (set_running true w, Returns text)
      /\ str_encode text = Ok payload /\ ~ In x00 payload
      /\ run env subclass depth w
         = receive_loop (handle_command env subclass depth) (List.length (stdin w))
             (write_stdout (payload ++ [x00]) (set_running true w)).
Proof.
  intros Hsub. split; [reflexivity |].
  set (w1 := set_running true w) in *.
  assert (Hdoc : json_loads env (PStr (qlit "{'cmd': 'ready', 'id': 0}"))
                 = Decoded (PDict [(lit "cmd", PStr (lit "ready")); (lit "id", PInt 0)]))
    by (vm_compute; reflexivity).
  destruct (success_response_encodes 0
              (PDict [(lit "status", PStr (lit "ready"));
                      (lit "python_version", PStr (sys_version env))]) _ eq_refl)
    as [text Ht].
  assert (Hhc : handle_command env subclass depth w1 (PStr (qlit "{'cmd': 'ready', 'id': 0}"))
                = (w1, Returns text)).
  { unfold handle_command.
    rewrite (handle_command_decoded _ _ _ _ _ (lit "ready") Hdoc eq_refl).
    rewrite (getattr_ready depth w1 Hsub).
    pose proof (invoke_method0 (lit "ready") (ready env)
                  (command_params [(lit "cmd", PStr (lit "ready")); (lit "id", PInt 0)])
                  w1 eq_refl) as Hcall.
    unfold method0 in *. rewrite Hcall. unfold ready.
    apply respond_ok, Ht. }
  destruct (encoded_payload _ _ Ht) as (payload & Henc & Hnul).
  destruct (dict_text_nonempty _ _ Ht) as [more Hmore].
  exists text, payload. repeat split; try assumption.
  unfold run, run_with. fold w1.
  change (json_dumps ready_command) with (Ok (qlit "{'cmd': 'ready', 'id': 0}")).
  cbv iota beta. rewrite Hhc. rewrite Hmore in *.
  cbn [emit send_response]. rewrite Henc. reflexivity.
Qed.

(** C6.  The built-in [shutdown] clears the flag and returns
    [{"status": "shutdown"}]; the loop writes the response to the command
    and, at its next turn, ends: of the lines that follow it reads at most
    one, and gives none to [handle_command]. *)
Theorem shutdown_stops_the_loop (depth n : nat) (w0 : world U) (line : pystr)
  (rest : list pystr) (cmd : list (pystr * pyval)) (i : Z) :
  subclass (set_stdin rest w0) (lit "shutdown") = None ->
  stdin w0 = line :: rest ->
  _running w0 = true ->
  strip line <> [] ->
  json_loads env (PStr (strip line)) = Decoded (PDict cmd) ->
  command_name cmd = PStr (lit "shutdown") ->
  truthy (command_params cmd) = false ->
  command_id cmd = PInt i ->
  (List.length rest <= n)%nat ->
  shutdown (set_stdin rest w0)
  = (set_running false (set_stdin rest w0),
     Returns (PDict [(lit "status", PStr (lit "shutdown"))]))
  /\ exists text payload,
      json_dumps (PDict [(lit "id", PInt i);
                         (lit "status", PStr (lit "success"));
                         (lit "result", PDict [(lit "status", PStr (lit "shutdown"))])])
      = Ok text
      /\ str_encode text = Ok payload
      /\ receive_loop (handle_command env subclass depth) (S n) w0
         = (set_stdin (tl rest)
              (write_stdout (payload ++ [x00]) (set_running false w0)),
            Returns PNone).
Proof.
  intros Hsub Hin Hrun Hline Hdoc Hname Hparams Hid Hn.
  split; [reflexivity |].
  destruct (success_response_encodes i
              (PDict [(lit "status", PStr (lit "shutdown"))]) _ eq_refl) as [text Ht].
  assert (Hhc : handle_command env subclass depth (set_stdin rest w0) (PStr (strip line))
                = (set_running false (set_stdin rest w0), Returns text)).
  { unfold handle_command.
    rewrite (handle_command_decoded _ _ _ _ _ _ Hdoc Hname).
    rewrite (getattr_shutdown depth _ Hsub).
    pose proof (invoke_method0 (lit "shutdown") shutdown (command_params cmd)
                  (set_stdin rest w0) Hparams) as Hcall.
    unfold method0 in *. rewrite Hcall. unfold shutdown. rewrite Hid.
    apply respond_ok, Ht. }
  destruct (receive_loop_dispatch _ n _ _ _ _ _ Hin Hrun Hline Hhc)
    as (payload & Henc & _ & Hstep).
  exists text, payload. split; [exact Ht | split; [exact Henc |]].
  unfold handle_command in *. rewrite Hstep.
  rewrite receive_loop_stopped; [| reflexivity | exact Hn].
  destruct w0; reflexivity.
Qed.

End Loop.

(** ** Frames on the output *)

Section Framing.

Context {U : Type} (env : pyenv) (subclass : world U -> pystr -> option (attribute U)).

(** C7.  The text of an encoded record has no null byte: its UTF-8
    encoding is free of it, so the frame [send_response] writes holds the
    sentinel once, at its end.  This covers every response, since what
    [handle_command] returns is the encoding of a record, and every event
    [send_event] writes. *)
Theorem frames_hold_one_sentinel :
  (forall (v : pyval) (text : pystr),
      json_dumps v = Ok text ->
      exists payload,
        str_encode text = Ok payload
        /\ ~ In x00 payload
        /\ sentinels (payload ++ [x00]) = 1%nat
        /\ forall w : world U,
            send_response w (PStr text) = (write_stdout (payload ++ [x00]) w, Returns PNone))
  /\ (forall (depth : nat) (w w' : world U) (cmd_json : pyval) (text : pystr),
         handle_command env subclass depth w cmd_json = (w', Returns text) ->
         exists fields, json_dumps (PDict fields) = Ok text)
  /\ (forall (w w' : world U) (event_type data r : pyval),
         send_event w event_type data = (w', Returns r) ->
         exists text payload,
           json_dumps (PDict [(lit "cmd", event_type);
                              (lit "status", PStr (lit "event"));
                              (lit "result", data)]) = Ok text
           /\ str_encode text = Ok payload
           /\ ~ In x00 payload
           /\ w' = write_stdout (payload ++ [x00]) w).
Proof.
  split; [| split].
  - intros v text H.
    destruct (encoded_payload v text H) as (payload & Henc & Hnul).
    exists payload. repeat split; try assumption.
    + apply one_sentinel, Hnul.
    + intros w. unfold send_response. rewrite Henc. reflexivity.
  - intros depth w w' cmd_json text H.
    eapply handle_command_returns_record, H.
  - intros w w' event_type data r H. unfold send_event in H.
    destruct (json_dumps _) as [text |] eqn:Ht; [| discriminate].
    destruct (encoded_payload _ _ Ht) as (payload & Henc & Hnul).
    exists text, payload. repeat split; try assumption.
    unfold send_response in H. rewrite Henc in H. now injection H as <- _.
Qed.

End Framing.

(** ** The running flag *)

Section Flag.

Context {U : Type} (env : pyenv).









End Flag.

(** ** The statements on sample processes *)

(** C1 as it is written fails: the handler [members] of [SetBackend]
    returns a set, and the command with id 7 is answered with id 0. *)
Lemma set_result_loses_request_id :
  let doc := qlit "{'cmd': 'members', 'id': 7}" in
  let w := new_bridge tt [] in
  exists cmd funcstr h text,
    json_loads sample_env (PStr doc) = Decoded (PDict cmd)
    /\ command_name cmd = PStr (lit "members")
    /\ command_id cmd = PInt 7
    /\ getattr_ sample_env SetBackend 0 w (lit "members") = Some (Callable funcstr h)
    /\ handle_command sample_env SetBackend 0 w (PStr doc) = (w, Returns text)
    /\ ~ carries_id text (PInt 7).
Proof.
  intros doc w.
  exists [(lit "cmd", PStr (lit "members")); (lit "id", PInt 7)].
  do 2 eexists.
  exists (qlit "{'id': 0, 'status': 'error', 'error': 'Handler error: Object of type set is not JSON serializable', 'traceback': 'Traceback (most recent call last):\\nTypeError: Object of type set is not JSON serializable'}").
  split; [vm_compute; reflexivity |].
  split; [reflexivity |].
  split; [reflexivity |].
  split; [reflexivity |].
  split; [vm_compute; reflexivity |].
  intros H. apply carries_id_prefix in H as (t & rest & Ht & Htext).
  injection Ht as <-. discriminate Htext.
Qed.

Lemma response_carries_request_id_witness :
  exists text,
    handle_command sample_env no_subclass 0 (new_bridge tt [])
      (PStr (qlit "{'cmd': 'ready', 'id': 12, 'params': {}}"))
    = (new_bridge tt [], Returns text)
    /\ carries_id text (PInt 12).
Proof.
  eapply (response_carries_request_id sample_env no_subclass 0 (new_bridge tt [])
            (new_bridge tt []) (qlit "{'cmd': 'ready', 'id': 12, 'params': {}}")
            [(lit "cmd", PStr (lit "ready")); (lit "id", PInt 12); (lit "params", PDict [])]
            (lit "ready")).
  - vm_compute; reflexivity.
  - reflexivity.
  - reflexivity.
  - reflexivity.
  - vm_compute; reflexivity.
  - simpl. eexists. reflexivity.
Defined.

Lemma undecodable_input_witness :
  exists text,
    json_dumps (PDict [(lit "id", PInt 0);
                       (lit "status", PStr (lit "error"));
                       (lit "error",
                        PStr (lit "Invalid JSON: "
                              ++ lit "Expecting value: line 1 column 1 (char 0)"))])
    = Ok text
    /\ handle_command sample_env no_subclass 0 (new_bridge tt []) (PStr (lit "not-json"))
       = (new_bridge tt [], Returns text)
    /\ carries_id text (PInt 0).
Proof.
  apply (undecodable_input_gets_id_zero sample_env no_subclass 0 (new_bridge tt [])
           (lit "not-json") (lit "Expecting value: line 1 column 1 (char 0)")).
  vm_compute; reflexivity.
Defined.

Lemma unknown_command_witness :
  exists text,
    json_dumps (PDict [(lit "id", PInt 9);
                       (lit "status", PStr (lit "error"));
                       (lit "error", PStr (lit "Unknown command: " ++ lit "nonexistent"))])
    = Ok text
    /\ handle_command sample_env no_subclass 0 (new_bridge tt [])
         (PStr (qlit "{'cmd':'nonexistent','id':9,'params':{}}"))
       = (new_bridge tt [], Returns text)
    /\ carries_id text (PInt 9).
Proof.
  apply (unknown_command_is_reported sample_env no_subclass 0 (new_bridge tt [])
           (qlit "{'cmd':'nonexistent','id':9,'params':{}}")
           [(lit "cmd", PStr (lit "nonexistent")); (lit "id", PInt 9);
            (lit "params", PDict [])]).
  - vm_compute; reflexivity.
  - reflexivity.
  - reflexivity.
  - reflexivity.
Defined.

Lemma non_object_witness :
  exists text,
    json_dumps (PDict [(lit "id", PInt 0);
                       (lit "status", PStr (lit "error"));
                       (lit "error",
                        PStr (lit "Handler error: "
                              ++ lit "'int' object has no attribute 'get'"));
                       (lit "traceback",
                        PStr (format_exc sample_env
                                (AttributeError (lit "'int' object has no attribute 'get'"))))])
    = Ok text
    /\ handle_command sample_env no_subclass 0 (new_bridge tt []) (PStr (lit "42"))
       = (new_bridge tt [], Returns text)
    /\ carries_id text (PInt 0).
Proof.
  apply (non_object_is_a_handler_error sample_env no_subclass 0 (new_bridge tt [])
           (lit "42") (PInt 42)).
  - vm_compute; reflexivity.
  - discriminate.
Defined.

Lemma unencodable_result_witness :
  exists text,
    json_dumps (PDict [(lit "id", PInt 0);
                       (lit "status", PStr (lit "error"));
                       (lit "error",
                        PStr (lit "Handler error: "
                              ++ lit "Object of type set is not JSON serializable"));
                       (lit "traceback",
                        PStr (format_exc sample_env
                                (TypeError (lit "Object of type set is not JSON serializable"))))])
    = Ok text
    /\ handle_command sample_env SetBackend 0 (new_bridge tt [])
         (PStr (qlit "{'cmd': 'members', 'id': 7}"))
       = (new_bridge tt [], Returns text)
    /\ carries_id text (PInt 0).
Proof.
  eapply (unencodable_result_loses_the_id sample_env SetBackend 0 (new_bridge tt [])
            (new_bridge tt []) (qlit "{'cmd': 'members', 'id': 7}")
            [(lit "cmd", PStr (lit "members")); (lit "id", PInt 7)]
            (lit "members") _ _ 7 (PObj (lit "set"))
            (TypeError (lit "Object of type set is not JSON serializable"))).
  - vm_compute; reflexivity.
  - reflexivity.
  - reflexivity.
  - reflexivity.
  - vm_compute; reflexivity.
  - reflexivity.
Defined.


Lemma run_announces_readiness_witness :
  exists text payload,
    str_encode text = Ok payload
    /\ run sample_env no_subclass 0 (new_bridge tt [lit "not-json"])
       = receive_loop (handle_command sample_env no_subclass 0) 1
           (write_stdout (payload ++ [x00])
              (set_running true (new_bridge tt [lit "not-json"]))).
Proof.
  destruct (run_announces_readiness sample_env no_subclass 0 (new_bridge tt [lit "not-json"]))
    as (_ & text & payload & _ & _ & Henc & _ & Hrun).
  - reflexivity.
  - exists text, payload. split; [exact Henc | exact Hrun].
Defined.

Lemma shutdown_stops_the_loop_witness :
  exists text payload,
    json_dumps (PDict [(lit "id", PInt 2);
                       (lit "status", PStr (lit "success"));
                       (lit "result", PDict [(lit "status", PStr (lit "shutdown"))])])
    = Ok text
    /\ str_encode text = Ok payload
    /\ receive_loop (handle_command sample_env no_subclass 0) 2 shutdown_then_ready
       = (set_stdin [] (write_stdout (payload ++ [x00])
                          (set_running false shutdown_then_ready)),
          Returns PNone).
Proof.
  apply (shutdown_stops_the_loop sample_env no_subclass 0 1 shutdown_then_ready
           (qlit "{'cmd': 'shutdown', 'id': 2}" ++ [10])
           [qlit "{'cmd': 'ready', 'id': 3}" ++ [10]]
           [(lit "cmd", PStr (lit "shutdown")); (lit "id", PInt 2)] 2).
  - reflexivity.
  - reflexivity.
  - reflexivity.
  - vm_compute; discriminate.
  - vm_compute; reflexivity.
  - reflexivity.
  - reflexivity.
  - reflexivity.
  - simpl; lia.
Defined.

Lemma frames_hold_one_sentinel_witness :
  exists payload,
    str_encode (qlit "{'id': 9, 'status': 'error', 'error': 'Unknown command: nonexistent'}")
    = Ok payload
    /\ ~ In x00 payload
    /\ sentinels (payload ++ [x00]) = 1%nat.
Proof.
  destruct (proj1 (frames_hold_one_sentinel sample_env no_subclass)
              (PDict [(lit "id", PInt 9);
                      (lit "status", PStr (lit "error"));
                      (lit "error", PStr (lit "Unknown command: nonexistent"))])
              (qlit "{'id': 9, 'status': 'error', 'error': 'Unknown command: nonexistent'}"))
    as (payload & Henc & Hnul & Hone & _).
  - vm_compute; reflexivity.
  - exists payload. repeat split; assumption.
Defined.



(** * Further properties *)

(** ** What the decoder gives can be encoded *)

Lemma jsonable_encodes (v : pyval) : jsonable v = true -> exists text, json_dumps v = Ok text.
Proof.
  induction v as [| [|] | z | f | s | l IH | kv IH | t] using pyval_nested_ind;
    cbn [jsonable]; intros H; try (eexists; reflexivity); try discriminate.
  - cbn [json_dumps].
    assert (Hitems : exists parts,
               (fix items (l : list pyval) : res (list pystr) :=
                  match l with
                  | [] => Ok []
                  | x :: rest => do t <- json_dumps x; do ts <- items rest; Ok (t :: ts)
                  end) l = Ok parts).
    { induction IH as [| x rest Hx _ IHrest]; [eexists; reflexivity |].
      cbn [forallb] in H. apply andb_true_iff in H as [H1 H2].
      destruct (Hx H1) as [t Ht]. destruct (IHrest H2) as [ts Hts].
      rewrite Ht, Hts. eexists. reflexivity. }
    destruct Hitems as [parts ->]. eexists. reflexivity.
  - cbn [json_dumps].
    assert (Hitems : exists parts,
               (fix items (kv : list (pystr * pyval)) : res (list pystr) :=
                  match kv with
                  | [] => Ok []
                  | (k, x) :: rest =>
                      do t <- json_dumps x; do ts <- items rest;
                      Ok ((encode_basestring_ascii k ++ lit ": " ++ t) :: ts)
                  end) kv = Ok parts).
    { induction IH as [| [k x] rest Hx _ IHrest]; [eexists; reflexivity |].
      cbn [forallb snd] in H, Hx. apply andb_true_iff in H as [H1 H2].
      destruct (Hx H1) as [t Ht]. destruct (IHrest H2) as [ts Hts].
      rewrite Ht, Hts. eexists. reflexivity. }
    destruct Hitems as [parts ->]. eexists. reflexivity.
Qed.

Lemma dict_set_jsonable (kv : list (pystr * pyval)) (key : pystr) (v : pyval) :
  jsonable (PDict kv) = true -> jsonable v = true ->
  jsonable (PDict (dict_set kv key v)) = true.
Proof.
  cbn [jsonable]. intros Hkv Hv.
  induction kv as [| [k x] rest IH]; cbn [dict_set forallb snd] in *.
  - now rewrite Hv.
  - apply andb_true_iff in Hkv as [H1 H2].
    destruct (str_eqb k key); cbn [forallb snd]; apply andb_true_iff; auto.
Qed.

Lemma dict_get_jsonable (kv : list (pystr * pyval)) (key : pystr) (v : pyval) :
  jsonable (PDict kv) = true -> dict_get kv key = Some v -> jsonable v = true.
Proof.
  cbn [jsonable]. induction kv as [| [k x] rest IH]; cbn [dict_get forallb snd];
    [discriminate |].
  intros H Hget. apply andb_true_iff in H as [H1 H2].
  destruct (str_eqb k key); [injection Hget as <-; exact H1 | auto].
Qed.

Lemma number_value_jsonable env neg ip frac exp :
  jsonable (number_value env neg ip frac exp) = true.
Proof. unfold number_value. destruct frac, exp as [[en e] |]; reflexivity. Qed.

Lemma match_number_jsonable (env : pyenv) (s rest : pystr) (pos p : N) (v : pyval) :
  match_number env s pos = Some (v, rest, p) -> jsonable v = true.
Proof.
  unfold match_number. destruct (number_sign s) as [neg s1].
  destruct (number_integer s1) as [[ip s2] |]; [| discriminate].
  destruct (number_fraction s2) as [frac s3]. destruct (number_exponent s3) as [exp s4].
  intros H. injection H as <- _ _. apply number_value_jsonable.
Qed.

Lemma finds_bad (msg : pystr) (pos : N) : finds_jsonable (Bad msg pos).
Proof. intros v rest p H. discriminate H. Qed.

Lemma finds_deep : finds_jsonable Deep.
Proof. intros v rest p H. discriminate H. Qed.

Lemma finds_found (v : pyval) (rest : pystr) (p : N) :
  jsonable v = true -> finds_jsonable (Found v rest p).
Proof. intros Hv v' rest' p' H. injection H as <- _ _. exact Hv. Qed.

Ltac finds_step :=
  match goal with
  | |- finds_jsonable (Bad _ _) => apply finds_bad
  | |- finds_jsonable Deep => apply finds_deep
  | |- finds_jsonable (let (_, _) := skip_ws ?a ?b in _) => destruct (skip_ws a b) as [? ?]
  | |- finds_jsonable (match ?x with [] => _ | _ :: _ => _ end) => destruct x
  | |- finds_jsonable (if ?b then _ else _) => destruct b
  | |- finds_jsonable (match strip_prefix ?a ?b with _ => _ end) =>
      destruct (strip_prefix a b)
  | |- finds_jsonable (match scanstring ?a ?b ?c ?d with _ => _ end) =>
      destruct (scanstring a b c d)
  end.

Lemma rev_jsonable (l : list pyval) :
  forallb jsonable l = true -> forallb jsonable (List.rev l) = true.
Proof.
  rewrite !forallb_forall. intros H x Hx. apply H. now apply in_rev.
Qed.

Lemma scan_jsonable (env : pyenv) (fuel : nat) :
  (forall s pos, finds_jsonable (scan_once env fuel s pos))
  /\ (forall s pos acc, jsonable (PDict acc) = true ->
                        finds_jsonable (object_items env fuel s pos acc))
  /\ (forall s pos acc, forallb jsonable acc = true ->
                        finds_jsonable (array_items env fuel s pos acc)).
Proof.
  induction fuel as [| fuel (IHscan & IHobject & IHarray)].
  - repeat split; intros; apply finds_deep.
  - split; [| split].
    + intros s pos. cbn [scan_once].
      destruct s as [| c r]; [apply finds_bad |].
      destruct (c =? 34); [repeat finds_step; now apply finds_found |].
      destruct (c =? 123);
        [repeat finds_step; try (now apply finds_found); now apply IHobject |].
      destruct (c =? 91);
        [repeat finds_step; try (now apply finds_found); now apply IHarray |].
      cbv zeta.
      assert (Hnumber : finds_jsonable match match_number env (c :: r) pos with
                                       | Some (v, rest, p) => Found v rest p
                                       | None => Bad (lit "Expecting value") pos
                                       end).
      { destruct (match_number env (c :: r) pos) as [[[v rest] p] |] eqn:E;
          [| apply finds_bad].
        apply finds_found. eapply match_number_jsonable, E. }
      repeat finds_step; try exact Hnumber; now apply finds_found.
    + intros s pos acc Hacc. cbn [object_items].
      destruct s as [| q r]; [apply finds_bad |].
      destruct (q =? 34); [| apply finds_bad].
      destruct (scanstring r (pos + 1) pos []) as [key s1 p1 | m p |];
        [| apply finds_bad | apply finds_deep].
      destruct (skip_ws s1 p1) as [s2 p2].
      destruct s2 as [| colon r2]; [apply finds_bad |].
      destruct (colon =? 58); [| apply finds_bad].
      destruct (skip_ws r2 (p2 + 1)) as [s3 p3].
      pose proof (IHscan s3 p3) as Hvalue.
      destruct (scan_once env fuel s3 p3) as [v s4 p4 | m p' |];
        [| apply finds_bad | apply finds_deep].
      specialize (Hvalue v s4 p4 eq_refl).
      pose proof (dict_set_jsonable acc key v Hacc Hvalue) as Hacc'.
      repeat finds_step; try (now apply finds_found). now apply IHobject.
    + intros s pos acc Hacc. cbn [array_items].
      pose proof (IHscan s pos) as Hvalue.
      destruct (scan_once env fuel s pos) as [v s1 p1 | m p' |];
        [| apply finds_bad | apply finds_deep].
      specialize (Hvalue v s1 p1 eq_refl).
      assert (Hacc' : forallb jsonable (v :: acc) = true)
        by (cbn [forallb]; now rewrite Hvalue).
      repeat finds_step.
      * apply finds_found. cbn [jsonable]. now apply rev_jsonable.
      * now apply IHarray.
Qed.

(** Every value [json.loads] gives can be encoded again. *)
Lemma decoded_is_jsonable (env : pyenv) (arg v : pyval) :
  json_loads env arg = Decoded v -> jsonable v = true.
Proof.
  destruct arg; try discriminate. cbn [json_loads]. unfold decode.
  destruct (starts_with_bom s); [discriminate |].
  destruct (skip_ws s 0) as [s0 p0].
  pose proof (proj1 (scan_jsonable env (S (S (2 * List.length s)))) s0 p0) as H.
  destruct (scan_once env _ s0 p0) as [v' s1 p1 | m p' |]; try discriminate.
  destruct (skip_ws s1 p1) as [[| x s2] p2]; [| discriminate].
  intros E. injection E as <-. eapply H. reflexivity.
Qed.

(** ** Commands with any JSON id *)

Section AnyId.

Context {U : Type} (env : pyenv) (subclass : world U -> pystr -> option (attribute U)).

Lemma command_id_encodes (doc : pystr) (cmd : list (pystr * pyval)) :
  json_loads env (PStr doc) = Decoded (PDict cmd) ->
  exists t, json_dumps (command_id cmd) = Ok t.
Proof.
  intros Hdoc. apply jsonable_encodes.
  apply decoded_is_jsonable in Hdoc.
  unfold command_id, get_default.
  destruct (dict_get cmd (lit "id")) as [v |] eqn:E; [| reflexivity].
  eapply dict_get_jsonable; eassumption.
Qed.

Lemma command_params_jsonable (doc : pystr) (cmd : list (pystr * pyval)) :
  json_loads env (PStr doc) = Decoded (PDict cmd) ->
  jsonable (command_params cmd) = true.
Proof.
  intros Hdoc. apply decoded_is_jsonable in Hdoc.
  unfold command_params, get_default.
  destruct (dict_get cmd (lit "params")) as [v |] eqn:E; [| reflexivity].
  eapply dict_get_jsonable; eassumption.
Qed.

Lemma error_response_encodes_any (rid : pyval) (t msg : pystr) :
  json_dumps rid = Ok t -> exists text, json_dumps (error_response rid msg) = Ok text.
Proof.
  intros H. unfold error_response. cbn [json_dumps bind]. rewrite H.
  eexists. reflexivity.
Qed.

Lemma failure_response_encodes_any (rid : pyval) (t : pystr) (e : exn) :
  json_dumps rid = Ok t -> exists text, json_dumps (failure_response env rid e) = Ok text.
Proof.
  intros H. unfold failure_response. cbn [json_dumps bind]. rewrite H.
  eexists. reflexivity.
Qed.

Lemma success_response_encodes_any (rid result : pyval) (t t' : pystr) :
  json_dumps rid = Ok t -> json_dumps result = Ok t' ->
  exists text, json_dumps (success_response rid result) = Ok text.
Proof.
  intros H H'. unfold success_response. cbn [json_dumps bind]. rewrite H, H'.
  eexists. reflexivity.
Qed.

(** X1.  The id of a command is echoed whatever JSON value it is (a
    string, [null], a list, a float): a command that resolves to a callable
    whose call returns an encodable value or raises an [Exception] gets a
    response whose first field is the id as [json.loads] has read it,
    written by [json.dumps] (a float by its [repr]: the id [1.50] comes
    back as [1.5]). *)
Theorem any_json_id_is_echoed (depth : nat) (w w1 : world U) (doc : pystr)
  (cmd : list (pystr * pyval)) (name funcstr : pystr) (h : handler U)
  (o : outcome pyval) :
  json_loads env (PStr doc) = Decoded (PDict cmd) ->
  command_name cmd = PStr name ->
  getattr_ env subclass depth w name = Some (Callable funcstr h) ->
  invoke funcstr h (command_params cmd) w = (w1, o) ->
  answerable o ->
  exists text,
    handle_command env subclass depth w (PStr doc) = (w1, Returns text)
    /\ carries_id text (command_id cmd).
Proof.
  intros Hdoc Hname Hattr Hcall Ho.
  destruct (command_id_encodes doc cmd Hdoc) as [t Hid].
  unfold handle_command.
  rewrite (handle_command_decoded _ _ _ _ _ _ Hdoc Hname), Hattr, Hcall.
  destruct o as [result | e | e]; simpl in Ho.
  - destruct Ho as [t' Ht'].
    destruct (success_response_encodes_any _ _ _ _ Hid Ht') as [text Htext].
    exists text. split; [apply respond_ok, Htext | eexists; exact Htext].
  - destruct (failure_response_encodes_any _ _ e Hid) as [text Htext].
    exists text. split; [apply respond_ok, Htext | eexists; exact Htext].
  - contradiction.
Qed.

(** X2.  A command that names an attribute that is not callable (a data
    attribute such as [state] or [_running]) is answered with
    ["Command is not callable: "] and the name, under the id of the
    command; nothing is called and the process is left as it is. *)
Theorem data_attribute_is_not_callable (depth : nat) (w : world U) (doc : pystr)
  (cmd : list (pystr * pyval)) (name : pystr) (v : pyval) :
  json_loads env (PStr doc) = Decoded (PDict cmd) ->
  command_name cmd = PStr name ->
  getattr_ env subclass depth w name = Some (Data v) ->
  v <> PNone ->
  exists text,
    json_dumps (PDict [(lit "id", command_id cmd);
                       (lit "status", PStr (lit "error"));
                       (lit "error", PStr (lit "Command is not callable: " ++ name))])
    = Ok text
    /\ handle_command env subclass depth w (PStr doc) = (w, Returns text).
Proof.
  intros Hdoc Hname Hattr Hv.
  destruct (command_id_encodes doc cmd Hdoc) as [t Hid].
  destruct (error_response_encodes_any _ _ (lit "Command is not callable: " ++ name) Hid)
    as [text Htext].
  exists text. split; [exact Htext |].
  unfold handle_command.
  rewrite (handle_command_decoded _ _ _ _ _ _ Hdoc Hname), Hattr.
  destruct v; try (apply respond_ok, Htext). congruence.
Qed.

(** X3.  An attribute whose value is [None] is taken for a missing one:
    the command is answered with ["Unknown command: "] and the name. *)
Theorem none_attribute_is_unknown (depth : nat) (w : world U) (doc : pystr)
  (cmd : list (pystr * pyval)) (name : pystr) :
  json_loads env (PStr doc) = Decoded (PDict cmd) ->
  command_name cmd = PStr name ->
  getattr_ env subclass depth w name = Some (Data PNone) ->
  exists text,
    json_dumps (PDict [(lit "id", command_id cmd);
                       (lit "status", PStr (lit "error"));
                       (lit "error", PStr (lit "Unknown command: " ++ name))])
    = Ok text
    /\ handle_command env subclass depth w (PStr doc) = (w, Returns text).
Proof.
  intros Hdoc Hname Hattr.
  destruct (command_id_encodes doc cmd Hdoc) as [t Hid].
  destruct (error_response_encodes_any _ _ (lit "Unknown command: " ++ name) Hid)
    as [text Htext].
  exists text. split; [exact Htext |].
  unfold handle_command.
  rewrite (handle_command_decoded _ _ _ _ _ _ Hdoc Hname), Hattr.
  apply respond_ok, Htext.
Qed.

Lemma getattr_empty_name (depth : nat) (w : world U) :
  getattr_ env subclass depth w [] = subclass w [].
Proof. destruct depth; cbn [getattr_ str_eqb]; destruct (subclass w []); reflexivity. Qed.

(** X4.  The fields of a command have defaults: an object without [cmd]
    and without [id] is read as the command with the empty name and id 0,
    and — no attribute has the empty name — answered with
    ["Unknown command: "] under id 0. *)
Theorem missing_fields_have_defaults (depth : nat) (w : world U) (doc : pystr)
  (cmd : list (pystr * pyval)) :
  json_loads env (PStr doc) = Decoded (PDict cmd) ->
  dict_get cmd (lit "cmd") = None ->
  dict_get cmd (lit "id") = None ->
  subclass w [] = None ->
  handle_command env subclass depth w (PStr doc)
  = (w, Returns (qlit "{'id': 0, 'status': 'error', 'error': 'Unknown command: '}")).
Proof.
  intros Hdoc Hcmd Hid Hsub.
  assert (Hname : command_name cmd = PStr [])
    by (unfold command_name, get_default; now rewrite Hcmd).
  unfold handle_command.
  rewrite (handle_command_decoded _ _ _ _ _ _ Hdoc Hname), getattr_empty_name, Hsub.
  unfold command_id, get_default. rewrite Hid. reflexivity.
Qed.

(** X5.  When [params] is true but not an object (a non-empty list or
    string, an integer other than 0, [true]), the call fails before the
    handler is entered: the response is an error under the id of the
    command, with the [TypeError] of the call, and the process is left as
    it is. *)
Theorem non_mapping_params_are_rejected (depth : nat) (w : world U) (doc : pystr)
  (cmd : list (pystr * pyval)) (name funcstr : pystr) (h : handler U) :
  json_loads env (PStr doc) = Decoded (PDict cmd) ->
  command_name cmd = PStr name ->
  getattr_ env subclass depth w name = Some (Callable funcstr h) ->
  truthy (command_params cmd) = true ->
  (forall kv, command_params cmd <> PDict kv) ->
  (forall f, command_params cmd <> PFloat f) ->
  exists e text,
    exn_class e = lit "TypeError"
    /\ json_dumps (PDict [(lit "id", command_id cmd);
                          (lit "status", PStr (lit "error"));
                          (lit "error", PStr (exn_msg e));
                          (lit "traceback", PStr (format_exc env e))]) = Ok text
    /\ handle_command env subclass depth w (PStr doc) = (w, Returns text).
Proof.
  intros Hdoc Hname Hattr Htrue Hdict _.
  set (e := TypeError (funcstr ++ lit "() argument after ** must be a mapping, not "
                       ++ type_name (command_params cmd))).
  destruct (command_id_encodes doc cmd Hdoc) as [t Hid].
  destruct (failure_response_encodes_any _ _ e Hid) as [text Htext].
  exists e, text. split; [reflexivity | split; [exact Htext |]].
  unfold handle_command.
  rewrite (handle_command_decoded _ _ _ _ _ _ Hdoc Hname), Hattr.
  unfold invoke. rewrite Htrue.
  destruct (command_params cmd) eqn:E; try (apply respond_ok, Htext).
  now elim (Hdict kv).
Qed.

End AnyId.

(** ** Arguments, blank lines, exits *)

Lemma check_keywords_rejects (qualname k : pystr) (v : pyval) (kw : list (pystr * pyval)) :
  check_keywords qualname [] ((k, v) :: kw)
  = Err (TypeError (qualname ++
                    if str_eqb k (lit "self")
                    then lit "() got multiple values for argument 'self'"
                    else lit "() got an unexpected keyword argument " ++ quoted k)).
Proof. cbn [check_keywords mem_str existsb]. destruct (str_eqb k (lit "self")); reflexivity. Qed.

Lemma lstrip_spaces (s : pystr) : forallb is_space s = true -> lstrip s = [].
Proof.
  induction s as [| c r IH]; cbn [forallb lstrip]; [reflexivity |].
  intros H. apply andb_true_iff in H as [-> Hr]. exact (IH Hr).
Qed.

Lemma strip_spaces (s : pystr) : forallb is_space s = true -> strip s = [].
Proof. intros H. unfold strip. rewrite (lstrip_spaces s H). reflexivity. Qed.

Section Edges.

Context {U : Type} (env : pyenv) (subclass : world U -> pystr -> option (attribute U)).

(** X6.  The built-in [shutdown] takes no argument: called with a
    non-empty [params] object it raises the [TypeError] of the call, the
    flag stays as it is, and the command is answered with an error under
    its id. *)
Theorem shutdown_with_arguments_does_not_stop (depth : nat) (w : world U) (doc : pystr)
  (cmd kv : list (pystr * pyval)) (k : pystr) (v : pyval) :
  subclass w (lit "shutdown") = None ->
  json_loads env (PStr doc) = Decoded (PDict cmd) ->
  command_name cmd = PStr (lit "shutdown") ->
  command_params cmd = PDict ((k, v) :: kv) ->
  exists e text,
    exn_class e = lit "TypeError"
    /\ json_dumps (PDict [(lit "id", command_id cmd);
                          (lit "status", PStr (lit "error"));
                          (lit "error", PStr (exn_msg e));
                          (lit "traceback", PStr (format_exc env e))]) = Ok text
    /\ handle_command env subclass depth w (PStr doc) = (w, Returns text).
Proof.
  intros Hsub Hdoc Hname Hparams.
  set (e := TypeError (lit "PythonBridge.shutdown" ++
                       if str_eqb k (lit "self")
                       then lit "() got multiple values for argument 'self'"
                       else lit "() got an unexpected keyword argument " ++ quoted k)).
  destruct (command_id_encodes env doc cmd Hdoc) as [t Hid].
  destruct (failure_response_encodes_any env _ _ e Hid) as [text Htext].
  exists e, text. split; [reflexivity | split; [exact Htext |]].
  unfold handle_command.
  rewrite (handle_command_decoded _ _ _ _ _ _ Hdoc Hname).
  rewrite (getattr_shutdown env subclass depth w Hsub).
  unfold method0, invoke. rewrite Hparams. cbn [truthy].
  unfold bind_kwargs. rewrite check_keywords_rejects. cbn [bind].
  apply respond_ok, Htext.
Qed.

(** X7.  A line of white space only is skipped: it is not given to
    [handle_command], nothing is written, and the loop goes on with the
    next line. *)
Theorem blank_line_is_skipped (hc : world U -> pyval -> world U * outcome pystr)
  (n : nat) (w : world U) (line : pystr) (rest : list pystr) :
  stdin w = line :: rest ->
  _running w = true ->
  forallb is_space line = true ->
  receive_loop hc (S n) w = receive_loop hc n (set_stdin rest w).
Proof.
  intros Hin Hrun Hblank. cbn [receive_loop]. rewrite Hin.
  change (_running (set_stdin rest w)) with (_running w). rewrite Hrun.
  cbn [negb]. rewrite (strip_spaces line Hblank). reflexivity.
Qed.

(** X8.  An exception that is not derived from [Exception] ([SystemExit],
    [KeyboardInterrupt]) is not answered: it leaves [handle_command], and
    the loop ends with it without writing a response for the line. *)
Theorem exit_leaves_the_loop (depth n : nat) (w0 w1 : world U) (line : pystr)
  (rest : list pystr) (cmd : list (pystr * pyval)) (name funcstr : pystr)
  (h : handler U) (e : exn) :
  stdin w0 = line :: rest ->
  _running w0 = true ->
  strip line <> [] ->
  json_loads env (PStr (strip line)) = Decoded (PDict cmd) ->
  command_name cmd = PStr name ->
  getattr_ env subclass depth (set_stdin rest w0) name = Some (Callable funcstr h) ->
  invoke funcstr h (command_params cmd) (set_stdin rest w0) = (w1, Exits e) ->
  handle_command env subclass depth (set_stdin rest w0) (PStr (strip line)) = (w1, Exits e)
  /\ receive_loop (handle_command env subclass depth) (S n) w0 = (w1, Exits e).
Proof.
  intros Hin Hrun Hline Hdoc Hname Hattr Hcall.
  assert (Hhc : handle_command env subclass depth (set_stdin rest w0) (PStr (strip line))
                = (w1, Exits e)).
  { unfold handle_command.
    rewrite (handle_command_decoded _ _ _ _ _ _ Hdoc Hname), Hattr, Hcall.
    reflexivity. }
  split; [exact Hhc |].
  cbn [receive_loop]. rewrite Hin.
  change (_running (set_stdin rest w0)) with (_running w0). rewrite Hrun.
  cbn [negb]. destruct (strip line) as [| c s] eqn:Hs; [congruence |].
  rewrite Hhc. reflexivity.
Qed.

End Edges.

(** ** The null byte in encoded text *)

Lemma byte_of_positive (n : N) : 0 < n <= 255 -> byte_of n <> x00.
Proof.
  unfold byte_of. intros Hn.
  destruct (Byte.of_N n) as [b |] eqn:E.
  - intros ->. apply Byte.to_of_N in E. simpl in E. lia.
  - pose proof (Byte.to_of_N_option_map n) as M. rewrite E in M. simpl in M.
    destruct (n <=? 255) eqn:L; [discriminate |].
    apply N.leb_gt in L. lia.
Qed.

Lemma utf8_char_null (c : N) : code_point c -> (In x00 (utf8_char c) <-> c = 0).
Proof.
  unfold code_point, utf8_char. intros Hc.
  destruct (c <? 128) eqn:E1; [apply N.ltb_lt in E1 | apply N.ltb_ge in E1].
  { split.
    - intros [H | []]. destruct (N.eq_dec c 0) as [-> | Hz]; [reflexivity |].
      exfalso. revert H. apply byte_of_positive. lia.
    - intros ->. left. reflexivity. }
  assert (Hno : forall bs, Forall (fun n => 0 < n <= 255) bs ->
                           In x00 (map byte_of bs) -> c = 0).
  { intros bs Hbs Hin. apply in_map_iff in Hin as (n & Hn & Hin).
    rewrite Forall_forall in Hbs. now elim (byte_of_positive n (Hbs n Hin)). }
  assert (Htail : forall r, r < 64 -> 0 < 128 + r <= 255) by (intros; lia).
  assert (H1 : c mod 64 < 64) by (apply N.mod_lt; discriminate).
  assert (H2 : (c / 64) mod 64 < 64) by (apply N.mod_lt; discriminate).
  assert (H3 : (c / 4096) mod 64 < 64) by (apply N.mod_lt; discriminate).
  split; [| intros ->; exfalso; lia].
  destruct (c <? 2048) eqn:E2; [apply N.ltb_lt in E2 | apply N.ltb_ge in E2].
  { apply (Hno [192 + c / 64; 128 + c mod 64]).
    assert (Hq : c / 64 < 32) by (apply N.Div0.div_lt_upper_bound; exact E2).
    repeat (apply Forall_cons; [cbv beta; auto |]); [| apply Forall_nil].
    revert Hq. generalize (c / 64). intros q Hq. lia. }
  destruct (c <? 65536) eqn:E3; [apply N.ltb_lt in E3 | apply N.ltb_ge in E3].
  { apply (Hno [224 + c / 4096; 128 + (c / 64) mod 64; 128 + c mod 64]).
    assert (Hq : c / 4096 < 16) by (apply N.Div0.div_lt_upper_bound; exact E3).
    repeat (apply Forall_cons; [cbv beta; auto |]); [| apply Forall_nil].
    revert Hq. generalize (c / 4096). intros q Hq. lia. }
  apply (Hno [240 + c / 262144; 128 + (c / 4096) mod 64; 128 + (c / 64) mod 64;
              128 + c mod 64]).
  assert (Hq : c / 262144 < 5)
    by (apply N.Div0.div_lt_upper_bound; apply N.le_lt_trans with (1 := Hc); reflexivity).
  repeat (apply Forall_cons; [cbv beta; auto |]); [| apply Forall_nil].
  revert Hq. generalize (c / 262144). intros q Hq. lia.
Qed.

Lemma str_encode_from_null (s : pystr) :
  Forall code_point s ->
  forall pos bs, str_encode_from s pos = Ok bs -> (In x00 bs <-> In 0 s).
Proof.
  induction 1 as [| c r Hc _ IH]; intros pos bs; cbn [str_encode_from].
  - intros H. injection H as <-. tauto.
  - destruct (is_surrogate c); [discriminate |].
    destruct (str_encode_from r (pos + 1)) as [bs' |] eqn:E; [| discriminate].
    cbn [bind]. intros H. injection H as <-.
    rewrite in_app_iff, (IH _ _ E), (utf8_char_null c Hc). cbn [In].
    split; intros [H | H]; auto.
Qed.

(** X10.  The encoded text of a [str] holds a null byte exactly when the
    [str] holds the character U+0000: a frame of [send_response] is cut
    short by its own payload in that case only. *)
Theorem payload_null_byte_is_a_nul_character {U : Type} (w w' : world U)
  (text : pystr) (r : pyval) :
  Forall code_point text ->
  send_response w (PStr text) = (w', Returns r) ->
  exists payload,
    str_encode text = Ok payload
    /\ stdout w' = stdout w ++ payload ++ [x00]
    /\ (In x00 payload <-> In 0 text).
Proof.
  intros Htext H. unfold send_response in H.
  destruct (str_encode text) as [payload |] eqn:E; [| discriminate].
  injection H as <- _. exists payload. repeat split.
  - apply (str_encode_from_null text Htext 0 payload E).
  - apply (str_encode_from_null text Htext 0 payload E).
Qed.

(** ** Events, the constructor as a command, the end of the input *)

Section Lifecycle.

Context {U : Type} (env : pyenv) (subclass : world U -> pystr -> option (attribute U)).

Lemma getattr_send_event (depth : nat) (w : world U) :
  subclass w (lit "send_event") = None ->
  getattr_ env subclass depth w (lit "send_event")
  = Some (method2 env (lit "send_event") (lit "event_type") (lit "data") send_event).
Proof.
  intros H. destruct depth; cbn [getattr_];
    change (str_eqb (lit "send_event") (lit "state")) with false;
    change (str_eqb (lit "send_event") (lit "_running")) with false;
    cbv iota; rewrite H; reflexivity.
Qed.

Lemma getattr_init (depth : nat) (w : world U) :
  subclass w (lit "__init__") = None ->
  getattr_ env subclass depth w (lit "__init__")
  = Some (method0 env (lit "__init__") (fun w => (__init__ w, Returns PNone))).
Proof.
  intros H. destruct depth; cbn [getattr_];
    change (str_eqb (lit "__init__") (lit "state")) with false;
    change (str_eqb (lit "__init__") (lit "_running")) with false;
    cbv iota; rewrite H; reflexivity.
Qed.

Lemma bound_argument_jsonable (qualname : pystr) (names : list pystr)
  (kw : list (pystr * pyval)) (arg : pystr -> pyval) (n : pystr) :
  jsonable (PDict kw) = true ->
  bind_kwargs qualname names kw = Ok arg ->
  jsonable (arg n) = true.
Proof.
  intros Hkw. unfold bind_kwargs.
  destruct (check_keywords qualname names kw); [| discriminate]. cbn [bind].
  destruct (filter _ names); [| discriminate].
  intros H. injection H as <-.
  destruct (dict_get kw n) as [v |] eqn:E; [| reflexivity].
  eapply dict_get_jsonable; eassumption.
Qed.

Lemma bound_keywords_nonempty (qualname n : pystr) (names : list pystr)
  (arg : pystr -> pyval) :
  bind_kwargs qualname (n :: names) [] <> Ok arg.
Proof. unfold bind_kwargs. cbn. discriminate. Qed.

(** X11.  An event goes out before the response to the command that
    caused it: for a line that names the built-in [send_event] with its
    two arguments, the loop writes the frame of the event
    [{"cmd": event_type, "status": "event", "result": data}], then the
    frame of the response, whose result is [null]. *)
Theorem event_precedes_its_response (depth n : nat) (w0 : world U) (line : pystr)
  (rest : list pystr) (cmd kv : list (pystr * pyval)) (arg : pystr -> pyval) :
  subclass (set_stdin rest w0) (lit "send_event") = None ->
  stdin w0 = line :: rest ->
  _running w0 = true ->
  strip line <> [] ->
  json_loads env (PStr (strip line)) = Decoded (PDict cmd) ->
  command_name cmd = PStr (lit "send_event") ->
  command_params cmd = PDict kv ->
  bind_kwargs (lit "PythonBridge.send_event") [lit "event_type"; lit "data"] kv = Ok arg ->
  exists event response event_payload response_payload,
    json_dumps (PDict [(lit "cmd", arg (lit "event_type"));
                       (lit "status", PStr (lit "event"));
                       (lit "result", arg (lit "data"))]) = Ok event
    /\ json_dumps (PDict [(lit "id", command_id cmd);
                          (lit "status", PStr (lit "success"));
                          (lit "result", PNone)]) = Ok response
    /\ str_encode event = Ok event_payload
    /\ str_encode response = Ok response_payload
    /\ receive_loop (handle_command env subclass depth) (S n) w0
       = receive_loop (handle_command env subclass depth) n
           (write_stdout (response_payload ++ [x00])
              (write_stdout (event_payload ++ [x00]) (set_stdin rest w0))).
Proof.
  intros Hsub Hin Hrun Hline Hdoc Hname Hparams Hbind.
  pose proof (command_params_jsonable _ _ _ Hdoc) as Hkv. rewrite Hparams in Hkv.
  destruct (jsonable_encodes (PDict [(lit "cmd", arg (lit "event_type"));
                                     (lit "status", PStr (lit "event"));
                                     (lit "result", arg (lit "data"))])) as [event Hevent].
  { cbn [jsonable forallb snd].
    rewrite (bound_argument_jsonable _ _ _ _ (lit "event_type") Hkv Hbind).
    rewrite (bound_argument_jsonable _ _ _ _ (lit "data") Hkv Hbind). reflexivity. }
  destruct (command_id_encodes _ _ _ Hdoc) as [t Hid].
  destruct (success_response_encodes_any (command_id cmd) PNone _ _ Hid eq_refl)
    as [response Hresponse].
  destruct (encoded_payload _ _ Hevent) as (pe & Hpe & _).
  assert (Hhc : handle_command env subclass depth (set_stdin rest w0) (PStr (strip line))
                = (write_stdout (pe ++ [x00]) (set_stdin rest w0), Returns response)).
  { unfold handle_command.
    rewrite (handle_command_decoded _ _ _ _ _ _ Hdoc Hname).
    rewrite (getattr_send_event depth _ Hsub).
    unfold method2, invoke. rewrite Hparams.
    destruct kv as [| item kv']; [now elim (bound_keywords_nonempty _ _ _ _ Hbind) |].
    cbn [truthy].
    change (lit "PythonBridge." ++ lit "send_event") with (lit "PythonBridge.send_event").
    rewrite Hbind. unfold send_event. rewrite Hevent.
    unfold send_response. rewrite Hpe. apply respond_ok, Hresponse. }
  destruct (receive_loop_dispatch env _ n _ _ _ _ _ Hin Hrun Hline Hhc)
    as (pr & Hpr & _ & Hstep).
  exists event, response, pe, pr. repeat split; assumption.
Qed.

(** X12.  [__init__] is an attribute like the others: a command that
    names it runs the constructor again, which empties [state] and clears
    the flag; the command is answered with result [null] and the loop ends
    at its next turn, as after [shutdown]. *)
Theorem init_command_stops_the_loop (depth n : nat) (w0 : world U) (line : pystr)
  (rest : list pystr) (cmd : list (pystr * pyval)) :
  subclass (set_stdin rest w0) (lit "__init__") = None ->
  stdin w0 = line :: rest ->
  _running w0 = true ->
  strip line <> [] ->
  json_loads env (PStr (strip line)) = Decoded (PDict cmd) ->
  command_name cmd = PStr (lit "__init__") ->
  truthy (command_params cmd) = false ->
  (List.length rest <= n)%nat ->
  exists text payload,
    json_dumps (PDict [(lit "id", command_id cmd);
                       (lit "status", PStr (lit "success"));
                       (lit "result", PNone)]) = Ok text
    /\ str_encode text = Ok payload
    /\ receive_loop (handle_command env subclass depth) (S n) w0
       = (set_stdin (tl rest)
            (write_stdout (payload ++ [x00])
               (set_running false (set_state (PDict []) w0))),
          Returns PNone).
Proof.
  intros Hsub Hin Hrun Hline Hdoc Hname Hparams Hn.
  destruct (command_id_encodes _ _ _ Hdoc) as [t Hid].
  destruct (success_response_encodes_any (command_id cmd) PNone _ _ Hid eq_refl)
    as [text Ht].
  assert (Hhc : handle_command env subclass depth (set_stdin rest w0) (PStr (strip line))
                = (__init__ (set_stdin rest w0), Returns text)).
  { unfold handle_command.
    rewrite (handle_command_decoded _ _ _ _ _ _ Hdoc Hname).
    rewrite (getattr_init depth _ Hsub).
    pose proof (invoke_method0 env (lit "__init__") (fun w => (__init__ w, Returns PNone))
                  (command_params cmd) (set_stdin rest w0) Hparams) as Hcall.
    unfold method0 in *. rewrite Hcall.
    apply respond_ok, Ht. }
  destruct (receive_loop_dispatch env _ n _ _ _ _ _ Hin Hrun Hline Hhc)
    as (payload & Henc & _ & Hstep).
  exists text, payload. split; [exact Ht | split; [exact Henc |]].
  unfold handle_command in *. rewrite Hstep.
  rewrite receive_loop_stopped; [| reflexivity | exact Hn].
  destruct w0; reflexivity.
Qed.

(** The handshake of [run] with the built-in [ready]. *)
Lemma run_handshake (depth : nat) (w : world U) :
  subclass (set_running true w) (lit "ready") = None ->
  exists text payload,
    json_dumps (PDict [(lit "id", PInt 0);
                       (lit "status", PStr (lit "success"));
                       (lit "result",
                        PDict [(lit "status", PStr (lit "ready"));
                               (lit "python_version", PStr (sys_version env))])])
    = Ok text
    /\ str_encode text = Ok payload
    /\ run env subclass depth w
       = receive_loop (handle_command env subclass depth) (List.length (stdin w))
           (write_stdout (payload ++ [x00]) (set_running true w)).
Proof.
  intros Hsub.
  set (w1 := set_running true w) in *.
  assert (Hdoc : json_loads env (PStr (qlit "{'cmd': 'ready', 'id': 0}"))
                 = Decoded (PDict [(lit "cmd", PStr (lit "ready")); (lit "id", PInt 0)]))
    by (vm_compute; reflexivity).
  destruct (success_response_encodes 0
              (PDict [(lit "status", PStr (lit "ready"));
                      (lit "python_version", PStr (sys_version env))]) _ eq_refl)
    as [text Ht].
  assert (Hhc : handle_command env subclass depth w1 (PStr (qlit "{'cmd': 'ready', 'id': 0}"))
                = (w1, Returns text)).
  { unfold handle_command.
    rewrite (handle_command_decoded _ _ _ _ _ (lit "ready") Hdoc eq_refl).
    rewrite (getattr_ready env subclass depth w1 Hsub).
    pose proof (invoke_method0 env (lit "ready") (ready env)
                  (command_params [(lit "cmd", PStr (lit "ready")); (lit "id", PInt 0)])
                  w1 eq_refl) as Hcall.
    unfold method0 in *. rewrite Hcall. unfold ready.
    apply respond_ok, Ht. }
  destruct (encoded_payload _ _ Ht) as (payload & Henc & Hnul).
  destruct (dict_text_nonempty _ _ Ht) as [more Hmore].
  exists text, payload. repeat split; try assumption.
  unfold run, run_with. fold w1.
  change (json_dumps ready_command) with (Ok (qlit "{'cmd': 'ready', 'id': 0}")).
  cbv iota beta. rewrite Hhc. rewrite Hmore in *.
  cbn [emit send_response]. rewrite Henc. reflexivity.
Qed.

(** X13.  On an input that is closed at once, [run] writes the readiness
    frame and returns: the output is that one frame and the flag is left
    set. *)
Theorem run_on_closed_input (depth : nat) (w : world U) :
  subclass (set_running true w) (lit "ready") = None ->
  stdin w = [] ->
  exists text payload,
    json_dumps (PDict [(lit "id", PInt 0);
                       (lit "status", PStr (lit "success"));
                       (lit "result",
                        PDict [(lit "status", PStr (lit "ready"));
                               (lit "python_version", PStr (sys_version env))])])
    = Ok text
    /\ str_encode text = Ok payload
    /\ run env subclass depth w
       = (write_stdout (payload ++ [x00]) (set_running true w), Returns PNone).
Proof.
  intros Hsub Hin.
  destruct (run_handshake depth w Hsub) as (text & payload & Ht & Henc & Hrun).
  exists text, payload. split; [exact Ht | split; [exact Henc |]].
  rewrite Hrun, Hin. reflexivity.
Qed.

End Lifecycle.

(** ** The loop reads the input to its end *)

Section Input.

Context {U : Type} (env : pyenv).

Local Notation "'left_of' w" := (List.length (stdin w)) (at level 10, w at level 9).

Lemma respond_input (w : world U) (v : pyval) : fst (respond env w v) = w.
Proof. unfold respond, on_exception. destruct (json_dumps v); reflexivity. Qed.

Lemma send_response_input (w : world U) (v : pyval) :
  stdin (fst (send_response w v)) = stdin w.
Proof.
  unfold send_response. destruct v; try reflexivity.
  destruct (str_encode s); reflexivity.
Qed.

Lemma send_event_input (w : world U) (event_type data : pyval) :
  stdin (fst (send_event w event_type data)) = stdin w.
Proof.
  unfold send_event. destruct (json_dumps _); [apply send_response_input | reflexivity].
Qed.

Lemma emit_input (w : world U) (response : pystr) :
  stdin (fst (emit w response)) = stdin w.
Proof. destruct response; [reflexivity | apply send_response_input]. Qed.

Lemma invoke_reads (funcstr : pystr) (h : handler U) (params : pyval) (w : world U) :
  reads_only h ->
  (left_of (fst (invoke funcstr h params w)) <= left_of w)%nat.
Proof.
  intros Hh. unfold invoke.
  destruct (truthy params); [| apply Hh].
  destruct params; try (cbn; lia). apply Hh.
Qed.

Lemma handle_command_reads (tbl : world U -> pystr -> option (attribute U)) :
  (forall w name funcstr h, tbl w name = Some (Callable funcstr h) -> reads_only h) ->
  forall w cmd_json,
    (left_of (fst (handle_command_with env tbl w cmd_json)) <= left_of w)%nat.
Proof.
  intros Htbl w cmd_json. unfold handle_command_with.
  destruct (json_loads env cmd_json) as [cmd | msg | e]; try (cbn; lia).
  destruct cmd as [| | | | | | cmd |]; try (cbn; lia).
  destruct (get_default cmd (lit "cmd") (PStr [])) as [| | | | name | | |];
    try (cbn; lia).
  destruct (tbl w name) as [[v | funcstr h] |] eqn:Hattr.
  - destruct v; rewrite respond_input; lia.
  - pose proof (invoke_reads funcstr h (get_default cmd (lit "params") (PDict [])) w
                  (Htbl _ _ _ _ Hattr)) as Hcall.
    destruct (invoke funcstr h _ w) as [w1 [result | e | e]]; cbn [fst] in Hcall;
      try rewrite respond_input; exact Hcall.
  - rewrite respond_input. lia.
Qed.

Lemma receive_loop_reads (hc : world U -> pyval -> world U * outcome pystr) :
  (forall w c, (left_of (fst (hc w c)) <= left_of w)%nat) ->
  forall n w, (left_of (fst (receive_loop hc n w)) <= left_of w)%nat.
Proof.
  intros Hhc. induction n as [| n IH]; intros w; cbn [receive_loop]; [cbn; lia |].
  destruct (stdin w) as [| line rest] eqn:Hin; [cbn; rewrite Hin; cbn; lia |].
  assert (Hpop : left_of (set_stdin rest w) = List.length rest) by reflexivity.
  cbn [List.length].
  destruct (negb (_running (set_stdin rest w))); [cbn; lia |].
  destruct (strip line) as [| c s].
  { specialize (IH (set_stdin rest w)). lia. }
  pose proof (Hhc (set_stdin rest w) (PStr (c :: s))) as H1.
  destruct (hc (set_stdin rest w) (PStr (c :: s))) as [w1 [response | e | e]];
    cbn [fst] in *; try lia.
  pose proof (emit_input w1 response) as H2.
  destruct (emit w1 response) as [w2 [r | e | e]]; cbn [fst] in *; try (rewrite H2; lia).
  specialize (IH w2). rewrite H2 in IH. lia.
Qed.

Lemma run_reads (hc : world U -> pyval -> world U * outcome pystr) :
  (forall w c, (left_of (fst (hc w c)) <= left_of w)%nat) ->
  forall w, (left_of (fst (run_with hc w)) <= left_of w)%nat.
Proof.
  intros Hhc w. unfold run_with.
  change (json_dumps ready_command) with (Ok (qlit "{'cmd': 'ready', 'id': 0}")).
  cbv iota beta.
  pose proof (Hhc (set_running true w) (PStr (qlit "{'cmd': 'ready', 'id': 0}"))) as H1.
  change (left_of (set_running true w)) with (left_of w) in H1.
  destruct (hc (set_running true w) _) as [w1 [response | e | e]]; cbn [fst] in *;
    try exact H1.
  pose proof (emit_input w1 response) as H2.
  destruct (emit w1 response) as [w2 [r | e | e]]; cbn [fst] in *;
    try (rewrite H2; exact H1).
  pose proof (receive_loop_reads hc Hhc (left_of w2) w2) as H3.
  rewrite H2 in H3 at 2. lia.
Qed.

Lemma method0_reads (name : pystr) (body : world U -> world U * outcome pyval) :
  (forall w, (left_of (fst (body w)) <= left_of w)%nat) ->
  match method0 env name body with
  | Callable _ h => reads_only h
  | Data _ => False
  end.
Proof.
  intros Hbody kw w. cbv beta.
  destruct (bind_kwargs _ [] kw); [| cbn; lia].
  specialize (Hbody w). destruct (body w) as [w1 o]. exact Hbody.
Qed.

Lemma method1_reads (name param : pystr)
  (body : world U -> pyval -> world U * outcome pyval) :
  (forall w v, (left_of (fst (body w v)) <= left_of w)%nat) ->
  match method1 env name param body with
  | Callable _ h => reads_only h
  | Data _ => False
  end.
Proof.
  intros Hbody kw w. cbv beta.
  destruct (bind_kwargs _ [param] kw) as [arg |]; [| cbn; lia].
  specialize (Hbody w (arg param)). destruct (body w (arg param)) as [w1 o]. exact Hbody.
Qed.

Lemma method2_reads (name param1 param2 : pystr)
  (body : world U -> pyval -> pyval -> world U * outcome pyval) :
  (forall w v1 v2, (left_of (fst (body w v1 v2)) <= left_of w)%nat) ->
  match method2 env name param1 param2 body with
  | Callable _ h => reads_only h
  | Data _ => False
  end.
Proof.
  intros Hbody kw w. cbv beta.
  destruct (bind_kwargs _ [param1; param2] kw) as [arg |]; [| cbn; lia].
  specialize (Hbody w (arg param1) (arg param2)).
  destruct (body w (arg param1) (arg param2)) as [w1 o]. exact Hbody.
Qed.

Lemma as_value_world (r : world U * outcome pystr) : fst (as_value r) = fst r.
Proof. destruct r as [w [t | e | e]]; reflexivity. Qed.

Context (subclass : world U -> pystr -> option (attribute U)).

Hypothesis subclass_reads :
  forall w name funcstr h, subclass w name = Some (Callable funcstr h) -> reads_only h.

Lemma getattr_reads (depth : nat) :
  forall w name funcstr h,
    getattr_ env subclass depth w name = Some (Callable funcstr h) -> reads_only h.
Proof.
  induction depth as [| d IH]; intros w name funcstr h; cbn [getattr_];
    (destruct (str_eqb name (lit "state")); [discriminate |]);
    (destruct (str_eqb name (lit "_running")); [discriminate |]);
    (destruct (subclass w name) as [a |] eqn:Hsub;
     [intros Ha; injection Ha as ->; eapply subclass_reads, Hsub |]);
    repeat match goal with
           | |- (if ?b then _ else _) = _ -> _ => destruct b
           end;
    try discriminate;
    intros Ha; injection Ha as _ <-;
    first
      [ apply (method0_reads name (fun w => (__init__ w, Returns PNone)));
        intros w0; cbn; lia
      | apply (method0_reads name (ready env)); intros w0; cbn; lia
      | apply (method0_reads name shutdown); intros w0; cbn; lia
      | apply (method1_reads name (lit "response_json") send_response);
        intros w0 v; rewrite send_response_input; lia
      | apply (method2_reads name (lit "event_type") (lit "data") send_event);
        intros w0 v1 v2; rewrite send_event_input; lia
      | apply (method1_reads name (lit "cmd_json")
                 (fun w cmd_json => (w, Raises recursion_error)));
        intros w0 v; cbn; lia
      | apply (method0_reads name (fun w => (w, Raises recursion_error)));
        intros w0; cbn; lia
      | apply (method1_reads name (lit "cmd_json")
                 (fun w cmd_json =>
                    as_value (handle_command_with env (getattr_ env subclass d) w cmd_json)));
        intros w0 v; rewrite as_value_world; apply handle_command_reads, IH
      | apply (method0_reads name
                 (fun w => run_with (handle_command_with env (getattr_ env subclass d)) w));
        intros w0; apply run_reads; intros w1 c; apply handle_command_reads, IH ].
Qed.

(** X14.  [run] returns only when the input is used up or the flag is
    cleared: as long as no handler puts lines back on the input, the
    process [run] returns with has no line left to read, or has its flag
    cleared. *)
Theorem run_reads_to_the_end (depth : nat) (w w' : world U) (r : pyval) :
  run env subclass depth w = (w', Returns r) ->
  stdin w' = [] \/ _running w' = false.
Proof.
  assert (Hhc : forall w0 c,
             (left_of (fst (handle_command env subclass depth w0 c)) <= left_of w0)%nat)
    by (intros w0 c; apply handle_command_reads, getattr_reads).
  assert (Hloop : forall n w0 w1 r0,
             (left_of w0 <= n)%nat ->
             receive_loop (handle_command env subclass depth) n w0 = (w1, Returns r0) ->
             stdin w1 = [] \/ _running w1 = false).
  { induction n as [| n IH]; intros w0 w1 r0 Hn; cbn [receive_loop].
    - intros H. injection H as <- _. left.
      destruct (stdin w0); [reflexivity | cbn in Hn; lia].
    - destruct (stdin w0) as [| line rest] eqn:Hin;
        [intros H; injection H as <- _; now left |].
      cbn [List.length] in Hn.
      destruct (_running (set_stdin rest w0)) eqn:Hrun; cbn [negb];
        [| intros H; injection H as <- _; now right].
      destruct (strip line) as [| c s].
      { apply IH. cbn. lia. }
      pose proof (Hhc (set_stdin rest w0) (PStr (c :: s))) as H1.
      destruct (handle_command env subclass depth (set_stdin rest w0) (PStr (c :: s)))
        as [w2 [response | e | e]]; cbn [fst] in H1; try discriminate.
      pose proof (emit_input w2 response) as H2.
      destruct (emit w2 response) as [w3 [r1 | e | e]]; cbn [fst] in H2; try discriminate.
      apply IH. rewrite H2. cbn in H1. lia. }
  unfold run, run_with.
  change (json_dumps ready_command) with (Ok (qlit "{'cmd': 'ready', 'id': 0}")).
  cbv iota beta.
  destruct (handle_command env subclass depth (set_running true w) _)
    as [w1 [response | e | e]]; try discriminate.
  destruct (emit w1 response) as [w2 [r1 | e | e]]; try discriminate.
  apply Hloop. lia.
Qed.

End Input.

(** ** Calls of bound methods *)

Lemma str_eqb_refl (s : pystr) : str_eqb s s = true.
Proof.
  induction s as [| c r IH]; [reflexivity |].
  cbn [str_eqb]. now rewrite N.eqb_refl, IH.
Qed.

Lemma str_eqb_eq (a b : pystr) : str_eqb a b = true -> a = b.
Proof.
  revert b. induction a as [| x a IH]; intros [| y b]; cbn [str_eqb];
    try discriminate; [reflexivity |].
  intros H. apply andb_true_iff in H as [Hxy Hab].
  apply N.eqb_eq in Hxy. now rewrite Hxy, (IH b Hab).
Qed.

Lemma str_eqb_neq (a b : pystr) : a <> b -> str_eqb a b = false.
Proof.
  intros H. destruct (str_eqb a b) eqn:E; [| reflexivity].
  now apply str_eqb_eq in E.
Qed.

Section Calls.

Context {U : Type}.

(** A method without parameters, called without arguments, runs its body. *)
Lemma invoke_bound0 (modname cls name : pystr)
  (body : world U -> (pystr -> pyval) -> world U * outcome pyval)
  (params : pyval) (w : world U) :
  truthy params = false ->
  exists arg,
    match bound_method modname cls name [] body with
    | Callable funcstr h => invoke funcstr h params w = body w arg
    | Data _ => False
    end.
Proof.
  intros Hp.
  exists (fun n => match dict_get [] n with Some v => v | None => PNone end).
  unfold bound_method, invoke. rewrite Hp.
  cbn [bind_kwargs check_keywords bind filter].
  destruct (body w _) as [w1 o]. reflexivity.
Qed.

(** A method called with an object whose keywords bind runs its body with
    the arguments. *)
Lemma invoke_bound (modname cls name : pystr) (params : list pystr)
  (body : world U -> (pystr -> pyval) -> world U * outcome pyval)
  (kv : list (pystr * pyval)) (arg : pystr -> pyval) (w : world U) :
  bind_kwargs (cls ++ lit "." ++ name) params kv = Ok arg ->
  match bound_method modname cls name params body with
  | Callable funcstr h => invoke funcstr h (PDict kv) w = body w arg
  | Data _ => False
  end.
Proof.
  intros Hb. unfold bound_method, invoke.
  destruct kv as [| p kv]; cbn [truthy]; rewrite Hb;
    destruct (body w arg) as [w1 o]; reflexivity.
Qed.

(** A method of one parameter, called with that one keyword. *)
Lemma bind_one (qualname p : pystr) (v : pyval) :
  str_eqb p (lit "self") = false ->
  exists arg, arg p = v /\ bind_kwargs qualname [p] [(p, v)] = Ok arg.
Proof.
  intros Hp.
  exists (fun n => match dict_get [(p, v)] n with Some x => x | None => PNone end).
  split.
  - cbn [dict_get]. now rewrite str_eqb_refl.
  - unfold bind_kwargs. cbn [check_keywords map fst mem_str existsb filter negb].
    rewrite Hp, str_eqb_refl. reflexivity.
Qed.

(** A call with a required parameter and no argument is a [TypeError], and
    the body does not run. *)
Lemma invoke_missing (modname cls name p : pystr) (params : list pystr)
  (body : world U -> (pystr -> pyval) -> world U * outcome pyval)
  (v : pyval) (w : world U) :
  truthy v = false ->
  exists e,
    exn_class e = lit "TypeError"
    /\ match bound_method modname cls name (p :: params) body with
       | Callable funcstr h => invoke funcstr h v w = (w, Raises e)
       | Data _ => False
       end.
Proof.
  intros Hv. eexists. split; [| unfold bound_method, invoke; rewrite Hv; reflexivity].
  reflexivity.
Qed.





(** A method without required parameters, called without arguments. *)
Lemma invoke_with0 (modname cls name : pystr) (defaults : list (pystr * pyval))
  (var_kw : bool)
  (body : world U -> (pystr -> pyval) -> list (pystr * pyval) -> world U * outcome pyval)
  (params : pyval) (w : world U) :
  truthy params = false ->
  exists arg,
    match bound_method_with modname cls name [] defaults var_kw body with
    | Callable funcstr h => invoke funcstr h params w = body w arg []
    | Data _ => False
    end.
Proof.
  intros Hp.
  exists (fun n => match dict_get [] n with
                   | Some v => v
                   | None => match dict_get defaults n with
                             | Some d => d
                             | None => PNone
                             end
                   end).
  unfold bound_method_with, invoke. rewrite Hp.
  unfold bind_call. destruct var_kw; cbn [check_self check_keywords bind filter];
    destruct (body w _ []) as [w1 o]; reflexivity.
Qed.

End Calls.

(** ** [ExampleBackend] *)

Section Example.

Context (env : pyenv)
        (py_eval : pyval -> world ExampleBackend.fields
                   -> world ExampleBackend.fields * outcome pyval)
        (inherited : world ExampleBackend.fields -> pystr
                     -> option (attribute ExampleBackend.fields)).

Import ExampleBackend.

Lemma example_increment (depth : nat) (w : world fields) :
  getattr_ env (attributes env py_eval inherited) depth w (lit "increment")
  = Some (bound_method (module_name env) (lit "ExampleBackend") (lit "increment") []
            (fun w _ => increment w)).
Proof. destruct depth; reflexivity. Qed.

Lemma example_add_message (depth : nat) (w : world fields) :
  getattr_ env (attributes env py_eval inherited) depth w (lit "add_message")
  = Some (bound_method (module_name env) (lit "ExampleBackend") (lit "add_message")
            [lit "message"]
            (fun w arg => add_message w (arg (lit "message")))).
Proof. destruct depth; reflexivity. Qed.

Lemma example_get_messages (depth : nat) (w : world fields) :
  getattr_ env (attributes env py_eval inherited) depth w (lit "get_messages")
  = Some (bound_method (module_name env) (lit "ExampleBackend") (lit "get_messages") []
            (fun w _ => get_messages w)).
Proof. destruct depth; reflexivity. Qed.

Lemma example_echo (depth : nat) (w : world fields) :
  getattr_ env (attributes env py_eval inherited) depth w (lit "echo")
  = Some (bound_method (module_name env) (lit "ExampleBackend") (lit "echo") [lit "data"]
            (fun w arg => echo w (arg (lit "data")))).
Proof. destruct depth; reflexivity. Qed.

Lemma example_calculate (depth : nat) (w : world fields) :
  getattr_ env (attributes env py_eval inherited) depth w (lit "calculate")
  = Some (bound_method (module_name env) (lit "ExampleBackend") (lit "calculate")
            [lit "expression"]
            (fun w arg => calculate py_eval w (arg (lit "expression")))).
Proof. destruct depth; reflexivity. Qed.

(** [increment], called without arguments. *)
Lemma handle_increment (depth : nat) (w : world fields) (doc : pystr)
  (cmd : list (pystr * pyval)) :
  json_loads env (PStr doc) = Decoded (PDict cmd) ->
  command_name cmd = PStr (lit "increment") ->
  truthy (command_params cmd) = false ->
  exists text,
    json_dumps (PDict [(lit "id", command_id cmd);
                       (lit "status", PStr (lit "success"));
                       (lit "result", PDict [(lit "count", PInt (counter (user w) + 1))])])
    = Ok text
    /\ handle_command env (attributes env py_eval inherited) depth w (PStr doc)
       = (set_fields (counter (user w) + 1) (messages (user w)) w, Returns text).
Proof.
  intros Hdoc Hname Hparams.
  destruct (command_id_encodes _ _ _ Hdoc) as [t Hid].
  destruct (success_response_encodes_any (command_id cmd)
              (PDict [(lit "count", PInt (counter (user w) + 1))]) _ _ Hid eq_refl)
    as [text Ht].
  exists text. split; [exact Ht |].
  unfold handle_command.
  rewrite (handle_command_decoded _ _ _ _ _ _ Hdoc Hname), example_increment.
  destruct (invoke_bound0 (module_name env) (lit "ExampleBackend") (lit "increment")
              (fun w _ => increment w) (command_params cmd) w Hparams)
    as [arg Hcall].
  unfold bound_method in *. rewrite Hcall. unfold increment.
  apply respond_ok, Ht.
Qed.

(** X15.  [increment] adds one to the counter and answers with the new
    count, under the id of the command; the messages and the rest of the
    process are as before. *)
Theorem increment_counts (depth : nat) (w : world fields) (doc : pystr)
  (cmd : list (pystr * pyval)) :
  json_loads env (PStr doc) = Decoded (PDict cmd) ->
  command_name cmd = PStr (lit "increment") ->
  truthy (command_params cmd) = false ->
  exists text,
    json_dumps (PDict [(lit "id", command_id cmd);
                       (lit "status", PStr (lit "success"));
                       (lit "result", PDict [(lit "count", PInt (counter (user w) + 1))])])
    = Ok text
    /\ handle_command env (attributes env py_eval inherited) depth w (PStr doc)
       = (set_fields (counter (user w) + 1) (messages (user w)) w, Returns text).
Proof. apply handle_increment. Qed.

(** X16.  Increments add up: after a run of [n] lines that each ask for
    [increment], the counter is [n] higher, every line has been read, the
    flag is still set and the messages are as they were. *)
Theorem increments_add_up (depth : nat) (lines : list pystr) :
  Forall (increment_line env) lines ->
  forall w : world fields,
    _running w = true ->
    stdin w = lines ->
    exists out,
      receive_loop (handle_command env (attributes env py_eval inherited) depth) (List.length lines) w
      = (set_stdin []
           (write_stdout out
              (set_fields (counter (user w) + Z.of_nat (List.length lines))
                 (messages (user w)) w)),
         Returns PNone).
Proof.
  induction 1 as [| line rest (Hline & cmd & Hdoc & Hname & Hparams) _ IH];
    intros w Hrun Hin.
  - exists []. cbn [receive_loop List.length]. destruct w as [st r [c m] out i].
    cbn in *. subst.
    unfold set_fields, set_user, set_stdin, write_stdout.
    cbn [state _running user stdout stdin]. rewrite app_nil_r, Z.add_0_r. reflexivity.
  - destruct (handle_increment depth (set_stdin rest w) _ _ Hdoc Hname Hparams)
      as (text & _ & Hhc).
    destruct (receive_loop_dispatch env _ (List.length rest) _ _ _ _ _ Hin Hrun Hline Hhc)
      as (payload & _ & _ & Hstep).
    cbn [List.length]. unfold handle_command in *. rewrite Hstep.
    destruct (IH (write_stdout (payload ++ [x00])
                    (set_fields (counter (user (set_stdin rest w)) + 1)
                       (messages (user (set_stdin rest w))) (set_stdin rest w))))
      as [out Hout]; [exact Hrun | reflexivity |].
    exists ((payload ++ [x00]) ++ out). rewrite Hout.
    destruct w as [st r [c m] o i].
    unfold set_fields, set_user, set_stdin, write_stdout.
    cbn [state _running user stdout stdin counter messages].
    rewrite <- app_assoc.
    replace (c + 1 + Z.of_nat (List.length rest))%Z
      with (c + Z.of_nat (S (List.length rest)))%Z by lia.
    reflexivity.
Qed.

(** X17.  A message that is added is listed: [add_message] answers with
    the new length of the list, and a [get_messages] after it answers with
    the list as it was, followed by that message. *)
Theorem added_message_is_listed (depth : nat) (w : world fields)
  (doc1 doc2 : pystr) (cmd1 cmd2 : list (pystr * pyval)) (message : pyval) :
  forallb jsonable (messages (user w)) = true ->
  json_loads env (PStr doc1) = Decoded (PDict cmd1) ->
  command_name cmd1 = PStr (lit "add_message") ->
  command_params cmd1 = PDict [(lit "message", message)] ->
  json_loads env (PStr doc2) = Decoded (PDict cmd2) ->
  command_name cmd2 = PStr (lit "get_messages") ->
  truthy (command_params cmd2) = false ->
  let w1 := set_fields (counter (user w)) (messages (user w) ++ [message]) w in
  exists text1 text2,
    json_dumps (PDict [(lit "id", command_id cmd1);
                       (lit "status", PStr (lit "success"));
                       (lit "result",
                        PDict [(lit "count",
                                PInt (Z.of_nat (List.length (messages (user w))) + 1))])])
    = Ok text1
    /\ handle_command env (attributes env py_eval inherited) depth w (PStr doc1) = (w1, Returns text1)
    /\ json_dumps (PDict [(lit "id", command_id cmd2);
                          (lit "status", PStr (lit "success"));
                          (lit "result",
                           PDict [(lit "messages", PList (messages (user w) ++ [message]))])])
       = Ok text2
    /\ handle_command env (attributes env py_eval inherited) depth w1 (PStr doc2) = (w1, Returns text2).
Proof.
  intros Hold Hdoc1 Hname1 Hparams1 Hdoc2 Hname2 Hparams2 w1.
  destruct (command_id_encodes _ _ _ Hdoc1) as [t1 Hid1].
  destruct (command_id_encodes _ _ _ Hdoc2) as [t2 Hid2].
  destruct (success_response_encodes_any (command_id cmd1)
              (PDict [(lit "count", PInt (Z.of_nat (List.length (messages (user w))) + 1))])
              _ _ Hid1 eq_refl) as [text1 Ht1].
  assert (Hm : jsonable message = true).
  { pose proof (command_params_jsonable _ _ _ Hdoc1) as H. rewrite Hparams1 in H.
    cbn [jsonable forallb snd] in H. now apply andb_true_iff in H as [H _]. }
  destruct (jsonable_encodes (PDict [(lit "messages", PList (messages (user w) ++ [message]))]))
    as [tm Htm].
  { cbn [jsonable forallb snd]. rewrite forallb_app, Hold. cbn [forallb].
    now rewrite Hm. }
  destruct (success_response_encodes_any (command_id cmd2) _ _ _ Hid2 Htm) as [text2 Ht2].
  exists text1, text2. repeat split; try assumption.
  - unfold handle_command.
    rewrite (handle_command_decoded _ _ _ _ _ _ Hdoc1 Hname1), example_add_message.
    destruct (bind_one (lit "ExampleBackend.add_message") (lit "message") message eq_refl)
      as (arg & Harg & Hbind).
    pose proof (invoke_bound (module_name env) (lit "ExampleBackend") (lit "add_message")
                  [lit "message"]
                  (fun w arg => add_message w (arg (lit "message")))
                  _ _ w Hbind) as Hcall.
    unfold bound_method in *. rewrite Hparams1, Hcall, Harg.
    unfold add_message. rewrite length_app, Nat2Z.inj_add.
    apply respond_ok, Ht1.
  - unfold handle_command.
    rewrite (handle_command_decoded _ _ _ _ _ _ Hdoc2 Hname2), example_get_messages.
    destruct (invoke_bound0 (module_name env) (lit "ExampleBackend") (lit "get_messages")
                (fun w _ => get_messages w) (command_params cmd2) w1
                Hparams2) as [arg Hcall].
    unfold bound_method in *. rewrite Hcall. unfold get_messages.
    apply respond_ok, Ht2.
Qed.

(** X18.  [echo] gives back what it is given: whatever value [data]
    [json.loads] has read, the response carries the id of the command and
    the result [{"echo": data}], written by [json.dumps] (floats by their
    [repr]: [[1.50, 1e2]] comes back as [[1.5, 100.0]]), and the process
    is left as it is. *)
Theorem echo_gives_back_its_argument (depth : nat) (w : world fields)
  (doc : pystr) (cmd : list (pystr * pyval)) (data : pyval) :
  json_loads env (PStr doc) = Decoded (PDict cmd) ->
  command_name cmd = PStr (lit "echo") ->
  command_params cmd = PDict [(lit "data", data)] ->
  exists text,
    json_dumps (PDict [(lit "id", command_id cmd);
                       (lit "status", PStr (lit "success"));
                       (lit "result", PDict [(lit "echo", data)])]) = Ok text
    /\ handle_command env (attributes env py_eval inherited) depth w (PStr doc) = (w, Returns text).
Proof.
  intros Hdoc Hname Hparams.
  destruct (command_id_encodes _ _ _ Hdoc) as [t Hid].
  assert (Hd : jsonable data = true).
  { pose proof (command_params_jsonable _ _ _ Hdoc) as H. rewrite Hparams in H.
    cbn [jsonable forallb snd] in H. now apply andb_true_iff in H as [H _]. }
  destruct (jsonable_encodes (PDict [(lit "echo", data)])) as [te Hte].
  { cbn [jsonable forallb snd]. now rewrite Hd. }
  destruct (success_response_encodes_any (command_id cmd) _ _ _ Hid Hte) as [text Ht].
  exists text. split; [exact Ht |].
  unfold handle_command.
  rewrite (handle_command_decoded _ _ _ _ _ _ Hdoc Hname), example_echo.
  destruct (bind_one (lit "ExampleBackend.echo") (lit "data") data eq_refl)
    as (arg & Harg & Hbind).
  pose proof (invoke_bound (module_name env) (lit "ExampleBackend") (lit "echo")
                [lit "data"] (fun w arg => echo w (arg (lit "data")))
                _ _ w Hbind) as Hcall.
  unfold bound_method in *. rewrite Hparams, Hcall, Harg.
  apply respond_ok, Ht.
Qed.

(** X19.  [calculate] turns every [Exception] of the evaluation into a
    [ValueError]: the command is answered with an error under its id whose
    message is ["Calculation error: "] followed by the message of the
    exception. *)
Theorem calculation_error_is_reported (depth : nat) (w w1 : world fields)
  (doc : pystr) (cmd : list (pystr * pyval)) (expression : pyval) (e : exn) :
  json_loads env (PStr doc) = Decoded (PDict cmd) ->
  command_name cmd = PStr (lit "calculate") ->
  command_params cmd = PDict [(lit "expression", expression)] ->
  py_eval expression w = (w1, Raises e) ->
  let e' := ValueError (lit "Calculation error: " ++ exn_msg e) in
  exists text,
    json_dumps (PDict [(lit "id", command_id cmd);
                       (lit "status", PStr (lit "error"));
                       (lit "error", PStr (lit "Calculation error: " ++ exn_msg e));
                       (lit "traceback", PStr (format_exc env e'))]) = Ok text
    /\ handle_command env (attributes env py_eval inherited) depth w (PStr doc) = (w1, Returns text).
Proof.
  intros Hdoc Hname Hparams Heval e'.
  destruct (command_id_encodes _ _ _ Hdoc) as [t Hid].
  destruct (failure_response_encodes_any env _ _ e' Hid) as [text Ht].
  exists text. split; [exact Ht |].
  unfold handle_command.
  rewrite (handle_command_decoded _ _ _ _ _ _ Hdoc Hname), example_calculate.
  destruct (bind_one (lit "ExampleBackend.calculate") (lit "expression") expression
              eq_refl) as (arg & Harg & Hbind).
  pose proof (invoke_bound (module_name env) (lit "ExampleBackend") (lit "calculate")
                [lit "expression"]
                (fun w arg => calculate py_eval w (arg (lit "expression")))
                _ _ w Hbind) as Hcall.
  unfold bound_method in *. rewrite Hparams, Hcall, Harg.
  unfold calculate. rewrite Heval.
  apply respond_ok, Ht.
Qed.

(** X20.  [add_message] without its argument ([params] missing, [null] or
    empty) adds nothing: the call fails with a [TypeError] before the body
    runs, the command is answered with an error under its id, and the list
    of messages is as before. *)
Theorem add_message_needs_its_argument (depth : nat) (w : world fields)
  (doc : pystr) (cmd : list (pystr * pyval)) :
  json_loads env (PStr doc) = Decoded (PDict cmd) ->
  command_name cmd = PStr (lit "add_message") ->
  truthy (command_params cmd) = false ->
  exists e text,
    exn_class e = lit "TypeError"
    /\ json_dumps (PDict [(lit "id", command_id cmd);
                          (lit "status", PStr (lit "error"));
                          (lit "error", PStr (exn_msg e));
                          (lit "traceback", PStr (format_exc env e))]) = Ok text
    /\ handle_command env (attributes env py_eval inherited) depth w (PStr doc) = (w, Returns text).
Proof.
  intros Hdoc Hname Hparams.
  destruct (invoke_missing (module_name env) (lit "ExampleBackend") (lit "add_message")
              (lit "message") []
              (fun w arg => add_message w (arg (lit "message")))
              (command_params cmd) w Hparams) as (e & He & Hcall).
  destruct (command_id_encodes _ _ _ Hdoc) as [t Hid].
  destruct (failure_response_encodes_any env _ _ e Hid) as [text Ht].
  exists e, text. split; [exact He | split; [exact Ht |]].
  unfold handle_command.
  rewrite (handle_command_decoded _ _ _ _ _ _ Hdoc Hname), example_add_message.
  unfold bound_method in *. rewrite Hcall.
  apply respond_ok, Ht.
Qed.

End Example.

(** ** [EchoBackend] *)

Section Echo.

Context (env : pyenv) (module : pystr)
        (py_add py_sub py_mul py_truediv : pyval -> pyval -> res pyval)
        (py_str : pyval -> pystr)
        (inherited : world EchoBackend.fields -> pystr
                     -> option (attribute EchoBackend.fields)).

Import EchoBackend.

Local Notation "'backend'" :=
  (attributes module py_add py_sub py_mul py_truediv py_str inherited).
Local Notation "'calculate_'" := (calculate py_add py_sub py_mul py_truediv py_str).

Lemma echo_calculate (depth : nat) (w : world fields) :
  getattr_ env backend depth w (lit "calculate")
  = Some (bound_method module (lit "EchoBackend") (lit "calculate")
            [lit "operation"; lit "a"; lit "b"]
            (fun w arg => calculate_ w (arg (lit "operation")) (arg (lit "a"))
                            (arg (lit "b")))).
Proof. destruct depth; reflexivity. Qed.

(** A call of [calculate] that raises. *)
Lemma calculate_fails (depth : nat) (w : world fields) (doc : pystr)
  (cmd kv : list (pystr * pyval)) (arg : pystr -> pyval) (e : exn) :
  json_loads env (PStr doc) = Decoded (PDict cmd) ->
  command_name cmd = PStr (lit "calculate") ->
  command_params cmd = PDict kv ->
  bind_kwargs (lit "EchoBackend.calculate") [lit "operation"; lit "a"; lit "b"] kv
  = Ok arg ->
  calculate_ w (arg (lit "operation")) (arg (lit "a")) (arg (lit "b")) = (w, Raises e) ->
  exists text,
    json_dumps (PDict [(lit "id", command_id cmd);
                       (lit "status", PStr (lit "error"));
                       (lit "error", PStr (exn_msg e));
                       (lit "traceback", PStr (format_exc env e))]) = Ok text
    /\ handle_command env backend depth w (PStr doc) = (w, Returns text).
Proof.
  intros Hdoc Hname Hparams Hbind Hcalc.
  destruct (command_id_encodes _ _ _ Hdoc) as [t Hid].
  destruct (failure_response_encodes_any env _ _ e Hid) as [text Ht].
  exists text. split; [exact Ht |].
  unfold handle_command.
  rewrite (handle_command_decoded _ _ _ _ _ _ Hdoc Hname), echo_calculate.
  pose proof (invoke_bound module (lit "EchoBackend") (lit "calculate")
                [lit "operation"; lit "a"; lit "b"]
                (fun w arg => calculate_ w (arg (lit "operation")) (arg (lit "a"))
                                (arg (lit "b")))
                _ _ w Hbind) as Hcall.
  unfold bound_method in *. rewrite Hparams, Hcall, Hcalc.
  apply respond_ok, Ht.
Qed.

(** X21.  [calculate] does not divide by zero: for the operation
    ["divide"] and a [b] that equals 0 (the integer, a float zero, or
    [false]), the command is answered with the error
    ["Division by zero"] under its id, whatever [a] is, and the division
    is not attempted. *)
Theorem division_by_zero_is_reported (depth : nat) (w : world fields)
  (doc : pystr) (cmd kv : list (pystr * pyval)) (arg : pystr -> pyval) :
  json_loads env (PStr doc) = Decoded (PDict cmd) ->
  command_name cmd = PStr (lit "calculate") ->
  command_params cmd = PDict kv ->
  bind_kwargs (lit "EchoBackend.calculate") [lit "operation"; lit "a"; lit "b"] kv
  = Ok arg ->
  arg (lit "operation") = PStr (lit "divide") ->
  eq_zero (arg (lit "b")) = true ->
  let e := ValueError (lit "Division by zero") in
  exists text,
    json_dumps (PDict [(lit "id", command_id cmd);
                       (lit "status", PStr (lit "error"));
                       (lit "error", PStr (lit "Division by zero"));
                       (lit "traceback", PStr (format_exc env e))]) = Ok text
    /\ handle_command env backend depth w (PStr doc) = (w, Returns text).
Proof.
  intros Hdoc Hname Hparams Hbind Hop Hb e.
  apply (calculate_fails depth w doc cmd kv arg e Hdoc Hname Hparams Hbind).
  unfold calculate. rewrite Hop, Hb. reflexivity.
Qed.

(** X22.  An operation that is none of ["add"], ["subtract"],
    ["multiply"] and ["divide"] is refused: the command is answered with
    the error ["Unknown operation: "] followed by the operation, under its
    id, and no arithmetic is done. *)
Theorem unknown_operation_is_reported (depth : nat) (w : world fields)
  (doc : pystr) (cmd kv : list (pystr * pyval)) (arg : pystr -> pyval) :
  json_loads env (PStr doc) = Decoded (PDict cmd) ->
  command_name cmd = PStr (lit "calculate") ->
  command_params cmd = PDict kv ->
  bind_kwargs (lit "EchoBackend.calculate") [lit "operation"; lit "a"; lit "b"] kv
  = Ok arg ->
  (forall s, In s [lit "add"; lit "subtract"; lit "multiply"; lit "divide"] ->
             arg (lit "operation") <> PStr s) ->
  let e := ValueError (lit "Unknown operation: "
                       ++ formatted py_str (arg (lit "operation"))) in
  exists text,
    json_dumps (PDict [(lit "id", command_id cmd);
                       (lit "status", PStr (lit "error"));
                       (lit "error", PStr (exn_msg e));
                       (lit "traceback", PStr (format_exc env e))]) = Ok text
    /\ handle_command env backend depth w (PStr doc) = (w, Returns text).
Proof.
  intros Hdoc Hname Hparams Hbind Hop e.
  apply (calculate_fails depth w doc cmd kv arg e Hdoc Hname Hparams Hbind).
  assert (Hne : forall s, In s [lit "add"; lit "subtract"; lit "multiply"; lit "divide"] ->
                          eq_str (arg (lit "operation")) s = false).
  { intros s Hs. specialize (Hop s Hs). unfold eq_str.
    destruct (arg (lit "operation")) as [| | | | t | | |]; try reflexivity.
    destruct (str_eqb t s) eqn:E; [| reflexivity].
    apply str_eqb_eq in E. now subst. }
  unfold calculate.
  rewrite !Hne by (cbn [In]; auto). reflexivity.
Qed.

End Echo.

(** ** [ReticulumBackend] *)

Section Reticulum.

Import ReticulumBackend.

Context (env : pyenv) (Obj : Type) (module : pystr) (installed : bool)
        (truth : Obj -> bool)
        (as_attribute : Obj -> attribute (fields Obj))
        (library : pystr -> (pystr -> pyval) -> list (pystr * pyval)
                   -> world (fields Obj)
                   -> world (fields Obj) * outcome pyval)
        (teardown : Obj -> world (fields Obj)
                    -> world (fields Obj) * outcome pyval)
        (inherited : world (fields Obj) -> pystr -> option (attribute (fields Obj))).

Local Notation "'backend'" :=
  (attributes Obj module installed truth as_attribute library teardown inherited).



(** X24.  [get_status] does not fail when Reticulum is not installed: it
    answers with the result
    [{"available": false, "error": "Reticulum not installed"}]. *)
Theorem status_when_not_installed (depth : nat) (w : world (fields Obj))
  (doc : pystr) (cmd : list (pystr * pyval)) :
  available (user w) = false ->
  json_loads env (PStr doc) = Decoded (PDict cmd) ->
  command_name cmd = PStr (lit "get_status") ->
  truthy (command_params cmd) = false ->
  exists text,
    json_dumps (PDict [(lit "id", command_id cmd);
                       (lit "status", PStr (lit "success"));
                       (lit "result",
                        PDict [(lit "available", PBool false);
                               (lit "error", PStr (lit "Reticulum not installed"))])])
    = Ok text
    /\ handle_command env backend depth w (PStr doc) = (w, Returns text).
Proof.
  intros Hav Hdoc Hname Hparams.
  destruct (command_id_encodes _ _ _ Hdoc) as [t Hid].
  destruct (success_response_encodes_any (command_id cmd)
              (PDict [(lit "available", PBool false);
                      (lit "error", PStr (lit "Reticulum not installed"))])
              _ _ Hid eq_refl) as [text Ht].
  exists text. split; [exact Ht |].
  unfold handle_command.
  rewrite (handle_command_decoded _ _ _ _ _ _ Hdoc Hname).
  replace (getattr_ env backend depth w (lit "get_status"))
    with (Some (bound_method_with module (lit "ReticulumBackend") (lit "get_status") [] [] false
                  (get_status Obj library)))
    by (destruct depth; reflexivity).
  destruct (invoke_with0 module (lit "ReticulumBackend") (lit "get_status") [] false
              (get_status Obj library) (command_params cmd) w Hparams)
    as [arg Hcall].
  unfold bound_method_with in *. rewrite Hcall.
  unfold get_status. rewrite Hav.
  apply respond_ok, Ht.
Qed.

(** X25.  The [shutdown] of [ReticulumBackend] replaces the built-in one
    and stops the loop as that one does: when there is no network to tear
    down, a line that asks for [shutdown] clears the flag, is answered
    with the result [{"status": "shutdown"}], and the loop ends at its
    next turn. *)
Theorem reticulum_shutdown_stops_the_loop (depth n : nat)
  (w0 : world (fields Obj)) (line : pystr) (rest : list pystr)
  (cmd : list (pystr * pyval)) :
  unset truth (network (user w0)) = true ->
  stdin w0 = line :: rest ->
  _running w0 = true ->
  strip line <> [] ->
  json_loads env (PStr (strip line)) = Decoded (PDict cmd) ->
  command_name cmd = PStr (lit "shutdown") ->
  truthy (command_params cmd) = false ->
  (List.length rest <= n)%nat ->
  exists text payload,
    json_dumps (PDict [(lit "id", command_id cmd);
                       (lit "status", PStr (lit "success"));
                       (lit "result", PDict [(lit "status", PStr (lit "shutdown"))])])
    = Ok text
    /\ str_encode text = Ok payload
    /\ receive_loop (handle_command env backend depth) (S n) w0
       = (set_stdin (tl rest) (write_stdout (payload ++ [x00]) (set_running false w0)),
          Returns PNone).
Proof.
  intros Hnet Hin Hrun Hline Hdoc Hname Hparams Hn.
  destruct (command_id_encodes _ _ _ Hdoc) as [t Hid].
  destruct (success_response_encodes_any (command_id cmd)
              (PDict [(lit "status", PStr (lit "shutdown"))]) _ _ Hid eq_refl)
    as [text Ht].
  assert (Hbody : shutdown Obj truth teardown (set_stdin rest w0)
                  = (set_running false (set_stdin rest w0),
                     Returns (PDict [(lit "status", PStr (lit "shutdown"))]))).
  { unfold shutdown. unfold unset in Hnet.
    change (user (set_running false (set_stdin rest w0))) with (user w0).
    destruct (network (user w0)) as [x |]; [| reflexivity].
    apply negb_true_iff in Hnet. rewrite Hnet. reflexivity. }
  assert (Hhc : handle_command env backend depth (set_stdin rest w0) (PStr (strip line))
                = (set_running false (set_stdin rest w0), Returns text)).
  { unfold handle_command.
    rewrite (handle_command_decoded _ _ _ _ _ _ Hdoc Hname).
    replace (getattr_ env backend depth (set_stdin rest w0) (lit "shutdown"))
      with (Some (bound_method_with module (lit "ReticulumBackend") (lit "shutdown") [] [] false
                    (fun w _ _ => shutdown Obj truth teardown w)))
      by (destruct depth; reflexivity).
    destruct (invoke_with0 module (lit "ReticulumBackend") (lit "shutdown") [] false
                (fun w _ _ => shutdown Obj truth teardown w)
                (command_params cmd) (set_stdin rest w0) Hparams) as [arg Hcall].
    unfold bound_method_with in *. rewrite Hcall, Hbody.
    apply respond_ok, Ht. }
  destruct (receive_loop_dispatch env _ n _ _ _ _ _ Hin Hrun Hline Hhc)
    as (payload & Henc & _ & Hstep).
  exists text, payload. split; [exact Ht | split; [exact Henc |]].
  unfold handle_command in *. rewrite Hstep.
  rewrite receive_loop_stopped; [| reflexivity | exact Hn].
  destruct w0; reflexivity.
Qed.


End Reticulum.

(** ** Instances *)

Lemma any_json_id_is_echoed_witness :
  exists text,
    handle_command sample_env SetBackend 0 (new_bridge tt [])
      (PStr (qlit "{'cmd': 'fail', 'id': [1, 'a']}"))
    = (new_bridge tt [], Returns text)
    /\ carries_id text (PList [PInt 1; PStr (lit "a")]).
Proof.
  eapply (any_json_id_is_echoed sample_env SetBackend 0 (new_bridge tt [])
            (new_bridge tt []) (qlit "{'cmd': 'fail', 'id': [1, 'a']}")
            [(lit "cmd", PStr (lit "fail")); (lit "id", PList [PInt 1; PStr (lit "a")])]
            (lit "fail")).
  - vm_compute; reflexivity.
  - reflexivity.
  - reflexivity.
  - reflexivity.
  - exact I.
Defined.

Lemma data_attribute_is_not_callable_witness :
  exists text,
    json_dumps (PDict [(lit "id", PInt 4);
                       (lit "status", PStr (lit "error"));
                       (lit "error", PStr (lit "Command is not callable: " ++ lit "state"))])
    = Ok text
    /\ handle_command sample_env no_subclass 0 (new_bridge tt [])
         (PStr (qlit "{'cmd': 'state', 'id': 4}"))
       = (new_bridge tt [], Returns text).
Proof.
  apply (data_attribute_is_not_callable sample_env no_subclass 0 (new_bridge tt [])
           (qlit "{'cmd': 'state', 'id': 4}")
           [(lit "cmd", PStr (lit "state")); (lit "id", PInt 4)]
           (lit "state") (PDict [])).
  - vm_compute; reflexivity.
  - reflexivity.
  - reflexivity.
  - discriminate.
Defined.

Lemma none_attribute_is_unknown_witness :
  exists text,
    json_dumps (PDict [(lit "id", PInt 3);
                       (lit "status", PStr (lit "error"));
                       (lit "error", PStr (lit "Unknown command: " ++ lit "identity"))])
    = Ok text
    /\ handle_command sample_env (sample_reticulum false) 0 (reticulum_process false [])
         (PStr (qlit "{'cmd': 'identity', 'id': 3}"))
       = (reticulum_process false [], Returns text).
Proof.
  apply (none_attribute_is_unknown sample_env (sample_reticulum false) 0
           (reticulum_process false [])
           (qlit "{'cmd': 'identity', 'id': 3}")
           [(lit "cmd", PStr (lit "identity")); (lit "id", PInt 3)]
           (lit "identity")).
  - vm_compute; reflexivity.
  - reflexivity.
  - reflexivity.
Defined.

Lemma missing_fields_have_defaults_witness :
  handle_command sample_env no_subclass 0 (new_bridge tt []) (PStr (qlit "{}"))
  = (new_bridge tt [],
     Returns (qlit "{'id': 0, 'status': 'error', 'error': 'Unknown command: '}")).
Proof.
  apply (missing_fields_have_defaults sample_env no_subclass 0 (new_bridge tt [])
           (qlit "{}") []).
  - vm_compute; reflexivity.
  - reflexivity.
  - reflexivity.
  - reflexivity.
Defined.

Lemma non_mapping_params_are_rejected_witness :
  exists e text,
    exn_class e = lit "TypeError"
    /\ json_dumps (PDict [(lit "id", PInt 5);
                          (lit "status", PStr (lit "error"));
                          (lit "error", PStr (exn_msg e));
                          (lit "traceback", PStr (format_exc sample_env e))]) = Ok text
    /\ handle_command sample_env no_subclass 0 (new_bridge tt [])
         (PStr (qlit "{'cmd': 'ready', 'id': 5, 'params': [1]}"))
       = (new_bridge tt [], Returns text).
Proof.
  eapply (non_mapping_params_are_rejected sample_env no_subclass 0 (new_bridge tt [])
            (qlit "{'cmd': 'ready', 'id': 5, 'params': [1]}")
            [(lit "cmd", PStr (lit "ready")); (lit "id", PInt 5);
             (lit "params", PList [PInt 1])]
            (lit "ready")).
  - vm_compute; reflexivity.
  - reflexivity.
  - reflexivity.
  - reflexivity.
  - intros kv; discriminate.
  - intros f; discriminate.
Defined.

Lemma shutdown_with_arguments_does_not_stop_witness :
  exists e text,
    exn_class e = lit "TypeError"
    /\ json_dumps (PDict [(lit "id", PInt 6);
                          (lit "status", PStr (lit "error"));
                          (lit "error", PStr (exn_msg e));
                          (lit "traceback", PStr (format_exc sample_env e))]) = Ok text
    /\ handle_command sample_env no_subclass 0 (set_running true (new_bridge tt []))
         (PStr (qlit "{'cmd': 'shutdown', 'id': 6, 'params': {'force': true}}"))
       = (set_running true (new_bridge tt []), Returns text).
Proof.
  apply (shutdown_with_arguments_does_not_stop sample_env no_subclass 0
           (set_running true (new_bridge tt []))
           (qlit "{'cmd': 'shutdown', 'id': 6, 'params': {'force': true}}")
           [(lit "cmd", PStr (lit "shutdown")); (lit "id", PInt 6);
            (lit "params", PDict [(lit "force", PBool true)])]
           [] (lit "force") (PBool true)).
  - reflexivity.
  - vm_compute; reflexivity.
  - reflexivity.
  - reflexivity.
Defined.

Lemma blank_line_is_skipped_witness :
  receive_loop (handle_command sample_env no_subclass 0) 2
    (set_running true (new_bridge tt [[32; 9; 10]; qlit "{'cmd': 'ready'}" ++ [10]]))
  = receive_loop (handle_command sample_env no_subclass 0) 1
      (set_stdin [qlit "{'cmd': 'ready'}" ++ [10]]
         (set_running true (new_bridge tt [[32; 9; 10]; qlit "{'cmd': 'ready'}" ++ [10]]))).
Proof.
  apply (blank_line_is_skipped (handle_command sample_env no_subclass 0) 1
           (set_running true (new_bridge tt [[32; 9; 10]; qlit "{'cmd': 'ready'}" ++ [10]]))
           [32; 9; 10] [qlit "{'cmd': 'ready'}" ++ [10]]).
  - reflexivity.
  - reflexivity.
  - reflexivity.
Defined.

Lemma exit_leaves_the_loop_witness :
  handle_command sample_env (ExampleBackend.attributes sample_env sample_eval sample_inherited) 0
    (set_stdin [] (example_process [exit_line])) (PStr (strip exit_line))
  = (set_stdin [] (example_process [exit_line]),
     Exits {| exn_class := lit "SystemExit"; exn_msg := lit "None" |})
  /\ receive_loop
       (handle_command sample_env (ExampleBackend.attributes sample_env sample_eval sample_inherited) 0)
       1 (example_process [exit_line])
     = (set_stdin [] (example_process [exit_line]),
        Exits {| exn_class := lit "SystemExit"; exn_msg := lit "None" |}).
Proof.
  eapply (exit_leaves_the_loop sample_env (ExampleBackend.attributes sample_env sample_eval sample_inherited)
            0 0 (example_process [exit_line]) (set_stdin [] (example_process [exit_line]))
            exit_line []
            [(lit "cmd", PStr (lit "calculate")); (lit "id", PInt 8);
             (lit "params", PDict [(lit "expression", PStr (lit "exit()"))])]
            (lit "calculate")).
  - reflexivity.
  - reflexivity.
  - vm_compute; discriminate.
  - vm_compute; reflexivity.
  - reflexivity.
  - reflexivity.
  - reflexivity.
Defined.

Lemma payload_null_byte_is_a_nul_character_witness :
  exists payload,
    str_encode [97; 0; 98] = Ok payload
    /\ stdout (write_stdout [x61; x00; x62; x00] (new_bridge tt []))
       = stdout (new_bridge tt []) ++ payload ++ [x00]
    /\ (In x00 payload <-> In 0 [97; 0; 98]).
Proof.
  apply (payload_null_byte_is_a_nul_character (new_bridge tt [])
           (write_stdout [x61; x00; x62; x00] (new_bridge tt [])) [97; 0; 98] PNone).
  - repeat constructor; vm_compute; discriminate.
  - reflexivity.
Defined.

Lemma event_precedes_its_response_witness :
  exists event response event_payload response_payload,
    json_dumps (PDict [(lit "cmd", PStr (lit "tick"));
                       (lit "status", PStr (lit "event"));
                       (lit "result", PInt 1)]) = Ok event
    /\ json_dumps (PDict [(lit "id", PInt 11);
                          (lit "status", PStr (lit "success"));
                          (lit "result", PNone)]) = Ok response
    /\ str_encode event = Ok event_payload
    /\ str_encode response = Ok response_payload
    /\ receive_loop (handle_command sample_env no_subclass 0) 1
         (set_running true (new_bridge tt [event_line]))
       = receive_loop (handle_command sample_env no_subclass 0) 0
           (write_stdout (response_payload ++ [x00])
              (write_stdout (event_payload ++ [x00])
                 (set_stdin [] (set_running true (new_bridge tt [event_line]))))).
Proof.
  apply (event_precedes_its_response sample_env no_subclass 0 0
           (set_running true (new_bridge tt [event_line])) event_line []
           [(lit "cmd", PStr (lit "send_event")); (lit "id", PInt 11);
            (lit "params", PDict [(lit "event_type", PStr (lit "tick"));
                                  (lit "data", PInt 1)])]
           [(lit "event_type", PStr (lit "tick")); (lit "data", PInt 1)]
           (fun n => match dict_get [(lit "event_type", PStr (lit "tick"));
                                     (lit "data", PInt 1)] n with
                     | Some v => v
                     | None => PNone
                     end)).
  - reflexivity.
  - reflexivity.
  - reflexivity.
  - vm_compute; discriminate.
  - vm_compute; reflexivity.
  - reflexivity.
  - reflexivity.
  - reflexivity.
Defined.

Lemma init_command_stops_the_loop_witness :
  exists text payload,
    json_dumps (PDict [(lit "id", PInt 12);
                       (lit "status", PStr (lit "success"));
                       (lit "result", PNone)]) = Ok text
    /\ str_encode text = Ok payload
    /\ receive_loop (handle_command sample_env no_subclass 0) 1
         (stateful_process [init_line])
       = (set_stdin []
            (write_stdout (payload ++ [x00])
               (set_running false (set_state (PDict []) (stateful_process [init_line])))),
          Returns PNone).
Proof.
  apply (init_command_stops_the_loop sample_env no_subclass 0 0
           (stateful_process [init_line]) init_line []
           [(lit "cmd", PStr (lit "__init__")); (lit "id", PInt 12)]).
  - reflexivity.
  - reflexivity.
  - reflexivity.
  - vm_compute; discriminate.
  - vm_compute; reflexivity.
  - reflexivity.
  - reflexivity.
  - simpl; lia.
Defined.

Lemma run_on_closed_input_witness :
  exists text payload,
    json_dumps (PDict [(lit "id", PInt 0);
                       (lit "status", PStr (lit "success"));
                       (lit "result",
                        PDict [(lit "status", PStr (lit "ready"));
                               (lit "python_version", PStr (sys_version sample_env))])])
    = Ok text
    /\ str_encode text = Ok payload
    /\ run sample_env no_subclass 0 (new_bridge tt [])
       = (write_stdout (payload ++ [x00]) (set_running true (new_bridge tt [])),
          Returns PNone).
Proof.
  apply (run_on_closed_input sample_env no_subclass 0 (new_bridge tt [])).
  - reflexivity.
  - reflexivity.
Defined.

Lemma run_reads_to_the_end_witness :
  stdin (fst (run sample_env no_subclass 0 shutdown_then_two)) = []
  \/ _running (fst (run sample_env no_subclass 0 shutdown_then_two)) = false.
Proof.
  apply (run_reads_to_the_end sample_env no_subclass) with (depth := 0%nat)
    (w := shutdown_then_two) (r := PNone).
  - intros w name funcstr h H; discriminate H.
  - vm_compute; reflexivity.
Defined.

Lemma increment_counts_witness :
  exists text,
    json_dumps (PDict [(lit "id", PInt 15);
                       (lit "status", PStr (lit "success"));
                       (lit "result", PDict [(lit "count", PInt 1)])]) = Ok text
    /\ handle_command sample_env (ExampleBackend.attributes sample_env sample_eval sample_inherited) 0
         (example_process []) (PStr (qlit "{'cmd': 'increment', 'id': 15}"))
       = (ExampleBackend.set_fields 1 [] (example_process []), Returns text).
Proof.
  apply (increment_counts sample_env sample_eval sample_inherited 0 (example_process [])
           (qlit "{'cmd': 'increment', 'id': 15}")
           [(lit "cmd", PStr (lit "increment")); (lit "id", PInt 15)]).
  - vm_compute; reflexivity.
  - reflexivity.
  - reflexivity.
Defined.

Lemma increments_add_up_witness :
  exists out,
    receive_loop
      (handle_command sample_env (ExampleBackend.attributes sample_env sample_eval sample_inherited) 0) 2
      (example_process [qlit "{'cmd': 'increment', 'id': 1}" ++ [10];
                        qlit "{'cmd': 'increment', 'id': 2, 'params': {}}" ++ [10]])
    = (set_stdin []
         (write_stdout out
            (ExampleBackend.set_fields 2 []
               (example_process
                  [qlit "{'cmd': 'increment', 'id': 1}" ++ [10];
                   qlit "{'cmd': 'increment', 'id': 2, 'params': {}}" ++ [10]]))),
       Returns PNone).
Proof.
  apply (increments_add_up sample_env sample_eval sample_inherited 0
           [qlit "{'cmd': 'increment', 'id': 1}" ++ [10];
            qlit "{'cmd': 'increment', 'id': 2, 'params': {}}" ++ [10]]).
  - repeat constructor.
    + vm_compute; discriminate.
    + exists [(lit "cmd", PStr (lit "increment")); (lit "id", PInt 1)].
      repeat split; vm_compute; reflexivity.
    + vm_compute; discriminate.
    + exists [(lit "cmd", PStr (lit "increment")); (lit "id", PInt 2);
              (lit "params", PDict [])].
      repeat split; vm_compute; reflexivity.
  - reflexivity.
  - reflexivity.
Defined.

Lemma added_message_is_listed_witness :
  exists text1 text2,
    json_dumps (PDict [(lit "id", PInt 1);
                       (lit "status", PStr (lit "success"));
                       (lit "result", PDict [(lit "count", PInt 1)])]) = Ok text1
    /\ handle_command sample_env (ExampleBackend.attributes sample_env sample_eval sample_inherited) 0
         (example_process [])
         (PStr (qlit "{'cmd': 'add_message', 'id': 1, 'params': {'message': 'hi'}}"))
       = (ExampleBackend.set_fields 0 [PStr (lit "hi")] (example_process []),
          Returns text1)
    /\ json_dumps (PDict [(lit "id", PInt 2);
                          (lit "status", PStr (lit "success"));
                          (lit "result",
                           PDict [(lit "messages", PList [PStr (lit "hi")])])])
       = Ok text2
    /\ handle_command sample_env (ExampleBackend.attributes sample_env sample_eval sample_inherited) 0
         (ExampleBackend.set_fields 0 [PStr (lit "hi")] (example_process []))
         (PStr (qlit "{'cmd': 'get_messages', 'id': 2}"))
       = (ExampleBackend.set_fields 0 [PStr (lit "hi")] (example_process []),
          Returns text2).
Proof.
  apply (added_message_is_listed sample_env sample_eval sample_inherited 0 (example_process [])
           (qlit "{'cmd': 'add_message', 'id': 1, 'params': {'message': 'hi'}}")
           (qlit "{'cmd': 'get_messages', 'id': 2}")
           [(lit "cmd", PStr (lit "add_message")); (lit "id", PInt 1);
            (lit "params", PDict [(lit "message", PStr (lit "hi"))])]
           [(lit "cmd", PStr (lit "get_messages")); (lit "id", PInt 2)]
           (PStr (lit "hi"))).
  - reflexivity.
  - vm_compute; reflexivity.
  - reflexivity.
  - reflexivity.
  - vm_compute; reflexivity.
  - reflexivity.
  - reflexivity.
Defined.

Lemma echo_gives_back_its_argument_witness :
  exists text,
    json_dumps (PDict [(lit "id", PInt 18);
                       (lit "status", PStr (lit "success"));
                       (lit "result",
                        PDict [(lit "echo", PList [PInt 1; PDict [(lit "a", PNone)]])])])
    = Ok text
    /\ handle_command sample_env (ExampleBackend.attributes sample_env sample_eval sample_inherited) 0
         (example_process [])
         (PStr (qlit "{'cmd': 'echo', 'id': 18, 'params': {'data': [1, {'a': null}]}}"))
       = (example_process [], Returns text).
Proof.
  apply (echo_gives_back_its_argument sample_env sample_eval sample_inherited 0 (example_process [])
           (qlit "{'cmd': 'echo', 'id': 18, 'params': {'data': [1, {'a': null}]}}")
           [(lit "cmd", PStr (lit "echo")); (lit "id", PInt 18);
            (lit "params", PDict [(lit "data", PList [PInt 1; PDict [(lit "a", PNone)]])])]
           (PList [PInt 1; PDict [(lit "a", PNone)]])).
  - vm_compute; reflexivity.
  - reflexivity.
  - reflexivity.
Defined.

Lemma calculation_error_is_reported_witness :
  exists text,
    json_dumps
      (PDict [(lit "id", PInt 19);
              (lit "status", PStr (lit "error"));
              (lit "error", PStr (lit "Calculation error: " ++ lit "division by zero"));
              (lit "traceback",
               PStr (format_exc sample_env
                       (ValueError (lit "Calculation error: "
                                    ++ lit "division by zero"))))]) = Ok text
    /\ handle_command sample_env (ExampleBackend.attributes sample_env sample_eval sample_inherited) 0
         (example_process [])
         (PStr (qlit "{'cmd': 'calculate', 'id': 19, 'params': {'expression': '1/0'}}"))
       = (example_process [], Returns text).
Proof.
  apply (calculation_error_is_reported sample_env sample_eval sample_inherited 0 (example_process [])
           (example_process [])
           (qlit "{'cmd': 'calculate', 'id': 19, 'params': {'expression': '1/0'}}")
           [(lit "cmd", PStr (lit "calculate")); (lit "id", PInt 19);
            (lit "params", PDict [(lit "expression", PStr (lit "1/0"))])]
           (PStr (lit "1/0"))
           {| exn_class := lit "ZeroDivisionError"; exn_msg := lit "division by zero" |}).
  - vm_compute; reflexivity.
  - reflexivity.
  - reflexivity.
  - reflexivity.
Defined.

Lemma add_message_needs_its_argument_witness :
  exists e text,
    exn_class e = lit "TypeError"
    /\ json_dumps (PDict [(lit "id", PInt 20);
                          (lit "status", PStr (lit "error"));
                          (lit "error", PStr (exn_msg e));
                          (lit "traceback", PStr (format_exc sample_env e))]) = Ok text
    /\ handle_command sample_env (ExampleBackend.attributes sample_env sample_eval sample_inherited) 0
         (example_process []) (PStr (qlit "{'cmd': 'add_message', 'id': 20}"))
       = (example_process [], Returns text).
Proof.
  apply (add_message_needs_its_argument sample_env sample_eval sample_inherited 0 (example_process [])
           (qlit "{'cmd': 'add_message', 'id': 20}")
           [(lit "cmd", PStr (lit "add_message")); (lit "id", PInt 20)]).
  - vm_compute; reflexivity.
  - reflexivity.
  - reflexivity.
Defined.

Lemma division_by_zero_is_reported_witness :
  exists text,
    json_dumps (PDict [(lit "id", PInt 21);
                       (lit "status", PStr (lit "error"));
                       (lit "error", PStr (lit "Division by zero"));
                       (lit "traceback",
                        PStr (format_exc sample_env
                                (ValueError (lit "Division by zero"))))]) = Ok text
    /\ handle_command sample_env sample_echo 0 (echo_process [])
         (PStr (qlit "{'cmd': 'calculate', 'id': 21, 'params': {'b': 0.0, 'a': 1, 'operation': 'divide'}}"))
       = (echo_process [], Returns text).
Proof.
  apply (division_by_zero_is_reported sample_env (lit "__main__")
           (sample_operator Z.add) (sample_operator Z.sub) (sample_operator Z.mul)
           sample_truediv (fun v => type_name v) sample_inherited 0 (echo_process [])
           (qlit "{'cmd': 'calculate', 'id': 21, 'params': {'b': 0.0, 'a': 1, 'operation': 'divide'}}")
           [(lit "cmd", PStr (lit "calculate")); (lit "id", PInt 21);
            (lit "params",
             PDict [(lit "b", PFloat (FDec (Decimal (Pos (D0 Nil)) (D0 Nil))));
                    (lit "a", PInt 1);
                    (lit "operation", PStr (lit "divide"))])]
           [(lit "b", PFloat (FDec (Decimal (Pos (D0 Nil)) (D0 Nil))));
            (lit "a", PInt 1);
            (lit "operation", PStr (lit "divide"))]
           (fun n => match dict_get
                             [(lit "b", PFloat (FDec (Decimal (Pos (D0 Nil)) (D0 Nil))));
                              (lit "a", PInt 1);
                              (lit "operation", PStr (lit "divide"))] n with
                     | Some v => v
                     | None => PNone
                     end)).
  - vm_compute; reflexivity.
  - reflexivity.
  - reflexivity.
  - reflexivity.
  - reflexivity.
  - reflexivity.
Defined.

Lemma unknown_operation_is_reported_witness :
  exists text,
    json_dumps
      (PDict [(lit "id", PInt 22);
              (lit "status", PStr (lit "error"));
              (lit "error", PStr (lit "Unknown operation: " ++ lit "power"));
              (lit "traceback",
               PStr (format_exc sample_env
                       (ValueError (lit "Unknown operation: " ++ lit "power"))))])
    = Ok text
    /\ handle_command sample_env sample_echo 0 (echo_process [])
         (PStr (qlit "{'cmd': 'calculate', 'id': 22, 'params': {'operation': 'power', 'a': 2, 'b': 3}}"))
       = (echo_process [], Returns text).
Proof.
  apply (unknown_operation_is_reported sample_env (lit "__main__")
           (sample_operator Z.add) (sample_operator Z.sub) (sample_operator Z.mul)
           sample_truediv (fun v => type_name v) sample_inherited 0 (echo_process [])
           (qlit "{'cmd': 'calculate', 'id': 22, 'params': {'operation': 'power', 'a': 2, 'b': 3}}")
           [(lit "cmd", PStr (lit "calculate")); (lit "id", PInt 22);
            (lit "params",
             PDict [(lit "operation", PStr (lit "power")); (lit "a", PInt 2);
                    (lit "b", PInt 3)])]
           [(lit "operation", PStr (lit "power")); (lit "a", PInt 2); (lit "b", PInt 3)]
           (fun n => match dict_get
                             [(lit "operation", PStr (lit "power")); (lit "a", PInt 2);
                              (lit "b", PInt 3)] n with
                     | Some v => v
                     | None => PNone
                     end)).
  - vm_compute; reflexivity.
  - reflexivity.
  - reflexivity.
  - reflexivity.
  - intros s Hs H. cbn [In] in Hs.
    destruct Hs as [<- | [<- | [<- | [<- | []]]]]; discriminate H.
Defined.


Lemma status_when_not_installed_witness :
  exists text,
    json_dumps (PDict [(lit "id", PInt 24);
                       (lit "status", PStr (lit "success"));
                       (lit "result",
                        PDict [(lit "available", PBool false);
                               (lit "error", PStr (lit "Reticulum not installed"))])])
    = Ok text
    /\ handle_command sample_env (sample_reticulum false) 0 (reticulum_process false [])
         (PStr (qlit "{'cmd': 'get_status', 'id': 24}"))
       = (reticulum_process false [], Returns text).
Proof.
  apply (status_when_not_installed sample_env unit (lit "__main__") false
           (fun _ => true) (fun _ => Data (PObj (lit "object")))
           (fun _ _ _ w => (w, Returns PNone)) (fun _ w => (w, Returns PNone))
           sample_inherited
           0 (reticulum_process false [])
           (qlit "{'cmd': 'get_status', 'id': 24}")
           [(lit "cmd", PStr (lit "get_status")); (lit "id", PInt 24)]).
  - reflexivity.
  - vm_compute; reflexivity.
  - reflexivity.
  - reflexivity.
Defined.

Lemma reticulum_shutdown_stops_the_loop_witness :
  exists text payload,
    json_dumps (PDict [(lit "id", PInt 25);
                       (lit "status", PStr (lit "success"));
                       (lit "result", PDict [(lit "status", PStr (lit "shutdown"))])])
    = Ok text
    /\ str_encode text = Ok payload
    /\ receive_loop (handle_command sample_env (sample_reticulum false) 0) 2
         (reticulum_process false [qlit "{'cmd': 'shutdown', 'id': 25}" ++ [10];
                                   qlit "{'cmd': 'get_status', 'id': 26}" ++ [10]])
       = (set_stdin []
            (write_stdout (payload ++ [x00])
               (set_running false
                  (reticulum_process false
                     [qlit "{'cmd': 'shutdown', 'id': 25}" ++ [10];
                      qlit "{'cmd': 'get_status', 'id': 26}" ++ [10]]))),
          Returns PNone).
Proof.
  apply (reticulum_shutdown_stops_the_loop sample_env unit (lit "__main__") false
           (fun _ => true) (fun _ => Data (PObj (lit "object")))
           (fun _ _ _ w => (w, Returns PNone)) (fun _ w => (w, Returns PNone))
           sample_inherited
           0 1
           (reticulum_process false [qlit "{'cmd': 'shutdown', 'id': 25}" ++ [10];
                                     qlit "{'cmd': 'get_status', 'id': 26}" ++ [10]])
           (qlit "{'cmd': 'shutdown', 'id': 25}" ++ [10])
           [qlit "{'cmd': 'get_status', 'id': 26}" ++ [10]]
           [(lit "cmd", PStr (lit "shutdown")); (lit "id", PInt 25)]).
  - reflexivity.
  - reflexivity.
  - reflexivity.
  - vm_compute; discriminate.
  - vm_compute; reflexivity.
  - reflexivity.
  - reflexivity.
  - simpl; lia.
Defined.

